(** * Session authentication and community management handlers

    A shallow embedding of the two serverless request handlers
    [supabase/functions/mobile-auth/index.ts] and
    [supabase/functions/manage-community/index.ts], of the SQL function
    [refresh_session] and of the tables they read and write; and, around
    them, of the client hooks that call them ([useSessionRefresh],
    [useAdminAuthSupabase], [useAdminAuth] with [AdminRoute]), of
    [isUserVerified], of the ranking of trending posts and of the handler
    [supabase/functions/toggle-follow/index.ts].

    Conventions.
    - A JavaScript string is held as a Rocq [string]: the sequence of bytes
      of its UTF-8 encoding.  Request fields are [option string]; [None] is
      an absent ([undefined]) field.  Fields carrying JSON numbers, objects
      or arrays are outside the model.
    - A timestamp is a [Z]: milliseconds since the epoch.
    - A table with a key column is a [gmap] from that key to the row; a
      query by the key ([.eq("id", x).single()], [.maybeSingle()]) is the
      lookup [!!], which finds one row or none.
    - The store is reliable: a statement is refused only when a constraint
      of its table refuses the row.
    - Every handler is a function from the store (and what the platform
      supplies: the clock, the random bytes, the generated row identifier)
      to a response and the store left behind.
    - The platform is in order: [SUPABASE_URL], when it is set, is a URL
      that [createClient] takes, and the clock is far enough from the end
      of the range of [Date] for an expiry 30 days ahead to be a date.
    - A column of type [UUID] holds an identifier in the one spelling in
      which the store returns it; a text of a request that is compared with
      such a column is first read as a uuid. *)

From Stdlib Require Import ZArith String Ascii List Bool Lia.
From stdpp Require Import base option gmap strings list fin_maps sorting.

Open Scope string_scope.
Open Scope nat_scope.

(** ** Hexadecimal rendering and the password digest *)

Module Digest.

(** [b.toString(16)] for one hexadecimal digit. *)
Definition hex_digit (d : Z) : ascii :=
  match d with
  | 0 => "0" | 1 => "1" | 2 => "2" | 3 => "3" | 4 => "4" | 5 => "5"
  | 6 => "6" | 7 => "7" | 8 => "8" | 9 => "9" | 10 => "a" | 11 => "b"
  | 12 => "c" | 13 => "d" | 14 => "e" | _ => "f"
  end%Z%char.

(** [b.toString(16).padStart(2, "0")] for a byte [b]. *)
Definition hex_byte (b : Z) : string :=
  String (hex_digit (Z.shiftr b 4)) (String (hex_digit (Z.land b 15)) "").

(** [bytes.map(b => b.toString(16).padStart(2, "0")).join("")]. *)
Fixpoint hex_of_bytes (bs : list Z) : string :=
  match bs with
  | [] => ""
  | b :: rest => hex_byte b ++ hex_of_bytes rest
  end.

(** [new TextEncoder().encode(s)]: the bytes of the string. *)
Fixpoint utf8_encode (s : string) : list Z :=
  match s with
  | EmptyString => []
  | String c rest => Z.of_N (N_of_ascii c) :: utf8_encode rest
  end.

(** *** SHA-256 on 32-bit words held in [Z] *)

Definition mask32 : Z := 0xFFFFFFFF.
Definition add32 (a b : Z) : Z := Z.land (a + b) mask32.
Definition rotr (n x : Z) : Z :=
  Z.lor (Z.shiftr x n) (Z.land (Z.shiftl x (32 - n)) mask32).
Definition Ch (x y z : Z) : Z :=
  Z.lxor (Z.land x y) (Z.land (Z.lxor x mask32) z).
Definition Maj (x y z : Z) : Z :=
  Z.lxor (Z.lxor (Z.land x y) (Z.land x z)) (Z.land y z).
Definition bsig0 (x : Z) : Z := Z.lxor (Z.lxor (rotr 2 x) (rotr 13 x)) (rotr 22 x).
Definition bsig1 (x : Z) : Z := Z.lxor (Z.lxor (rotr 6 x) (rotr 11 x)) (rotr 25 x).
Definition ssig0 (x : Z) : Z := Z.lxor (Z.lxor (rotr 7 x) (rotr 18 x)) (Z.shiftr x 3).
Definition ssig1 (x : Z) : Z := Z.lxor (Z.lxor (rotr 17 x) (rotr 19 x)) (Z.shiftr x 10).

(** The first 64 primes. *)
Definition is_prime (n : nat) : bool :=
  forallb (fun d => negb (n mod d =? 0)%nat) (seq 2 (n - 2)).
Definition primes : list Z := map Z.of_nat (filter is_prime (seq 2 310)).

(** The integer cube root, one bit at a time from bit [bits - 1] down. *)
Fixpoint cube_root (bits : nat) (n r : Z) : Z :=
  match bits with
  | O => r
  | S b =>
      let c := r + 2 ^ Z.of_nat b in
      if c * c * c <=? n then cube_root b n c else cube_root b n r
  end%Z.

(** The round constants: the first 32 bits of the fractional parts of the
    cube roots of the first 64 primes. *)
Definition K256 : list Z :=
  Eval vm_compute in
    map (fun p => Z.land (cube_root 40 (p * 2 ^ 96) 0) mask32)%Z primes.

(** The initial hash value: the first 32 bits of the fractional parts of the
    square roots of the first 8 primes. *)
Definition H256 : list Z :=
  Eval vm_compute in
    map (fun p => Z.land (Z.sqrt (p * 2 ^ 64)) mask32)%Z (firstn 8 primes).

(** The eight bytes of the bit length, most significant first. *)
Definition length_bytes (bits : Z) : list Z :=
  map (fun i => Z.land (Z.shiftr bits (8 * i)) 255) [7; 6; 5; 4; 3; 2; 1; 0]%Z.

(** Padding: one 0x80 byte, zeros up to 56 modulo 64, then the length. *)
Definition pad (msg : list Z) : list Z :=
  let n := Z.of_nat (length msg) in
  msg ++ [128%Z] ++ repeat 0%Z (Z.to_nat ((55 - n) mod 64)) ++ length_bytes (8 * n).

(** Big-endian words of a byte sequence whose length is a multiple of 4. *)
Fixpoint words_of_bytes (bs : list Z) : list Z :=
  match bs with
  | b0 :: b1 :: b2 :: b3 :: rest =>
      (Z.lor (Z.shiftl b0 24) (Z.lor (Z.shiftl b1 16) (Z.lor (Z.shiftl b2 8) b3)))
        :: words_of_bytes rest
  | _ => []
  end.

Definition bytes_of_word (w : Z) : list Z :=
  map (fun i => Z.land (Z.shiftr w (8 * i)) 255) [3; 2; 1; 0]%Z.

(** The message schedule, latest word first: [r] holds W[t-1], W[t-2], ... *)
Fixpoint schedule (n : nat) (r : list Z) : list Z :=
  match n with
  | O => r
  | S n' =>
      let w := add32 (add32 (ssig1 (nth 1 r 0%Z)) (nth 6 r 0%Z))
                     (add32 (ssig0 (nth 14 r 0%Z)) (nth 15 r 0%Z)) in
      schedule n' (w :: r)
  end.

Definition round (st : list Z) (kw : Z * Z) : list Z :=
  match st with
  | [a; b; c; d; e; f; g; h] =>
      let t1 := add32 (add32 (add32 h (bsig1 e)) (add32 (Ch e f g) (fst kw))) (snd kw) in
      let t2 := add32 (bsig0 a) (Maj a b c) in
      [add32 t1 t2; a; b; c; add32 d t1; e; f; g]
  | _ => st
  end.

Definition zip_add (xs ys : list Z) : list Z :=
  map (fun p => add32 (fst p) (snd p)) (combine xs ys).

(** One 16-word block folded into the hash state. *)
Definition compress (st : list Z) (block : list Z) : list Z :=
  let w := rev (schedule 48 (rev block)) in
  zip_add st (fold_left round (combine K256 w) st).

(** The blocks of a word sequence, 16 words each. *)
Fixpoint blocks (fuel : nat) (ws : list Z) : list (list Z) :=
  match fuel, ws with
  | S fuel', _ :: _ => firstn 16 ws :: blocks fuel' (skipn 16 ws)
  | _, _ => []
  end.

Definition sha256 (msg : list Z) : list Z :=
  let ws := words_of_bytes (pad msg) in
  flat_map bytes_of_word (fold_left compress (blocks (length ws) ws) H256).

End Digest.

(** ** The helpers of the authentication handler *)

(** [hashPassword]: the SHA-256 digest of the password, in lower-case
    hexadecimal. *)
Definition hashPassword (password : string) : string :=
  Digest.hex_of_bytes (Digest.sha256 (Digest.utf8_encode password)).

(** [verifyPassword]: [passwordHash === hash]. *)
Definition verifyPassword (password hash : string) : bool :=
  bool_decide (hashPassword password = hash).

(** [generateSessionToken]: the 32 bytes that [crypto.getRandomValues]
    wrote, in hexadecimal. *)
Definition generateSessionToken (random : list Z) : string :=
  Digest.hex_of_bytes random.

(** ** JavaScript values and string helpers *)

(** Truthiness of a field that is absent or a string: [!v] is [negb (truthy v)]. *)
Definition truthy (v : option string) : bool :=
  match v with
  | Some s => bool_decide (s ≠ "")
  | None => false
  end.

(** [v || null] on an optional string. *)
Definition or_null (v : option string) : option string :=
  if truthy v then v else None.

Definition lower_char (c : ascii) : ascii :=
  let n := nat_of_ascii c in
  if (65 <=? n)%nat && (n <=? 90)%nat then ascii_of_nat (n + 32) else c.

(** [s.toLowerCase()].  The handler applies it only to a username that has
    passed [usernameRegex], an ASCII string, where lowering A-Z is all that
    [toLowerCase] does. *)
Fixpoint toLowerCase (s : string) : string :=
  match s with
  | EmptyString => EmptyString
  | String c rest => String (lower_char c) (toLowerCase rest)
  end.

(** The character class [[a-zA-Z0-9_]]. *)
Definition word_char (c : ascii) : bool :=
  let n := nat_of_ascii c in
  ((97 <=? n)%nat && (n <=? 122)%nat) || ((65 <=? n)%nat && (n <=? 90)%nat)
  || ((48 <=? n)%nat && (n <=? 57)%nat) || (n =? 95)%nat.

(** Greedy matching of at most [max] characters of the class: the number of
    characters consumed and the rest of the input. *)
Fixpoint match_class (max : nat) (s : string) : nat * string :=
  match max, s with
  | S k, String c rest =>
      if word_char c
      then let '(n, r) := match_class k rest in (S n, r)
      else (O, s)
  | _, _ => (O, s)
  end.

(** [/^[a-zA-Z0-9_]{3,30}$/.test(s)]: the class is matched greedily, at
    least 3 times, and [$] then requires the end of the input (no flag: no
    line mode).  Giving back characters never helps [$], so there is no
    backtracking to model. *)
Definition usernameRegex_test (s : string) : bool :=
  let '(n, rest) := match_class 30 s in
  (3 <=? n)%nat && bool_decide (rest = "").

(** What [trim] removes is the white space and the line terminators of
    ECMAScript.  In UTF-8 they take one, two or three bytes:
    - one byte: tab U+0009, line feed U+000A, vertical tab U+000B, form
      feed U+000C, carriage return U+000D, space U+0020;
    - two bytes: no-break space U+00A0 ([C2 A0]);
    - three bytes: U+1680 ([E1 9A 80]), U+2000 to U+200A ([E2 80 80] to
      [E2 80 8A]), the line and paragraph separators U+2028 and U+2029
      ([E2 80 A8], [E2 80 A9]), U+202F ([E2 80 AF]), U+205F ([E2 81 9F]),
      U+3000 ([E3 80 80]) and the byte order mark U+FEFF ([EF BB BF]). *)
Definition white_space (c : ascii) : bool :=
  let n := nat_of_ascii c in
  ((9 <=? n)%nat && (n <=? 13)%nat) || (n =? 32)%nat.

Definition white_space2 (c1 c2 : ascii) : bool :=
  (nat_of_ascii c1 =? 0xC2)%nat && (nat_of_ascii c2 =? 0xA0)%nat.

Definition white_space3 (c1 c2 c3 : ascii) : bool :=
  let a := nat_of_ascii c1 in
  let b := nat_of_ascii c2 in
  let c := nat_of_ascii c3 in
  ((a =? 0xE1)%nat && (b =? 0x9A)%nat && (c =? 0x80)%nat)
  || ((a =? 0xE2)%nat && (b =? 0x80)%nat
      && (((0x80 <=? c)%nat && (c <=? 0x8A)%nat)
          || (c =? 0xA8)%nat || (c =? 0xA9)%nat || (c =? 0xAF)%nat))
  || ((a =? 0xE2)%nat && (b =? 0x81)%nat && (c =? 0x9F)%nat)
  || ((a =? 0xE3)%nat && (b =? 0x80)%nat && (c =? 0x80)%nat)
  || ((a =? 0xEF)%nat && (b =? 0xBB)%nat && (c =? 0xBF)%nat).

(** The bytes left when the white space at the front is removed.  With
    [backwards] the bytes are those of the string read from its end, so
    that the bytes of a code point come in the opposite order. *)
Fixpoint trim_start (backwards : bool) (cs : list ascii) : list ascii :=
  match cs with
  | c1 :: r1 =>
      if white_space c1 then trim_start backwards r1 else
      match r1 with
      | c2 :: r2 =>
          if (if backwards then white_space2 c2 c1 else white_space2 c1 c2)
          then trim_start backwards r2 else
          match r2 with
          | c3 :: r3 =>
              if (if backwards then white_space3 c3 c2 c1
                  else white_space3 c1 c2 c3)
              then trim_start backwards r3 else cs
          | [] => cs
          end
      | [] => cs
      end
  | [] => []
  end.

(** [s.trim()]. *)
Definition trim (s : string) : string :=
  string_of_list_ascii
    (rev (trim_start true (rev (trim_start false (list_ascii_of_string s))))).

(** [v?.trim()]. *)
Definition opt_trim (v : option string) : option string := trim <$> v.

(** The result of a query builder call: [{ data, error }]. *)
Record Result (A : Type) := mkResult { data : option A; error : bool }.
Arguments mkResult {A} _ _.
Arguments data {A} _.
Arguments error {A} _.

(** [.maybeSingle()]: no row is [data: null] without an error, one row is
    that row, several rows are an error. *)
Definition maybeSingle {A : Type} (rows : list A) : Result A :=
  match rows with
  | [] => mkResult None false
  | [r] => mkResult (Some r) false
  | _ => mkResult None true
  end.

(** ** The tables *)

(** [user_credentials]: [id] is the primary key and [mobile_number] is
    [NOT NULL UNIQUE]; the handler reads the table by [mobile_number], which
    is the key of the map. *)
Module Credential.
Record t := mk { id : string; password_hash : string }.
End Credential.

(** [profiles], keyed by [id].  [is_online] is [None] while the handler has
    not written it. *)
Module Profile.
Record t := mk {
  full_name : string;
  mobile_number : string;
  username : string;
  is_online : option bool }.
End Profile.

(** [user_sessions], keyed by [session_token]. *)
Module Session.
Record t := mk {
  user_id : string;
  expires_at : Z;
  is_active : bool;
  updated_at : Z }.
End Session.

(** [communities], keyed by [id]. *)
Module Community.
Record t := mk {
  name : string;
  description : option string;
  cover_image_url : option string;
  created_by : string;
  updated_at : option Z }.
End Community.

(** [community_members]. *)
Module Member.
Record t := mk { community_id : string; user_id : string; role : string }.
End Member.

(** [community_discussions], keyed by [id]. *)
Module Discussion.
Record t := mk { user_id : string; community_id : string; content : string }.
End Discussion.

Record Store := mkStore {
  user_credentials : gmap string Credential.t;
  profiles : gmap string Profile.t;
  user_sessions : gmap string Session.t;
  communities : gmap string Community.t;
  community_members : list Member.t;
  community_discussions : gmap string Discussion.t }.

Definition with_credentials (s : Store) (c : gmap string Credential.t) : Store :=
  mkStore c (profiles s) (user_sessions s) (communities s)
          (community_members s) (community_discussions s).
Definition with_profiles (s : Store) (p : gmap string Profile.t) : Store :=
  mkStore (user_credentials s) p (user_sessions s) (communities s)
          (community_members s) (community_discussions s).
Definition with_sessions (s : Store) (x : gmap string Session.t) : Store :=
  mkStore (user_credentials s) (profiles s) x (communities s)
          (community_members s) (community_discussions s).
Definition with_communities (s : Store) (c : gmap string Community.t) : Store :=
  mkStore (user_credentials s) (profiles s) (user_sessions s) c
          (community_members s) (community_discussions s).
Definition with_members (s : Store) (m : list Member.t) : Store :=
  mkStore (user_credentials s) (profiles s) (user_sessions s) (communities s)
          m (community_discussions s).
Definition with_discussions (s : Store) (d : gmap string Discussion.t) : Store :=
  mkStore (user_credentials s) (profiles s) (user_sessions s) (communities s)
          (community_members s) d.

(** What the platform supplies to one invocation: the two environment
    variables, the clock ([Date.now()], [now()]), the bytes written by
    [crypto.getRandomValues] and the identifier that [gen_random_uuid()]
    gives to an inserted row. *)
Record Platform := mkPlatform {
  SUPABASE_URL : option string;
  SUPABASE_SERVICE_ROLE_KEY : option string;
  now : Z;
  getRandomValues : list Z;
  gen_random_uuid : string }.

(** [30 * 24 * 60 * 60 * 1000] milliseconds, [interval '30 days']. *)
Definition thirty_days : Z := 30 * 24 * 60 * 60 * 1000.

(** Response bodies. *)
Inductive Body :=
| NoBody
| Error (message : string)
| StoreError
| Success
| SignedUp (id mobile_number full_name session_token : string)
| SignedIn (id mobile_number : string) (profile : option Profile.t)
           (session_token : string)
| Created (id : string) (community : Community.t).

Record Response := mkResponse { status : Z; body : Body }.

Definition json_error (code : Z) (message : string) : Response :=
  mkResponse code (Error message).

(** ** Statements against the tables *)

(** [insert] into [user_credentials]: refused when the mobile number or the
    identifier is already there. *)
Definition insert_credential (s : Store) (mobile_number : string)
    (row : Credential.t) : option Store :=
  match user_credentials s !! mobile_number with
  | Some _ => None
  | None =>
      if bool_decide (map_Forall (λ _ r, Credential.id r ≠ Credential.id row)
                                 (user_credentials s))
      then Some (with_credentials s (<[mobile_number := row]> (user_credentials s)))
      else None
  end.

(** [delete().eq("id", id)] on [user_credentials]. *)
Definition delete_credential (s : Store) (id : string) : Store :=
  with_credentials s
    (filter (λ kv : string * Credential.t, Credential.id kv.2 ≠ id)
            (user_credentials s)).

(** [select().eq("username", u)] on [profiles]. *)
Definition profiles_by_username (s : Store) (u : string)
    : list (string * Profile.t) :=
  map_to_list (filter (λ kv : string * Profile.t, Profile.username kv.2 = u)
                      (profiles s)).

(** A username is taken when a profile holds it in some letter case. *)
Definition username_taken (s : Store) (u : string) : Prop :=
  ∃ id p, profiles s !! id = Some p
          ∧ toLowerCase (Profile.username p) = toLowerCase u.

(** Modelled from the spec: the definition of the [profiles] table is not
    among the sources.  A profile is keyed by the identifier of its
    credential and the username is unique across profiles whatever the
    letter case; an insertion that breaks either is refused. *)
Definition insert_profile (s : Store) (id : string) (row : Profile.t)
    : option Store :=
  match profiles s !! id with
  | Some _ => None
  | None =>
      if bool_decide (map_Forall
            (λ _ p, toLowerCase (Profile.username p)
                    ≠ toLowerCase (Profile.username row)) (profiles s))
      then Some (with_profiles s (<[id := row]> (profiles s)))
      else None
  end.

(** [update({ is_online: true }).eq("id", id)] on [profiles]. *)
Definition set_online (s : Store) (id : string) : Store :=
  with_profiles s
    (alter (λ p, Profile.mk (Profile.full_name p) (Profile.mobile_number p)
                            (Profile.username p) (Some true)) id (profiles s)).

Definition deactivate (x : Session.t) : Session.t :=
  Session.mk (Session.user_id x) (Session.expires_at x) false
             (Session.updated_at x).

(** [update({ is_active: false }).eq("user_id", id)] on [user_sessions]. *)
Definition invalidate_sessions (s : Store) (id : string) : Store :=
  with_sessions s
    ((λ x, if bool_decide (Session.user_id x = id) then deactivate x else x)
       <$> user_sessions s).

(** Modelled from the spec: the definition of the [user_sessions] table is
    not among the sources.  The token is unique, so an insertion with a token
    that is already there is refused, and a session is created active.  The
    [updated_at] column takes its default, [now()]. *)
Definition insert_session (s : Store) (token user_id : string)
    (expires_at now : Z) : option Store :=
  match user_sessions s !! token with
  | Some _ => None
  | None =>
      Some (with_sessions s
              (<[token := Session.mk user_id expires_at true now]>
                 (user_sessions s)))
  end.

(** Modelled from the spec: the SQL function [validate_session] is not among
    the sources.  It looks the session up by its token; the session is valid
    only if its active flag is true and its expiry is in the future, and the
    function then returns the owning user identifier, otherwise null. *)
Definition validate_session (s : Store) (now : Z) (p_session_token : string)
    : option string :=
  match user_sessions s !! p_session_token with
  | Some x =>
      if Session.is_active x && (now <? Session.expires_at x)%Z
      then Some (Session.user_id x)
      else None
  | None => None
  end.

(** [refresh_session]: the [UPDATE ... WHERE session_token = p_session_token
    AND is_active = true AND expires_at > now() RETURNING true INTO v], then
    [COALESCE(v, false)]. *)
Definition refresh_session (s : Store) (now : Z) (p_session_token : string)
    : bool * Store :=
  match user_sessions s !! p_session_token with
  | Some x =>
      if Session.is_active x && (now <? Session.expires_at x)%Z
      then (true,
            with_sessions s
              (<[p_session_token :=
                   Session.mk (Session.user_id x) (now + thirty_days)
                              (Session.is_active x) now]> (user_sessions s)))
      else (false, s)
  | None => (false, s)
  end.

(** ** The authentication handler, [mobile-auth/index.ts] *)

Module MobileAuth.

(** The request: its method and the fields of its JSON body.  The handler
    reads [action], [mobile_number], [password], [full_name] and
    [username]; a [session_token] in the body is not read. *)
Record Request := mkRequest {
  method : string;
  action : option string;
  mobile_number : option string;
  password : option string;
  full_name : option string;
  username : option string;
  session_token : option string }.

(** The [signup] branch, entered with a truthy mobile number and
    password. *)
Definition signup (pf : Platform) (s : Store)
    (mobile_number password : string) (full_name username : option string)
    : Response * Store :=
  if negb (truthy full_name) || negb (truthy username) then
    (json_error 400 "Full name and username are required for signup", s)
  else
  let full_name := default "" full_name in
  let username := default "" username in
  if negb (usernameRegex_test username) then
    (json_error 400
       "Username must be 3-30 characters and only contain letters, numbers, and underscores",
     s)
  else
  (* Check if mobile number already exists *)
  match user_credentials s !! mobile_number with
  | Some _ => (json_error 400 "This mobile number is already registered", s)
  | None =>
  (* Check if username already exists *)
  match data (maybeSingle (profiles_by_username s (toLowerCase username))) with
  | Some _ => (json_error 400 "This username is already taken", s)
  | None =>
  (* Hash password and create user credentials *)
  let id := gen_random_uuid pf in
  match insert_credential s mobile_number
          (Credential.mk id (hashPassword password)) with
  | None => (json_error 500 "Failed to create account", s)
  | Some s1 =>
  (* Create profile *)
  match insert_profile s1 id
          (Profile.mk full_name mobile_number (toLowerCase username) None) with
  | None =>
      (* Rollback credentials if profile creation fails *)
      (json_error 500 "Failed to create profile", delete_credential s1 id)
  | Some s2 =>
  (* Generate session token and store in database *)
  let sessionToken := generateSessionToken (getRandomValues pf) in
  match insert_session s2 sessionToken id (now pf + thirty_days) (now pf) with
  | None => (json_error 500 "Failed to create session", s2)
  | Some s3 =>
      (mkResponse 200 (SignedUp id mobile_number full_name sessionToken), s3)
  end end end end end.

(** The [signin] branch. *)
Definition signin (pf : Platform) (s : Store)
    (mobile_number password : string) : Response * Store :=
  (* Get user credentials *)
  match user_credentials s !! mobile_number with
  | None => (json_error 401 "Invalid mobile number or password", s)
  | Some credentials =>
  (* Verify password *)
  if negb (verifyPassword password (Credential.password_hash credentials)) then
    (json_error 401 "Invalid mobile number or password", s)
  else
  let id := Credential.id credentials in
  (* Get profile *)
  let profile := profiles s !! id in
  let sessionToken := generateSessionToken (getRandomValues pf) in
  (* Invalidate old sessions for this user *)
  let s1 := invalidate_sessions s id in
  (* Create new session *)
  match insert_session s1 sessionToken id (now pf + thirty_days) (now pf) with
  | None => (json_error 500 "Failed to create session", s1)
  | Some s2 =>
      (* Update online status *)
      let s3 := set_online s2 id in
      (* [{ id, mobile_number, full_name: profile?.full_name, ...profile }]:
         the columns of the profile, when there is one, overwrite the
         fields before them. *)
      let mobile' :=
        match profile with
        | Some p => Profile.mobile_number p
        | None => mobile_number
        end in
      (mkResponse 200 (SignedIn id mobile' profile sessionToken), s3)
  end end.

(** The handler. *)
Definition serve (pf : Platform) (s : Store) (req : Request)
    : Response * Store :=
  (* Handle CORS preflight *)
  if bool_decide (method req = "OPTIONS") then (mkResponse 200 NoBody, s) else
  if negb (truthy (SUPABASE_URL pf)) || negb (truthy (SUPABASE_SERVICE_ROLE_KEY pf))
  then (json_error 500 "Server not configured", s) else
  if negb (truthy (mobile_number req)) || negb (truthy (password req)) then
    (json_error 400 "Mobile number and password are required", s)
  else
  let mobile := default "" (mobile_number req) in
  let pass := default "" (password req) in
  if bool_decide (action req = Some "signup") then
    signup pf s mobile pass (full_name req) (username req)
  else if bool_decide (action req = Some "signin") then
    signin pf s mobile pass
  else
    (json_error 400 "Invalid action", s).

End MobileAuth.

(** ** The community handler, [manage-community/index.ts] *)

Module ManageCommunity.

(** The request: its method, the [x-session-token] header and the fields
    of its JSON body. *)
Record Request := mkRequest {
  method : string;
  x_session_token : option string;
  action : option string;
  community_id : option string;
  name : option string;
  description : option string;
  cover_image_url : option string;
  discussion_id : option string }.

Section Handler.

(** The definitions of [communities] and [community_members] are not
    among the sources.  What these tables accept is a parameter of the
    handler: the rows of [communities] and of [community_members] that
    the store takes, and what deleting a community does to the member
    rows ([None]: the deletion is refused). *)
Variable communities_accepts : Store → Community.t → bool.
Variable members_accepts : Store → Member.t → bool.
Variable members_on_delete : string → list Member.t → option (list Member.t).

(** The column [community_discussions.id] is a [UUID], and so is
    [communities.id], which [community_discussions.community_id]
    references.  A filter [.eq("id", text)] on such a column does not
    compare texts: the store reads the text as a uuid and compares uuids,
    so that a row is found under every spelling of its identifier, and a
    text that is no uuid makes the query fail with an error.  A table of
    this model is keyed by the identifier in the spelling in which the
    store returns it.  How the store reads a text is a parameter of the
    handler: [uuid_in text] is the identifier it denotes, in that
    spelling, or [None] when the text is no uuid. *)
Variable uuid_in : string → option string.

(** [insert] into [communities], the row identified by [id]. *)
Definition insert_community (s : Store) (id : string) (row : Community.t)
    : option Store :=
  match communities s !! id with
  | Some _ => None
  | None =>
      if communities_accepts s row
      then Some (with_communities s (<[id := row]> (communities s)))
      else None
  end.

(** [update(row).eq("id", id)] on [communities]. *)
Definition update_community (s : Store) (id : string) (row : Community.t)
    : option Store :=
  if communities_accepts s row
  then Some (with_communities s (<[id := row]> (communities s)))
  else None.

(** [delete().eq("id", id)] on [communities]; the discussions of the
    community go with it ([ON DELETE CASCADE]). *)
Definition delete_community (s : Store) (id : string) : option Store :=
  match members_on_delete id (community_members s) with
  | None => None
  | Some ms =>
      Some (mkStore (user_credentials s) (profiles s) (user_sessions s)
              (delete id (communities s)) ms
              (filter (λ kv : string * Discussion.t,
                         Discussion.community_id kv.2 ≠ id)
                      (community_discussions s)))
  end.

(** [insert] into [community_members]. *)
Definition insert_member (s : Store) (row : Member.t) : option Store :=
  if members_accepts s row
  then Some (with_members s (community_members s ++ [row]))
  else None.

(** [delete().eq("community_id", c).eq("user_id", u)] on
    [community_members]. *)
Definition delete_member (s : Store) (c u : string) : Store :=
  with_members s
    (filter (λ m, ¬ (Member.community_id m = c ∧ Member.user_id m = u))
            (community_members s)).

(** [delete().eq("id", id)] on [community_discussions]. *)
Definition delete_discussion_row (s : Store) (id : string) : Store :=
  with_discussions s (delete id (community_discussions s)).

Definition create (pf : Platform) (s : Store) (userId : string)
    (req : Request) : Response * Store :=
  if negb (truthy (opt_trim (name req))) then
    (json_error 400 "Community name is required", s)
  else
  let row :=
    Community.mk (trim (default "" (name req)))
                 (or_null (opt_trim (description req)))
                 (or_null (cover_image_url req)) userId None in
  let id := gen_random_uuid pf in
  match insert_community s id row with
  | None => (mkResponse 400 StoreError, s)
  | Some s1 =>
      (* Auto-join creator as admin; a failure is logged only *)
      let s2 :=
        match insert_member s1 (Member.mk id userId "admin") with
        | Some s2 => s2
        | None => s1
        end in
      (mkResponse 200 (Created id row), s2)
  end.

Definition update (pf : Platform) (s : Store) (userId : string)
    (req : Request) : Response * Store :=
  if negb (truthy (community_id req)) then
    (json_error 400 "Community ID is required", s)
  else
  (* Verify ownership; a query that fails leaves existingCommunity null *)
  match uuid_in (default "" (community_id req)) with
  | None => (json_error 403 "Not authorized to update this community", s)
  | Some id =>
  match communities s !! id with
  | None => (json_error 403 "Not authorized to update this community", s)
  | Some existingCommunity =>
      if negb (bool_decide (Community.created_by existingCommunity = userId))
      then (json_error 403 "Not authorized to update this community", s)
      else
      let row :=
        Community.mk
          (default (Community.name existingCommunity) (opt_trim (name req)))
          (or_null (opt_trim (description req)))
          (or_null (cover_image_url req))
          (Community.created_by existingCommunity)
          (Some (now pf)) in
      match update_community s id row with
      | None => (mkResponse 400 StoreError, s)
      | Some s1 => (mkResponse 200 Success, s1)
      end
  end
  end.

Definition delete_ (s : Store) (userId : string) (req : Request)
    : Response * Store :=
  if negb (truthy (community_id req)) then
    (json_error 400 "Community ID is required", s)
  else
  (* Verify ownership; a query that fails leaves existingCommunity null *)
  match uuid_in (default "" (community_id req)) with
  | None => (json_error 403 "Not authorized to delete this community", s)
  | Some id =>
  match communities s !! id with
  | None => (json_error 403 "Not authorized to delete this community", s)
  | Some existingCommunity =>
      if negb (bool_decide (Community.created_by existingCommunity = userId))
      then (json_error 403 "Not authorized to delete this community", s)
      else
      match delete_community s id with
      | None => (mkResponse 400 StoreError, s)
      | Some s1 => (mkResponse 200 Success, s1)
      end
  end
  end.

Definition join (s : Store) (userId : string) (req : Request)
    : Response * Store :=
  if negb (truthy (community_id req)) then
    (json_error 400 "Community ID is required", s)
  else
  let id := default "" (community_id req) in
  match insert_member s (Member.mk id userId "member") with
  | None => (mkResponse 400 StoreError, s)
  | Some s1 => (mkResponse 200 Success, s1)
  end.

Definition leave (s : Store) (userId : string) (req : Request)
    : Response * Store :=
  if negb (truthy (community_id req)) then
    (json_error 400 "Community ID is required", s)
  else
  let id := default "" (community_id req) in
  (mkResponse 200 Success, delete_member s id userId).

Definition delete_discussion (s : Store) (userId : string) (req : Request)
    : Response * Store :=
  if negb (truthy (discussion_id req)) then
    (json_error 400 "Discussion ID is required", s)
  else
  (* Fetch discussion to get community_id and user_id; a query that fails
     sets fetchError *)
  match uuid_in (default "" (discussion_id req)) with
  | None => (json_error 404 "Discussion not found", s)
  | Some id =>
  match community_discussions s !! id with
  | None => (json_error 404 "Discussion not found", s)
  | Some discussion =>
      (* Check if user is the discussion owner *)
      let isOwner := bool_decide (Discussion.user_id discussion = userId) in
      (* Check if user is community creator (admin); discussion.community_id
         is a value of the store, in the store's own spelling *)
      let isAdmin :=
        if negb isOwner then
          match communities s !! Discussion.community_id discussion with
          | Some community =>
              bool_decide (Community.created_by community = userId)
          | None => false
          end
        else false in
      if negb isOwner && negb isAdmin then
        (json_error 403 "Not authorized to delete this discussion", s)
      else
        (mkResponse 200 Success, delete_discussion_row s id)
  end
  end.

(** The handler. *)
Definition serve (pf : Platform) (s : Store) (req : Request)
    : Response * Store :=
  if bool_decide (method req = "OPTIONS") then (mkResponse 200 NoBody, s) else
  if negb (truthy (SUPABASE_URL pf)) || negb (truthy (SUPABASE_SERVICE_ROLE_KEY pf))
  then (json_error 500 "Server not configured", s) else
  (* Validate session token *)
  if negb (truthy (x_session_token req)) then
    (json_error 401 "No session token provided", s)
  else
  let sessionToken := default "" (x_session_token req) in
  let userId := validate_session s (now pf) sessionToken in
  if negb (truthy userId) then
    (json_error 401 "Invalid or expired session", s)
  else
  let userId := default "" userId in
  if bool_decide (action req = Some "create") then create pf s userId req
  else if bool_decide (action req = Some "update") then update pf s userId req
  else if bool_decide (action req = Some "delete") then delete_ s userId req
  else if bool_decide (action req = Some "join") then join s userId req
  else if bool_decide (action req = Some "leave") then leave s userId req
  else if bool_decide (action req = Some "delete_discussion")
       then delete_discussion s userId req
  else (json_error 400 "Invalid action", s).

End Handler.

End ManageCommunity.

(** ** Vocabulary of the statements *)

(** Both environment variables are set. *)
Definition configured (pf : Platform) : Prop :=
  truthy (SUPABASE_URL pf) = true ∧ truthy (SUPABASE_SERVICE_ROLE_KEY pf) = true.

(** A letter, a digit or an underscore, by character code. *)
Definition letter_digit_underscore (c : ascii) : Prop :=
  let n := nat_of_ascii c in
  (nat_of_ascii "a" ≤ n ≤ nat_of_ascii "z")%nat
  ∨ (nat_of_ascii "A" ≤ n ≤ nat_of_ascii "Z")%nat
  ∨ (nat_of_ascii "0" ≤ n ≤ nat_of_ascii "9")%nat
  ∨ c = "_"%char.

(** The usernames the specification allows: 3 to 30 characters, each a
    letter, a digit or an underscore. *)
Definition allowed_username (u : string) : Prop :=
  (3 ≤ String.length u ≤ 30)%nat
  ∧ Forall letter_digit_underscore (list_ascii_of_string u).

(** The three validation messages of the [signup] branch and of the check
    before it. *)
Definition validation_message (b : Body) : Prop :=
  b = Error "Mobile number and password are required"
  ∨ b = Error "Full name and username are required for signup"
  ∨ b = Error "Username must be 3-30 characters and only contain letters, numbers, and underscores".

(** The session token of a success payload. *)
Definition issued_token (r : Response) : option string :=
  match body r with
  | SignedUp _ _ _ t => Some t
  | SignedIn _ _ _ t => Some t
  | _ => None
  end.

(** A session that [refresh_session] extends: there, active, not expired. *)
Definition live_session (s : Store) (now : Z) (token : string) : Prop :=
  ∃ x, user_sessions s !! token = Some x
       ∧ Session.is_active x = true
       ∧ (now < Session.expires_at x)%Z.

(** No credential row carries the identifier. *)
Definition unused_id (s : Store) (id : string) : Prop :=
  map_Forall (λ _ r, Credential.id r ≠ id) (user_credentials s)
  ∧ profiles s !! id = None.

(** A signup request with every field present and non-empty. *)
Definition signup_request (req : MobileAuth.Request)
    (mobile password full_name username : string) : Prop :=
  MobileAuth.method req ≠ "OPTIONS"
  ∧ MobileAuth.action req = Some "signup"
  ∧ MobileAuth.mobile_number req = Some mobile ∧ mobile ≠ ""
  ∧ MobileAuth.password req = Some password ∧ password ≠ ""
  ∧ MobileAuth.full_name req = Some full_name ∧ full_name ≠ ""
  ∧ MobileAuth.username req = Some username ∧ username ≠ "".

(** A signin request with both fields present and non-empty. *)
Definition signin_request (req : MobileAuth.Request)
    (mobile password : string) : Prop :=
  MobileAuth.method req ≠ "OPTIONS"
  ∧ MobileAuth.action req = Some "signin"
  ∧ MobileAuth.mobile_number req = Some mobile ∧ mobile ≠ ""
  ∧ MobileAuth.password req = Some password ∧ password ≠ "".

(** The store after a signup that went through. *)
Definition signed_up (pf : Platform) (s : Store) (m p fn u : string) : Store :=
  let id := gen_random_uuid pf in
  mkStore (<[m := Credential.mk id (hashPassword p)]> (user_credentials s))
          (<[id := Profile.mk fn m (toLowerCase u) None]> (profiles s))
          (<[generateSessionToken (getRandomValues pf) :=
               Session.mk id (now pf + thirty_days) true (now pf)]>
             (user_sessions s))
          (communities s) (community_members s) (community_discussions s).

(** The store after a signin that went through, for the user [id]. *)
Definition signed_in (pf : Platform) (s : Store) (id : string) : Store :=
  set_online
    (with_sessions (invalidate_sessions s id)
       (<[generateSessionToken (getRandomValues pf) :=
            Session.mk id (now pf + thirty_days) true (now pf)]>
          (user_sessions (invalidate_sessions s id))))
    id.

(** The credential stored for a mobile number carries the digest of the
    password. *)
Definition credential_matches (s : Store) (mobile password : string) : Prop :=
  ∃ c, user_credentials s !! mobile = Some c
       ∧ hashPassword password = Credential.password_hash c.

(** Every credential has its profile. *)
Definition no_orphan_credential (s : Store) : Prop :=
  map_Forall (λ _ r, is_Some (profiles s !! Credential.id r)) (user_credentials s).

(** The caller may delete a discussion: it owns it or it created the
    community of the discussion. *)
Definition may_delete (s : Store) (uid : string) (d : Discussion.t) : Prop :=
  Discussion.user_id d = uid
  ∨ ∃ c, communities s !! Discussion.community_id d = Some c
         ∧ Community.created_by c = uid.

(** The uniqueness invariants of the data model: a credential identifier
    names one credential, and a username, whatever its letter case, one
    profile.  (Mobile numbers and session tokens are the keys of their
    maps.) *)
Definition unique_rows (s : Store) : Prop :=
  (∀ m1 m2 c1 c2,
     user_credentials s !! m1 = Some c1 → user_credentials s !! m2 = Some c2 →
     Credential.id c1 = Credential.id c2 → m1 = m2)
  ∧ (∀ i j p q,
       profiles s !! i = Some p → profiles s !! j = Some q →
       toLowerCase (Profile.username p) = toLowerCase (Profile.username q) →
       i = j).

(** The specification of signin read for every request, empty fields
    included: success exactly with a matching credential, and the generic
    401 in every other case. *)
Definition authenticate_for_every_input (pf : Platform) (s : Store)
    (req : MobileAuth.Request) (mobile password : string) : Prop :=
  (status (MobileAuth.serve pf s req).1 = 200%Z ↔ credential_matches s mobile password)
  ∧ (¬ credential_matches s mobile password →
     (MobileAuth.serve pf s req).1
     = json_error 401 "Invalid mobile number or password").

(** ** Sample data *)

Module Sample.

Definition platform (t : Z) (byte : Z) (uuid : string) : Platform :=
  mkPlatform (Some "https://project.supabase.co") (Some "service-role-key")
             t (repeat byte 32) uuid.

(** Three invocations, a minute apart. *)
Definition first : Platform :=
  platform 1769140000000 0xab "7d2f1c1e-0000-4000-8000-000000000001".
Definition second : Platform :=
  platform 1769140060000 0xcd "7d2f1c1e-0000-4000-8000-000000000002".
Definition third : Platform :=
  platform 1769140120000 0xef "7d2f1c1e-0000-4000-8000-000000000003".

Definition empty : Store := mkStore ∅ ∅ ∅ ∅ [] ∅.

Definition signup (mobile password full_name username : string)
    : MobileAuth.Request :=
  MobileAuth.mkRequest "POST" (Some "signup") (Some mobile) (Some password)
                       (Some full_name) (Some username) None.

Definition signin (mobile password : string) : MobileAuth.Request :=
  MobileAuth.mkRequest "POST" (Some "signin") (Some mobile) (Some password)
                       None None None.

Definition admin_validate (token : string) : MobileAuth.Request :=
  MobileAuth.mkRequest "POST" (Some "admin_validate") None None None None
                       (Some token).

(** The store after Asha has signed up. *)
Definition registered : Store :=
  (MobileAuth.serve first empty
     (signup "9876543210" "s3cret" "Asha" "Asha_01")).2.

Definition asha : string := gen_random_uuid first.
Definition first_token : string := generateSessionToken (getRandomValues first).
Definition second_token : string := generateSessionToken (getRandomValues second).
Definition third_token : string := generateSessionToken (getRandomValues third).

(** A store in which a profile written elsewhere holds a username with a
    capital letter. *)
Definition with_mixed_case_profile : Store :=
  with_profiles empty
    {[ "5b0c7a00-0000-4000-8000-00000000000a"
       := Profile.mk "Bob" "9000000001" "Bob" None ]}.

(** Asha has created a community in which another user has posted. *)
Definition forum : Store :=
  with_discussions
    (with_communities registered
       {[ "c0000000-0000-4000-8000-000000000001"
          := Community.mk "Makers" None None asha None ]})
    {[ "d0000000-0000-4000-8000-000000000001"
       := Discussion.mk "5b0c7a00-0000-4000-8000-00000000000a"
                        "c0000000-0000-4000-8000-000000000001" "hello" ]}.

Definition community_request (token : option string) (action : string)
    (community discussion : option string) : ManageCommunity.Request :=
  ManageCommunity.mkRequest "POST" token (Some action) community
                            (Some "Makers") None None discussion.

(** A store that takes every row and lets member rows be when a community
    goes. *)
Definition accept_community : Store → Community.t → bool := λ _ _, true.
Definition accept_member : Store → Member.t → bool := λ _ _, true.
Definition keep_members : string → list Member.t → option (list Member.t) :=
  λ _ ms, Some ms.

(** A store that reads uuids as PostgreSQL does: 32 hexadecimal digits in
    either letter case, with an optional hyphen after each group of four
    digits and optional braces around the whole; it returns them in lower
    case, in groups of 8, 4, 4, 4 and 12 digits. *)
Definition isxdigit (c : ascii) : bool :=
  let n := nat_of_ascii c in
  ((48 <=? n)%nat && (n <=? 57)%nat) || ((97 <=? n)%nat && (n <=? 102)%nat)
  || ((65 <=? n)%nat && (n <=? 70)%nat).

(** [n] bytes, two digits each, are still to be read: the digits in lower
    case and the rest of the text. *)
Fixpoint uuid_bytes (n : nat) (cs : list ascii)
    : option (list ascii * list ascii) :=
  match n, cs with
  | O, _ => Some ([], cs)
  | S k, a :: b :: rest =>
      if isxdigit a && isxdigit b then
        let rest :=
          match rest with
          | "-"%char :: r => if Nat.even k && (0 <? k)%nat then r else rest
          | _ => rest
          end in
        match uuid_bytes k rest with
        | Some (digits, tl) =>
            Some (lower_char a :: lower_char b :: digits, tl)
        | None => None
        end
      else None
  | S _, _ => None
  end.

Definition uuid_out (digits : list ascii) : string :=
  string_of_list_ascii
    (take 8 digits ++ "-"%char :: take 4 (drop 8 digits)
     ++ "-"%char :: take 4 (drop 12 digits)
     ++ "-"%char :: take 4 (drop 16 digits)
     ++ "-"%char :: drop 20 digits)%list.

Definition uuid_in (text : string) : option string :=
  let cs := list_ascii_of_string text in
  let '(closing, cs) :=
    match cs with
    | "{"%char :: r => (["}"%char], r)
    | _ => ([], cs)
    end in
  match uuid_bytes 16 cs with
  | Some (digits, tl) =>
      if bool_decide (tl = closing) then Some (uuid_out digits) else None
  | None => None
  end.

Definition community_serve :=
  ManageCommunity.serve accept_community accept_member keep_members uuid_in.

End Sample.

(** ** Vocabulary of the further properties *)

(** A lower-case hexadecimal digit. *)
Definition hex_char (c : ascii) : Prop :=
  (nat_of_ascii "0" ≤ nat_of_ascii c ≤ nat_of_ascii "9")%nat
  ∨ (nat_of_ascii "a" ≤ nat_of_ascii c ≤ nat_of_ascii "f")%nat.

(** A byte, as [Uint8Array] holds it. *)
Definition byte_value (b : Z) : Prop := (0 ≤ b < 256)%Z.

(** The value of a hexadecimal digit, and the bytes of a hexadecimal string:
    the inverse of [Digest.hex_of_bytes], used to show that it loses
    nothing. *)
Definition hex_value (c : ascii) : Z :=
  let n := Z.of_nat (nat_of_ascii c) in
  if (n <=? 57)%Z then n - 48 else n - 87.

Fixpoint bytes_of_hex (s : string) : list Z :=
  match s with
  | String hi (String lo rest) =>
      (16 * hex_value hi + hex_value lo)%Z :: bytes_of_hex rest
  | _ => []
  end.

(** The community tables are the same in two stores. *)
Definition same_community_tables (s s' : Store) : Prop :=
  communities s' = communities s
  ∧ community_members s' = community_members s
  ∧ community_discussions s' = community_discussions s.

(** The store after a signup whose credential and profile went in and whose
    session was refused. *)
Definition signed_up_without_session (pf : Platform) (s : Store)
    (m p fn u : string) : Store :=
  let id := gen_random_uuid pf in
  mkStore (<[m := Credential.mk id (hashPassword p)]> (user_credentials s))
          (<[id := Profile.mk fn m (toLowerCase u) None]> (profiles s))
          (user_sessions s)
          (communities s) (community_members s) (community_discussions s).

(** ** Sequences of calls *)

(** A call that reaches the store: a request to the authentication handler
    or an invocation of [refresh_session]. *)
Inductive Call :=
| Request (pf : Platform) (req : MobileAuth.Request)
| Refresh (now : Z) (p_session_token : string).

Definition call (s : Store) (c : Call) : Store :=
  match c with
  | Request pf req => (MobileAuth.serve pf s req).2
  | Refresh t token => (refresh_session s t token).2
  end.

(** The store with no row, and the store after a sequence of calls made on
    it. *)
Definition no_rows : Store := mkStore ∅ ∅ ∅ ∅ [] ∅.
Definition after (calls : list Call) : Store := fold_left call calls no_rows.

(** Every credential has a profile under its identifier, with its mobile
    number, and every profile the credential it belongs to. *)
Definition credentials_have_profiles (s : Store) : Prop :=
  ∀ m c, user_credentials s !! m = Some c →
         ∃ q, profiles s !! Credential.id c = Some q
              ∧ Profile.mobile_number q = m.

Definition profiles_have_credentials (s : Store) : Prop :=
  ∀ i q, profiles s !! i = Some q →
         ∃ c, user_credentials s !! Profile.mobile_number q = Some c
              ∧ Credential.id c = i.

(** Every session belongs to a user with a credential. *)
Definition sessions_have_credentials (s : Store) : Prop :=
  ∀ token x, user_sessions s !! token = Some x →
             ∃ m c, user_credentials s !! m = Some c
                    ∧ Credential.id c = Session.user_id x.

(** A user has at most one active session. *)
Definition one_active_session (s : Store) : Prop :=
  ∀ t1 t2 x1 x2,
    user_sessions s !! t1 = Some x1 → user_sessions s !! t2 = Some x2 →
    Session.user_id x1 = Session.user_id x2 →
    Session.is_active x1 = true → Session.is_active x2 = true → t1 = t2.

(** Every stored username is allowed and in lower case. *)
Definition usernames_normal (s : Store) : Prop :=
  ∀ i q, profiles s !! i = Some q →
         allowed_username (Profile.username q)
         ∧ toLowerCase (Profile.username q) = Profile.username q.

(** Every stored password hash is the digest of a password. *)
Definition digests_stored (s : Store) : Prop :=
  ∀ m c, user_credentials s !! m = Some c →
         ∃ p, Credential.password_hash c = hashPassword p.

Definition consistent (s : Store) : Prop :=
  unique_rows s ∧ credentials_have_profiles s ∧ profiles_have_credentials s
  ∧ sessions_have_credentials s ∧ one_active_session s
  ∧ usernames_normal s ∧ digests_stored s.

(** ** Repeated refreshes *)

(** [refresh_session] invoked for one token at each of the times, with the
    answers. *)
Fixpoint refreshes (s : Store) (token : string) (times : list Z)
    : list bool * Store :=
  match times with
  | [] => ([], s)
  | t :: rest =>
      let '(ok, s1) := refresh_session s t token in
      let '(oks, s2) := refreshes s1 token rest in
      (ok :: oks, s2)
  end.

(** Each time of the list comes less than [d] after the one before it, the
    first less than [d] after [t]. *)
Fixpoint gaps_below (d t : Z) (times : list Z) : Prop :=
  match times with
  | [] => True
  | t' :: rest => (t' < t + d)%Z ∧ gaps_below d t' rest
  end.

(** ** The session refresh hook, [useSessionRefresh] *)

Module SessionRefresh.

(** [REFRESH_INTERVAL] and [MIN_ACTIVITY_INTERVAL], in milliseconds. *)
Definition REFRESH_INTERVAL : Z := 1000 * 60 * 60.
Definition MIN_ACTIVITY_INTERVAL : Z := 1000 * 60 * 5.

(** What [localStorage] holds under the key: nothing (or the empty
    string), a text that [JSON.parse] rejects, or an object with or without
    a [session_token]. *)
Inductive Stored :=
| NoItem
| NotJson
| Item (session_token : option string).

(** [getSessionToken]. *)
Definition getSessionToken (stored : Stored) : option string :=
  match stored with
  | Item session_token => or_null session_token
  | NoItem | NotJson => None
  end.

(** [refreshSession], on the value of [lastRefreshRef], the clock of the
    browser and the clock and store behind the [refresh_session] call: the
    answer, the new value of [lastRefreshRef] and the store. *)
Definition refreshSession (stored : Stored) (lastRefresh now db_now : Z)
    (s : Store) : bool * Z * Store :=
  match getSessionToken stored with
  | None => (false, lastRefresh, s)
  | Some sessionToken =>
      (* Prevent too frequent refreshes *)
      if (now - lastRefresh <? MIN_ACTIVITY_INTERVAL)%Z then
        (true, lastRefresh, s)
      else
        let '(data, s1) := refresh_session s db_now sessionToken in
        if data then (true, now, s1) else (false, lastRefresh, s1)
  end.

(** [handleActivity]: the new value of [lastRefreshRef] and the store. *)
Definition handleActivity (stored : Stored) (lastRefresh now db_now : Z)
    (s : Store) : Z * Store :=
  if (MIN_ACTIVITY_INTERVAL <=? now - lastRefresh)%Z then
    let '(_, last, s1) := refreshSession stored lastRefresh now db_now s in
    (last, s1)
  else (lastRefresh, s).

End SessionRefresh.

(** ** The admin session hook, [useAdminAuthSupabase] *)

Module AdminSession.

Inductive AdminRole := super_admin | content_moderator | category_manager.

Record AdminUser := mkUser {
  id : string;
  mobile_number : string;
  full_name : option string }.

(** What [localStorage] holds under the key: nothing, a text that
    [JSON.parse] rejects, or an object with its [user] and
    [session_token]. *)
Inductive Stored :=
| NoItem
| NotJson
| Item (user : option AdminUser) (session_token : option string)
       (roles : list AdminRole).

(** The state of the hook and of [localStorage]. *)
Record State := mkState {
  user : option AdminUser;
  roles : list AdminRole;
  loading : bool;
  stored : Stored }.

(** [supabase.functions.invoke]: an answer outside 200..299 comes back as
    an error without data. *)
Definition invoke (r : Response) : Result Body :=
  if (200 <=? status r)%Z && (status r <? 300)%Z
  then mkResult (Some (body r)) false
  else mkResult None true.

(** [data?.success]: the payloads that carry [success: true]. *)
Definition success (data : option Body) : bool :=
  match data with
  | Some (Success | SignedUp _ _ _ _ | SignedIn _ _ _ _ | Created _ _) => true
  | Some (NoBody | Error _ | StoreError) | None => false
  end.

(** [(data.roles || [])]: no payload of the handler has a [roles] field. *)
Definition roles_of (data : option Body) : list AdminRole :=
  match data with
  | Some (NoBody | Error _ | StoreError | Success | SignedUp _ _ _ _
         | SignedIn _ _ _ _ | Created _ _) => []
  | None => []
  end.

(** [(data.user || storedUser)]. *)
Definition user_of (data : option Body) (storedUser : AdminUser) : AdminUser :=
  match data with
  | Some (SignedUp id mobile_number full_name _) =>
      mkUser id mobile_number (Some full_name)
  | Some (SignedIn id mobile_number profile _) =>
      mkUser id mobile_number (Profile.full_name <$> profile)
  | _ => storedUser
  end.

(** The request that the hook sends. *)
Definition admin_validate (session_token : string) : MobileAuth.Request :=
  MobileAuth.mkRequest "POST" (Some "admin_validate") None None None None
                       (Some session_token).

(** [loadAdminSession], with the handler on the other side. *)
Definition loadAdminSession (pf : Platform) (s : Store) (st : State)
    : State * Store :=
  match stored st with
  | NoItem => (mkState (user st) (roles st) false NoItem, s)
  | NotJson => (mkState (user st) (roles st) false NoItem, s)
  | Item storedUser session_token storedRoles =>
      match storedUser with
      | Some u =>
          if truthy session_token then
            let '(r, s1) :=
              MobileAuth.serve pf s (admin_validate (default "" session_token)) in
            let res := invoke r in
            if error res || negb (success (data res)) then
              (mkState None [] false NoItem, s1)
            else
              let validatedRoles := roles_of (data res) in
              let validatedUser := user_of (data res) u in
              match validatedRoles with
              | [] => (mkState None [] false NoItem, s1)
              | _ :: _ =>
                  (mkState (Some validatedUser) validatedRoles false
                           (Item (Some validatedUser) session_token
                                 validatedRoles), s1)
              end
          else
            (mkState (user st) (roles st) false (stored st), s)
      | None => (mkState (user st) (roles st) false (stored st), s)
      end
  end.

End AdminSession.

(** ** The admin role hook and route, [useAdminAuth] and [AdminRoute] *)

Module AdminAuth.

Import AdminSession.

#[global] Instance AdminRole_eq_dec : EqDecision AdminRole.
Proof. solve_decision. Defined.

Record AdminAuthState := mkState {
  isAdmin : bool;
  roles : list AdminRole;
  loading : bool;
  isSuperAdmin : bool;
  isContentModerator : bool;
  isCategoryManager : bool }.

(** [roles.includes(r)]. *)
Definition includes (roles : list AdminRole) (r : AdminRole) : bool :=
  bool_decide (r ∈ roles).

(** [checkAdminRoles]: the roles it sets, from the signed-in user and the
    answer to the query on [user_roles]. *)
Definition checkAdminRoles (user : option string)
    (query : Result (list AdminRole)) : list AdminRole :=
  match user with
  | None => []
  | Some _ => if error query then [] else default [] (data query)
  end.

(** What [useAdminAuth] returns. *)
Definition useAdminAuth (authLoading loading : bool) (roles : list AdminRole)
    : AdminAuthState :=
  mkState (0 <? length roles) roles (authLoading || loading)
          (includes roles super_admin)
          (includes roles content_moderator || includes roles super_admin)
          (includes roles category_manager || includes roles super_admin).

Inductive Rendered := Spinner | NavigateHome | NavigateAdmin | Children.

(** [AdminRoute]. *)
Definition AdminRoute (st : AdminAuthState) (requiredRole : option AdminRole)
    : Rendered :=
  if loading st then Spinner
  else if negb (isAdmin st) then NavigateHome
  else
    match requiredRole with
    | Some r =>
        if negb (includes (roles st) r) && negb (isSuperAdmin st)
        then NavigateAdmin else Children
    | None => Children
    end.

End AdminAuth.

(** ** [isUserVerified] *)

(** [s.startsWith(p)]. *)
Fixpoint starts_with (p s : string) : bool :=
  match p, s with
  | EmptyString, _ => true
  | String a p', String b s' => bool_decide (a = b) && starts_with p' s'
  | String _ _, EmptyString => false
  end.

(** [s.includes(needle)]: the needle starts at some position of [s]. *)
Fixpoint includes (s needle : string) : bool :=
  starts_with needle s
  || match s with
     | String _ rest => includes rest needle
     | EmptyString => false
     end.

(** [isUserVerified]: a real email, not one made from a phone number. *)
Definition isUserVerified (email : option string) : bool :=
  if negb (truthy email) then false
  else negb (includes (default "" email) "@phone.local").

(** ** Trending posts *)

Module Trending.

(** A post as the query returns it: its likes and comments, each absent or
    a list of row identifiers. *)
Record Post := mkPost {
  id : string;
  post_likes : option (list string);
  comments : option (list string) }.

(** [(rows?.length || 0)]. *)
Definition count (rows : option (list string)) : nat :=
  match rows with
  | Some l => length l
  | None => 0
  end.

(** [likes * 2 + comments * 3]. *)
Definition engagement (p : Post) : nat :=
  count (post_likes p) * 2 + count (comments p) * 3.

(** [sort((a, b) => b.engagement - a.engagement)]: the sort is stable, so
    a post goes behind the posts with more engagement and in front of the
    later posts with as much or less. *)
Fixpoint place (x : Post) (l : list Post) : list Post :=
  match l with
  | [] => [x]
  | y :: rest =>
      if engagement x <? engagement y then y :: place x rest else x :: l
  end.

Definition sort (l : list Post) : list Post := foldr place [] l.

(** The posts that [fetchTrendingPosts] shows. *)
Definition trending (postsData : option (list Post)) : list Post :=
  firstn 5 (sort (default [] postsData)).

End Trending.

(** [a] has at least the engagement of [b]. *)
Definition by_engagement (a b : Trending.Post) : Prop :=
  Trending.engagement b ≤ Trending.engagement a.

(** ** The follow handler, [toggle-follow/index.ts] *)

Module Follow.
Record t := mk { follower_id : string; following_id : string }.
End Follow.

Module Notification.
Record t := mk {
  user_id : string;
  type : string;
  title : string;
  body : string;
  follower_id : string }.
End Notification.

Module ToggleFollow.

(** The request: its method and the fields of its JSON body. *)
Record Request := mkRequest {
  method : string;
  user_id : option string;
  following_id : option string;
  action : option string }.

(** The two tables the handler writes, [follows] and [notifications]. *)
Record Tables := mkTables {
  follows : list Follow.t;
  notifications : list Notification.t }.

(** Response bodies: an error, an error with the [details] of the store or
    of the exception, and the success payload. *)
Inductive Body :=
| NoBody
| Error (error : string)
| ErrorDetails (error : string)
| Done (message : string) (is_following : bool).

Record Response := mkResponse { status : Z; body : Body }.

Section Handler.

(** The definitions of [follows] and [notifications] are not among the
    sources.  The rows that these tables accept are parameters of the
    handler. *)
Variable follows_accepts : list Follow.t → Follow.t → bool.
Variable notifications_accepts : list Notification.t → Notification.t → bool.

(** [select("id").eq("follower_id", u).eq("following_id", f)]. *)
Definition follows_of (t : Tables) (u f : string) : list Follow.t :=
  filter (λ r, Follow.follower_id r = u ∧ Follow.following_id r = f) (follows t).

(** [delete().eq("follower_id", u).eq("following_id", f)]. *)
Definition delete_follow (t : Tables) (u f : string) : Tables :=
  mkTables
    (filter (λ r, ¬ (Follow.follower_id r = u ∧ Follow.following_id r = f))
            (follows t))
    (notifications t).

(** [followerProfile?.full_name || followerProfile?.username || 'Someone']. *)
Definition followerName (followerProfile : option Profile.t) : string :=
  match followerProfile with
  | Some p =>
      if bool_decide (Profile.full_name p ≠ "") then Profile.full_name p
      else if bool_decide (Profile.username p ≠ "") then Profile.username p
      else "Someone"
  | None => "Someone"
  end.

(** The handler.  [createClient] throws on an empty URL or key, which the
    handler catches. *)
Definition serve (pf : Platform) (s : Store) (t : Tables) (req : Request)
    : Response * Tables :=
  if bool_decide (method req = "OPTIONS") then (mkResponse 200 NoBody, t) else
  if negb (truthy (SUPABASE_URL pf)) || negb (truthy (SUPABASE_SERVICE_ROLE_KEY pf))
  then (mkResponse 500 (ErrorDetails "Internal server error"), t) else
  if negb (truthy (user_id req)) then
    (mkResponse 400 (Error "user_id is required"), t)
  else if negb (truthy (following_id req)) then
    (mkResponse 400 (Error "following_id is required"), t)
  else
  let u := default "" (user_id req) in
  let f := default "" (following_id req) in
  if bool_decide (u = f) then
    (mkResponse 400 (Error "Cannot follow yourself"), t)
  else
  if negb (bool_decide (action req = Some "unfollow")) then
    (* Check if already following *)
    let existing := maybeSingle (follows_of t u f) in
    if error existing then
      (mkResponse 500 (ErrorDetails "Failed to check follow status"), t)
    else
    match data existing with
    | Some _ => (mkResponse 200 (Done "Already following" true), t)
    | None =>
        (* Insert new follow *)
        if negb (follows_accepts (follows t) (Follow.mk u f)) then
          (mkResponse 500 (ErrorDetails "Failed to follow user"), t)
        else
        (* Create notification for the person being followed *)
        let note :=
          Notification.mk f "follow" "New follower"
            (followerName (profiles s !! u) ++ " started following you!") u in
        let notes :=
          if notifications_accepts (notifications t) note
          then (notifications t ++ [note])%list else notifications t in
        (mkResponse 200 (Done "Followed successfully" true),
         mkTables (follows t ++ [Follow.mk u f])%list notes)
    end
  else
    (* unfollow *)
    (mkResponse 200 (Done "Unfollowed successfully" false), delete_follow t u f).

End Handler.

End ToggleFollow.

(** A follow or unfollow request of [u] about [f]: not a preflight, both
    identifiers present, non-empty and different. *)
Definition follow_request (req : ToggleFollow.Request) (u f : string) : Prop :=
  ToggleFollow.method req ≠ "OPTIONS"
  ∧ ToggleFollow.user_id req = Some u ∧ u ≠ ""
  ∧ ToggleFollow.following_id req = Some f ∧ f ≠ ""
  ∧ u ≠ f.

(** A request to the community handler that passes its checks: not a
    preflight, on a configured server, with a session token for which
    [validate_session] returns the user [uid]. *)
Definition community_caller (pf : Platform) (s : Store)
    (req : ManageCommunity.Request) (uid : string) : Prop :=
  ManageCommunity.method req ≠ "OPTIONS" ∧ configured pf
  ∧ ∃ token, ManageCommunity.x_session_token req = Some token ∧ token ≠ ""
             ∧ validate_session s (now pf) token = Some uid ∧ uid ≠ "".

(** The tables of the authentication handler are the same in two stores. *)
Definition same_user_tables (s s' : Store) : Prop :=
  user_credentials s' = user_credentials s
  ∧ profiles s' = profiles s
  ∧ user_sessions s' = user_sessions s.

(** The row that [create] inserts and the row that [update] writes over the
    row [c]. *)
Definition created_row (uid : string) (req : ManageCommunity.Request)
    : Community.t :=
  Community.mk (trim (default "" (ManageCommunity.name req)))
               (or_null (opt_trim (ManageCommunity.description req)))
               (or_null (ManageCommunity.cover_image_url req)) uid None.

Definition updated_row (pf : Platform) (c : Community.t)
    (req : ManageCommunity.Request) : Community.t :=
  Community.mk
    (default (Community.name c) (opt_trim (ManageCommunity.name req)))
    (or_null (opt_trim (ManageCommunity.description req)))
    (or_null (ManageCommunity.cover_image_url req))
    (Community.created_by c) (Some (now pf)).

(** The member rows of the user [u] in the community [c]. *)
Definition membership (c u : string) (m : Member.t) : Prop :=
  Member.community_id m = c ∧ Member.user_id m = u.

(** ** Further sample data *)

Module More.

(** A later invocation in which [crypto.getRandomValues] writes the bytes it
    wrote in [Sample.first]. *)
Definition repeated_bytes : Platform :=
  Sample.platform 1769140060000 0xab "7d2f1c1e-0000-4000-8000-000000000002".

(** Asha's credential and session, her profile gone. *)
Definition without_profile : Store := with_profiles Sample.registered ∅.

(** Asha's credential and her session after the signup. *)
Definition credential : Credential.t :=
  Credential.mk Sample.asha (hashPassword "s3cret").
Definition session : Session.t :=
  Session.mk Sample.asha (now Sample.first + thirty_days) true (now Sample.first).

Definition hour : Z := 1000 * 60 * 60.

(** What the browser of an admin holds. *)
Definition admin_state : AdminSession.State :=
  AdminSession.mkState None [] true
    (AdminSession.Item
       (Some (AdminSession.mkUser Sample.asha "9876543210" (Some "Asha")))
       (Some Sample.first_token) [AdminSession.super_admin]).

(** Follow requests of Asha about another user, and of Asha about
    herself. *)
Definition ravi : string := "5b0c7a00-0000-4000-8000-00000000000a".
Definition follow (action : option string) : ToggleFollow.Request :=
  ToggleFollow.mkRequest "POST" (Some Sample.asha) (Some ravi) action.
Definition follow_self : ToggleFollow.Request :=
  ToggleFollow.mkRequest "POST" (Some Sample.asha) (Some Sample.asha) None.
Definition no_follows : ToggleFollow.Tables := ToggleFollow.mkTables [] [].
Definition follow_serve :=
  ToggleFollow.serve (λ _ _, true) (λ _ _, true).

(** Requests of Asha to the community handler. *)
Definition makers : string := "c0000000-0000-4000-8000-000000000001".
Definition makers_in_capitals : string := "C0000000-0000-4000-8000-000000000001".

(** A string given by the bytes of its UTF-8 encoding; a no-break space,
    U+00A0. *)
Definition bytes (codes : list nat) : string :=
  string_of_list_ascii (List.map ascii_of_nat codes).
Definition no_break_space : string := bytes [0xC2; 0xA0].
Definition community (action : string) (community_id name description : option string)
    : ManageCommunity.Request :=
  ManageCommunity.mkRequest "POST" (Some Sample.first_token) (Some action)
                            community_id name description None None.

(** The community of [Sample.forum], with a description. *)
Definition described : Store :=
  with_communities Sample.forum
    {[ makers := Community.mk "Makers" (Some "People who make things") None
                              Sample.asha None ]}.

End More.

(** ** The digest and the username pattern *)

Example sha256_abc :
  hashPassword "abc"
  = "ba7816bf8f01cfea414140de5dae2223b00361a396177a9cb410ff61f20015ad".
Proof. vm_compute. reflexivity. Qed.

Example sha256_two_blocks :
  hashPassword "aaaaaaaaaaaaaaaaaaaaaaaaaaaaaaaaaaaaaaaaaaaaaaaaaaaaaaaaa"
  = "f13b2d724659eb3bf47f2dd6af1accc87b81f09f59f2b75e5c0bed6589dfe8c6".
Proof. vm_compute. reflexivity. Qed.

Lemma verifyPassword_true password hash :
  verifyPassword password hash = true ↔ hashPassword password = hash.
Proof. unfold verifyPassword. apply bool_decide_eq_true. Qed.

Lemma truthy_Some (v : string) : truthy (Some v) = true ↔ v ≠ "".
Proof. simpl. apply bool_decide_eq_true. Qed.

Lemma word_char_spec c : word_char c = true ↔ letter_digit_underscore c.
Proof.
  unfold word_char, letter_digit_underscore. cbv zeta.
  rewrite !orb_true_iff, !andb_true_iff, !Nat.leb_le, Nat.eqb_eq.
  change (nat_of_ascii "a"%char) with 97. change (nat_of_ascii "z"%char) with 122.
  change (nat_of_ascii "A"%char) with 65. change (nat_of_ascii "Z"%char) with 90.
  change (nat_of_ascii "0"%char) with 48. change (nat_of_ascii "9"%char) with 57.
  assert (nat_of_ascii c = 95 ↔ c = "_"%char) as ->.
  { split; intros H.
    - rewrite <- (ascii_nat_embedding c), H. reflexivity.
    - subst c. reflexivity. }
  tauto.
Qed.

Lemma word_char_lower c : word_char (lower_char c) = word_char c.
Proof. destruct c as [[] [] [] [] [] [] [] []]; reflexivity. Qed.

Lemma lower_char_idemp c : lower_char (lower_char c) = lower_char c.
Proof. destruct c as [[] [] [] [] [] [] [] []]; reflexivity. Qed.

Lemma toLowerCase_idemp s : toLowerCase (toLowerCase s) = toLowerCase s.
Proof. induction s as [|c s IH]; simpl; [done|]. by rewrite lower_char_idemp, IH. Qed.

Lemma toLowerCase_empty s : toLowerCase s = "" ↔ s = "".
Proof. destruct s; simpl; split; congruence. Qed.

(** Matching is blind to the letter case. *)
Lemma match_class_lower max s :
  match_class max (toLowerCase s)
  = (fst (match_class max s), toLowerCase (snd (match_class max s))).
Proof.
  revert s. induction max as [|k IH]; intros [|c s]; simpl; try done.
  rewrite word_char_lower. destruct (word_char c); [|done].
  rewrite IH. by destruct (match_class k s).
Qed.

Lemma usernameRegex_lower s :
  usernameRegex_test (toLowerCase s) = usernameRegex_test s.
Proof.
  unfold usernameRegex_test. rewrite match_class_lower.
  destruct (match_class 30 s) as [n r]; simpl. f_equal.
  apply bool_decide_ext, toLowerCase_empty.
Qed.

(** A string of at most [max] class characters is consumed whole. *)
Lemma match_class_whole max s :
  Forall (λ c, word_char c = true) (list_ascii_of_string s) →
  String.length s ≤ max →
  match_class max s = (String.length s, "").
Proof.
  revert s. induction max as [|k IH]; intros [|c s]; simpl; intros Hall Hlen;
    try done; try lia.
  inversion Hall as [|? ? Hc Hrest]; subst. rewrite Hc.
  rewrite IH; [done | done | lia].
Qed.

(** When nothing is left over, the input was class characters only. *)
Lemma match_class_empty_rest max s n :
  match_class max s = (n, "") →
  String.length s = n ∧ n ≤ max
  ∧ Forall (λ c, word_char c = true) (list_ascii_of_string s).
Proof.
  revert s n. induction max as [|k IH]; intros [|c s] n; simpl; intros H.
  - injection H as <-. by repeat split.
  - discriminate.
  - injection H as <-. repeat split; [lia | constructor].
  - destruct (word_char c) eqn:Hc; [|discriminate].
    destruct (match_class k s) as [m r] eqn:Hm.
    injection H as <- ->. destruct (IH _ _ Hm) as (Hl & Hle & Hall).
    repeat split; [lia | lia | by constructor].
Qed.

(** The pattern accepts exactly the allowed usernames. *)
Lemma usernameRegex_test_spec u :
  usernameRegex_test u = true ↔ allowed_username u.
Proof.
  unfold usernameRegex_test, allowed_username. split.
  - destruct (match_class 30 u) as [n r] eqn:Hm.
    rewrite andb_true_iff, Nat.leb_le, bool_decide_eq_true.
    intros [Hn ->]. destruct (match_class_empty_rest _ _ _ Hm) as (Hl & Hle & Hall).
    split; [lia|]. eapply Forall_impl; [exact Hall|].
    intros c. apply word_char_spec.
  - intros [Hlen Hall].
    assert (Forall (λ c, word_char c = true) (list_ascii_of_string u)) as Hall'.
    { eapply Forall_impl; [exact Hall|]. intros c. apply word_char_spec. }
    rewrite (match_class_whole 30 u Hall') by lia.
    rewrite andb_true_iff, Nat.leb_le, bool_decide_eq_true. split; [lia | done].
Qed.

Lemma hex_of_bytes_length bs :
  String.length (Digest.hex_of_bytes bs) = 2 * length bs.
Proof.
  induction bs as [|b bs IH]; [done|].
  change (S (S (String.length (Digest.hex_of_bytes bs))) = 2 * S (length bs)).
  rewrite IH. lia.
Qed.

(** A token made of 32 random bytes has 64 characters. *)
Lemma generateSessionToken_length random :
  length random = 32 → String.length (generateSessionToken random) = 64.
Proof. intros H. unfold generateSessionToken. by rewrite hex_of_bytes_length, H. Qed.

Lemma hex_digit_char d : hex_char (Digest.hex_digit d).
Proof.
  unfold hex_char.
  destruct d as [|p|p]; [vm_compute; lia | | vm_compute; lia].
  do 5 (try destruct p as [p|p|]); vm_compute; lia.
Qed.

Lemma hex_digit_value d : (0 ≤ d < 16)%Z → hex_value (Digest.hex_digit d) = d.
Proof.
  intros Hd.
  assert (d = 0 ∨ d = 1 ∨ d = 2 ∨ d = 3 ∨ d = 4 ∨ d = 5 ∨ d = 6 ∨ d = 7
          ∨ d = 8 ∨ d = 9 ∨ d = 10 ∨ d = 11 ∨ d = 12 ∨ d = 13 ∨ d = 14
          ∨ d = 15)%Z as Hcases by lia.
  repeat destruct Hcases as [->|Hcases]; try reflexivity. by subst.
Qed.

Lemma hex_of_bytes_chars bs :
  Forall hex_char (list_ascii_of_string (Digest.hex_of_bytes bs)).
Proof.
  induction bs as [|b bs IH]; [constructor|].
  change (Forall hex_char
            (Digest.hex_digit (Z.shiftr b 4) :: Digest.hex_digit (Z.land b 15)
               :: list_ascii_of_string (Digest.hex_of_bytes bs))).
  constructor; [apply hex_digit_char|].
  constructor; [apply hex_digit_char | exact IH].
Qed.

(** Decoding gives back the bytes that were encoded. *)
Lemma bytes_of_hex_of_bytes bs :
  Forall byte_value bs → bytes_of_hex (Digest.hex_of_bytes bs) = bs.
Proof.
  induction 1 as [|b bs Hb _ IH]; [done|].
  change (bytes_of_hex (Digest.hex_of_bytes (b :: bs)))
    with ((16 * hex_value (Digest.hex_digit (Z.shiftr b 4))
           + hex_value (Digest.hex_digit (Z.land b 15)))%Z
          :: bytes_of_hex (Digest.hex_of_bytes bs)).
  rewrite IH. f_equal. unfold byte_value in Hb.
  rewrite Z.shiftr_div_pow2 by lia.
  change 15%Z with (Z.ones 4). rewrite Z.land_ones by lia.
  change (2 ^ 4)%Z with 16%Z.
  rewrite !hex_digit_value.
  - pose proof (Z.div_mod b 16). lia.
  - apply Z.mod_pos_bound. lia.
  - split; [apply Z.div_pos; lia | apply Z.div_lt_upper_bound; lia].
Qed.


(** ** How the authentication handler dispatches *)

Lemma configured_gate pf :
  configured pf →
  negb (truthy (SUPABASE_URL pf)) || negb (truthy (SUPABASE_SERVICE_ROLE_KEY pf))
  = false.
Proof. intros [-> ->]. reflexivity. Qed.

Lemma serve_signup pf s req :
  MobileAuth.method req ≠ "OPTIONS" → configured pf →
  MobileAuth.action req = Some "signup" →
  MobileAuth.serve pf s req
  = if negb (truthy (MobileAuth.mobile_number req))
       || negb (truthy (MobileAuth.password req))
    then (json_error 400 "Mobile number and password are required", s)
    else MobileAuth.signup pf s (default "" (MobileAuth.mobile_number req))
           (default "" (MobileAuth.password req))
           (MobileAuth.full_name req) (MobileAuth.username req).
Proof.
  intros Hm Hc Ha. unfold MobileAuth.serve.
  rewrite bool_decide_eq_false_2 by done.
  rewrite configured_gate by done. rewrite Ha. reflexivity.
Qed.

Lemma serve_signin pf s req :
  MobileAuth.method req ≠ "OPTIONS" → configured pf →
  MobileAuth.action req = Some "signin" →
  MobileAuth.serve pf s req
  = if negb (truthy (MobileAuth.mobile_number req))
       || negb (truthy (MobileAuth.password req))
    then (json_error 400 "Mobile number and password are required", s)
    else MobileAuth.signin pf s (default "" (MobileAuth.mobile_number req))
           (default "" (MobileAuth.password req)).
Proof.
  intros Hm Hc Ha. unfold MobileAuth.serve.
  rewrite bool_decide_eq_false_2 by done.
  rewrite configured_gate by done. rewrite Ha. reflexivity.
Qed.

Lemma serve_signup_request pf s req m p fn u :
  configured pf → signup_request req m p fn u →
  MobileAuth.serve pf s req = MobileAuth.signup pf s m p (Some fn) (Some u).
Proof.
  intros Hc (Hm & Ha & Hmob & Hmne & Hpw & Hpne & Hfn & _ & Hu & _).
  rewrite serve_signup by done. rewrite Hmob, Hpw, Hfn, Hu.
  apply truthy_Some in Hmne, Hpne. rewrite Hmne, Hpne. reflexivity.
Qed.

Lemma serve_signin_request pf s req m p :
  configured pf → signin_request req m p →
  MobileAuth.serve pf s req = MobileAuth.signin pf s m p.
Proof.
  intros Hc (Hm & Ha & Hmob & Hmne & Hpw & Hpne).
  rewrite serve_signin by done. rewrite Hmob, Hpw.
  apply truthy_Some in Hmne, Hpne. rewrite Hmne, Hpne. reflexivity.
Qed.

(** Without a username of the pattern the [signup] branch stops before any
    statement is sent to the store. *)
Lemma signup_rejects_username pf s m p fn uo :
  (∀ u, uo = Some u → ¬ allowed_username u) →
  ∃ msg, MobileAuth.signup pf s m p fn uo = (json_error 400 msg, s)
         ∧ validation_message (Error msg).
Proof.
  intros Hbad. unfold MobileAuth.signup.
  destruct (negb (truthy fn) || negb (truthy uo)).
  - eexists. split; [reflexivity|]. right. left. reflexivity.
  - destruct (usernameRegex_test (default "" uo)) eqn:Ht.
    + exfalso. destruct uo as [u|].
      * apply (Hbad u eq_refl). by apply usernameRegex_test_spec.
      * vm_compute in Ht. discriminate.
    + eexists. split; [reflexivity|]. right. right. reflexivity.
Qed.

(** The [signup] branch never answers with the pattern message for an
    allowed username. *)
Lemma signup_accepts_username pf s m p fn u :
  allowed_username u →
  body (MobileAuth.signup pf s m p fn (Some u)).1
  ≠ Error "Username must be 3-30 characters and only contain letters, numbers, and underscores".
Proof.
  intros Hok%usernameRegex_test_spec. unfold MobileAuth.signup.
  destruct (negb (truthy fn) || negb (truthy (Some u))); [done|].
  change (default "" (Some u)) with u. rewrite Hok. cbn [negb].
  destruct (user_credentials s !! m); [done|].
  destruct (data (maybeSingle _)); [done|].
  destruct (insert_credential _ _ _); [|done].
  destruct (insert_profile _ _ _); [|done].
  destruct (insert_session _ _ _ _ _); done.
Qed.

(** C7. On a signup request whose username is absent or is not a string of
    3 to 30 letters, digits and underscores (it has a character outside
    [A-Za-z0-9_], or fewer than 3 or more than 30 characters), the answer
    has status 400 and one of the validation messages, and the store is left
    as it was; a username of 3 to 30 letters, digits and underscores passes
    the pattern and is never answered with the pattern message. *)
Theorem C7_username_validation pf s req :
  MobileAuth.method req ≠ "OPTIONS" → configured pf →
  MobileAuth.action req = Some "signup" →
  ((∀ u, MobileAuth.username req = Some u → ¬ allowed_username u) →
     status (MobileAuth.serve pf s req).1 = 400%Z
     ∧ validation_message (body (MobileAuth.serve pf s req).1)
     ∧ (MobileAuth.serve pf s req).2 = s)
  ∧ (∀ u, MobileAuth.username req = Some u → allowed_username u →
     usernameRegex_test u = true
     ∧ body (MobileAuth.serve pf s req).1
       ≠ Error "Username must be 3-30 characters and only contain letters, numbers, and underscores").
Proof.
  intros Hm Hc Ha. rewrite serve_signup by done. split.
  - intros Hbad.
    destruct (negb (truthy (MobileAuth.mobile_number req))
              || negb (truthy (MobileAuth.password req))).
    + repeat split. left. reflexivity.
    + destruct (signup_rejects_username pf s
                  (default "" (MobileAuth.mobile_number req))
                  (default "" (MobileAuth.password req))
                  (MobileAuth.full_name req) (MobileAuth.username req) Hbad)
        as (msg & -> & Hv).
      by repeat split.
  - intros u Hu Hok. rewrite Hu. split; [by apply usernameRegex_test_spec|].
    destruct (negb (truthy (MobileAuth.mobile_number req))
              || negb (truthy (MobileAuth.password req))); [done|].
    by apply signup_accepts_username.
Qed.

(** ** The statements against the tables *)

Arguments hashPassword : simpl never.

Lemma with_credentials_same s : with_credentials s (user_credentials s) = s.
Proof. by destruct s. Qed.

Lemma insert_credential_Some s m row s1 :
  insert_credential s m row = Some s1 ↔
  user_credentials s !! m = None
  ∧ map_Forall (λ _ r, Credential.id r ≠ Credential.id row) (user_credentials s)
  ∧ s1 = with_credentials s (<[m := row]> (user_credentials s)).
Proof.
  unfold insert_credential. destruct (user_credentials s !! m) eqn:Hm.
  - split; [done | by intros (? & _)].
  - case_bool_decide as Hid.
    + split; [by intros [= <-] | by intros (_ & _ & ->)].
    + split; [done | by intros (_ & ? & _)].
Qed.

Lemma insert_profile_Some s id row s1 :
  insert_profile s id row = Some s1 ↔
  profiles s !! id = None
  ∧ map_Forall (λ _ p, toLowerCase (Profile.username p)
                       ≠ toLowerCase (Profile.username row)) (profiles s)
  ∧ s1 = with_profiles s (<[id := row]> (profiles s)).
Proof.
  unfold insert_profile. destruct (profiles s !! id) eqn:Hm.
  - split; [done | by intros (? & _)].
  - case_bool_decide as Hid.
    + split; [by intros [= <-] | by intros (_ & _ & ->)].
    + split; [done | by intros (_ & ? & _)].
Qed.

Lemma insert_session_Some s token uid exp now s1 :
  insert_session s token uid exp now = Some s1 ↔
  user_sessions s !! token = None
  ∧ s1 = with_sessions s (<[token := Session.mk uid exp true now]> (user_sessions s)).
Proof.
  unfold insert_session. destruct (user_sessions s !! token) eqn:Hm.
  - split; [done | by intros (? & _)].
  - split; [by intros [= <-] | by intros (_ & ->)].
Qed.

(** The compensating delete undoes the insertion it follows. *)
Lemma delete_after_insert s m row s1 :
  insert_credential s m row = Some s1 →
  delete_credential s1 (Credential.id row) = s.
Proof.
  intros (Hm & Hids & ->)%insert_credential_Some.
  unfold delete_credential. destruct s as [c p x co me di]; simpl in *.
  unfold with_credentials; simpl. f_equal.
  rewrite map_filter_insert_False by (simpl; tauto).
  rewrite delete_id by done.
  apply map_filter_id. intros i r Hi. simpl. by apply (Hids i r).
Qed.

Lemma username_free_forall s u :
  ¬ username_taken s u ↔
  map_Forall (λ _ p, toLowerCase (Profile.username p) ≠ toLowerCase u) (profiles s).
Proof.
  unfold username_taken. split.
  - intros Hfree i p Hi Heq. apply Hfree. eauto.
  - intros Hall (i & p & Hi & Heq). by apply (Hall i p).
Qed.

(** The existence check finds nothing for a username that is not taken. *)
Lemma precheck_free s u :
  ¬ username_taken s u → profiles_by_username s (toLowerCase u) = [].
Proof.
  intros Hfree. unfold profiles_by_username.
  apply map_to_list_empty_iff, map_empty_filter_2.
  intros i p Hi Heq. simpl in Heq. apply Hfree. exists i, p. split; [done|].
  by rewrite Heq, toLowerCase_idemp.
Qed.

(** The existence check finds the profile that a signup has just stored,
    whatever the letter case of the username asked for. *)
Lemma precheck_stored s id fn m u u' :
  ¬ username_taken s u → toLowerCase u' = toLowerCase u →
  map_to_list
    (filter (λ kv : string * Profile.t, Profile.username kv.2 = toLowerCase u')
            (<[id := Profile.mk fn m (toLowerCase u) None]> (profiles s)))
  = [(id, Profile.mk fn m (toLowerCase u) None)].
Proof.
  intros Hfree Heq.
  rewrite map_filter_insert_True by (simpl; congruence).
  assert (filter (λ kv : string * Profile.t,
                    Profile.username kv.2 = toLowerCase u') (profiles s) = ∅) as ->.
  { apply map_empty_filter_2. intros i p Hi Hp. simpl in Hp.
    apply Hfree. exists i, p. split; [done|].
    by rewrite Hp, Heq, toLowerCase_idemp. }
  rewrite insert_empty. apply map_to_list_singleton.
Qed.

Lemma allowed_username_nonempty u : allowed_username u → u ≠ "".
Proof. intros [[Hlen _] _] ->. simpl in Hlen. lia. Qed.

(** ** The [signup] branch *)

Lemma signup_success pf s m p fn u :
  fn ≠ "" → allowed_username u →
  user_credentials s !! m = None → ¬ username_taken s u →
  unused_id s (gen_random_uuid pf) →
  user_sessions s !! generateSessionToken (getRandomValues pf) = None →
  MobileAuth.signup pf s m p (Some fn) (Some u)
  = (mkResponse 200
       (SignedUp (gen_random_uuid pf) m fn
                 (generateSessionToken (getRandomValues pf))),
     signed_up pf s m p fn u).
Proof.
  intros Hfn Hu Hm Hfree [Hid Hpid] Htok. unfold MobileAuth.signup.
  pose proof (allowed_username_nonempty u Hu) as Hune.
  apply truthy_Some in Hfn, Hune. rewrite Hfn, Hune. cbn [negb orb].
  change (default "" (Some u)) with u. change (default "" (Some fn)) with fn.
  apply usernameRegex_test_spec in Hu. rewrite Hu. cbn [negb].
  rewrite Hm, (precheck_free s u Hfree). cbn [maybeSingle data].
  unfold insert_credential. rewrite Hm.
  rewrite bool_decide_eq_true_2 by done.
  unfold insert_profile. cbn [with_credentials profiles]. rewrite Hpid.
  rewrite bool_decide_eq_true_2
    by (cbn [Profile.username]; rewrite toLowerCase_idemp;
        by apply username_free_forall).
  unfold insert_session. cbn [with_profiles with_credentials user_sessions].
  rewrite Htok. reflexivity.
Qed.

(** The [signup] branch stops at the first existence check when the mobile
    number is registered. *)
Lemma signup_mobile_conflict pf s m p fn u :
  fn ≠ "" → allowed_username u → is_Some (user_credentials s !! m) →
  MobileAuth.signup pf s m p (Some fn) (Some u)
  = (json_error 400 "This mobile number is already registered", s).
Proof.
  intros Hfn Hu [c Hc]. unfold MobileAuth.signup.
  pose proof (allowed_username_nonempty u Hu) as Hune.
  apply truthy_Some in Hfn, Hune. rewrite Hfn, Hune. cbn [negb orb].
  change (default "" (Some u)) with u.
  apply usernameRegex_test_spec in Hu. rewrite Hu. cbn [negb].
  by rewrite Hc.
Qed.

(** It stops at the second existence check when exactly one profile holds
    the lowered username. *)
Lemma signup_username_conflict pf s m p fn u row :
  fn ≠ "" → allowed_username u → user_credentials s !! m = None →
  profiles_by_username s (toLowerCase u) = [row] →
  MobileAuth.signup pf s m p (Some fn) (Some u)
  = (json_error 400 "This username is already taken", s).
Proof.
  intros Hfn Hu Hm Hrow. unfold MobileAuth.signup.
  pose proof (allowed_username_nonempty u Hu) as Hune.
  apply truthy_Some in Hfn, Hune. rewrite Hfn, Hune. cbn [negb orb].
  change (default "" (Some u)) with u.
  apply usernameRegex_test_spec in Hu. rewrite Hu. cbn [negb].
  by rewrite Hm, Hrow.
Qed.

(** The path of the [signup] branch through a refused profile. *)
Lemma signup_profile_refused pf s m p fn u s1 :
  fn ≠ "" → allowed_username u →
  data (maybeSingle (profiles_by_username s (toLowerCase u))) = None →
  insert_credential s m (Credential.mk (gen_random_uuid pf) (hashPassword p))
  = Some s1 →
  insert_profile s1 (gen_random_uuid pf)
    (Profile.mk fn m (toLowerCase u) None) = None →
  MobileAuth.signup pf s m p (Some fn) (Some u)
  = (json_error 500 "Failed to create profile",
     delete_credential s1 (gen_random_uuid pf)).
Proof.
  intros Hfn Hu Hpre Hcred Hprof. unfold MobileAuth.signup.
  pose proof (allowed_username_nonempty u Hu) as Hune.
  apply truthy_Some in Hfn, Hune. rewrite Hfn, Hune. cbn [negb orb].
  change (default "" (Some u)) with u. change (default "" (Some fn)) with fn.
  apply usernameRegex_test_spec in Hu. rewrite Hu. cbn [negb].
  pose proof Hcred as (Hm & _)%insert_credential_Some.
  by rewrite Hm, Hpre, Hcred, Hprof.
Qed.

(** C5. In a signup whose credential insertion is accepted and whose profile
    insertion is then refused, the credential row is in the store after the
    first insertion, the handler deletes it and answers 500 "Failed to
    create profile", and the store it leaves is the store it found: no
    credential for the mobile number, none with the new identifier, no
    profile added, and no credential without a profile that was not already
    there. *)
Theorem C5_profile_failure_rolls_back pf s req m p fn u s1 :
  configured pf → signup_request req m p fn u → allowed_username u →
  data (maybeSingle (profiles_by_username s (toLowerCase u))) = None →
  insert_credential s m (Credential.mk (gen_random_uuid pf) (hashPassword p))
  = Some s1 →
  insert_profile s1 (gen_random_uuid pf)
    (Profile.mk fn m (toLowerCase u) None) = None →
  user_credentials s1 !! m
  = Some (Credential.mk (gen_random_uuid pf) (hashPassword p))
  ∧ MobileAuth.serve pf s req
    = (json_error 500 "Failed to create profile",
       delete_credential s1 (gen_random_uuid pf))
  ∧ delete_credential s1 (gen_random_uuid pf) = s
  ∧ user_credentials (MobileAuth.serve pf s req).2 !! m = None
  ∧ map_Forall (λ _ r, Credential.id r ≠ gen_random_uuid pf)
               (user_credentials (MobileAuth.serve pf s req).2)
  ∧ profiles (MobileAuth.serve pf s req).2 = profiles s
  ∧ (no_orphan_credential s →
     no_orphan_credential (MobileAuth.serve pf s req).2).
Proof.
  intros Hc Hreq Hu Hpre Hcred Hprof.
  pose proof Hreq as (_ & _ & _ & _ & _ & _ & _ & Hfn & _ & _).
  rewrite (serve_signup_request pf s req m p fn u Hc Hreq).
  rewrite (signup_profile_refused pf s m p fn u s1 Hfn Hu Hpre Hcred Hprof).
  pose proof (delete_after_insert _ _ _ _ Hcred) as Hback. simpl in Hback.
  pose proof Hcred as (Hm & Hids & Hs1)%insert_credential_Some.
  cbn [snd]. rewrite Hback. repeat split; try done.
  subst s1. cbn [with_credentials user_credentials]. apply lookup_insert_eq.
Qed.

Lemma allowed_username_any_case u u' :
  allowed_username u → toLowerCase u' = toLowerCase u → allowed_username u'.
Proof.
  intros Hu Heq. apply usernameRegex_test_spec.
  rewrite <- usernameRegex_lower, Heq, usernameRegex_lower.
  by apply usernameRegex_test_spec.
Qed.

(** C6. A signup with non-empty fields, an allowed username, a mobile number
    without credential and a username that no profile holds in any letter
    case succeeds (the store accepting the generated identifier and token).
    In the store it leaves, a further signup with the same mobile number is
    answered 400 "This mobile number is already registered", and a further
    signup whose username is the same up to letter case is answered 400 with
    that message when its mobile number is registered and with "This
    username is already taken" otherwise; both leave the store, so the
    credential and profile rows, as they were. *)
Theorem C6_register_once pf s req m p fn u :
  configured pf → signup_request req m p fn u → allowed_username u →
  user_credentials s !! m = None → ¬ username_taken s u →
  unused_id s (gen_random_uuid pf) →
  user_sessions s !! generateSessionToken (getRandomValues pf) = None →
  status (MobileAuth.serve pf s req).1 = 200%Z
  ∧ (MobileAuth.serve pf s req).2 = signed_up pf s m p fn u
  ∧ (∀ pf' req' p' fn' u',
       configured pf' → signup_request req' m p' fn' u' → allowed_username u' →
       MobileAuth.serve pf' (signed_up pf s m p fn u) req'
       = (json_error 400 "This mobile number is already registered",
          signed_up pf s m p fn u))
  ∧ (∀ pf' req' m' p' fn' u',
       configured pf' → signup_request req' m' p' fn' u' →
       toLowerCase u' = toLowerCase u →
       MobileAuth.serve pf' (signed_up pf s m p fn u) req'
       = (json_error 400
            (if decide (is_Some (user_credentials (signed_up pf s m p fn u) !! m'))
             then "This mobile number is already registered"
             else "This username is already taken"),
          signed_up pf s m p fn u)).
Proof.
  intros Hc Hreq Hu Hm Hfree Hid Htok.
  pose proof Hreq as (_ & _ & _ & _ & _ & _ & _ & Hfn & _ & _).
  rewrite (serve_signup_request pf s req m p fn u Hc Hreq).
  rewrite (signup_success pf s m p fn u Hfn Hu Hm Hfree Hid Htok).
  split; [done|]. split; [done|]. split.
  - intros pf' req' p' fn' u' Hc' Hreq' Hu'.
    pose proof Hreq' as (_ & _ & _ & _ & _ & _ & _ & Hfn' & _ & _).
    rewrite (serve_signup_request pf' _ req' m p' fn' u' Hc' Hreq').
    apply signup_mobile_conflict; [done | done |].
    unfold signed_up. cbn [user_credentials]. rewrite lookup_insert_eq. eauto.
  - intros pf' req' m' p' fn' u' Hc' Hreq' Heq.
    pose proof Hreq' as (_ & _ & _ & _ & _ & _ & _ & Hfn' & _ & _).
    pose proof (allowed_username_any_case u u' Hu Heq) as Hu'.
    rewrite (serve_signup_request pf' _ req' m' p' fn' u' Hc' Hreq').
    case_decide as Hreg.
    + by apply signup_mobile_conflict.
    + eapply signup_username_conflict; [done | done | |].
      * by apply eq_None_not_Some.
      * unfold profiles_by_username, signed_up. cbn [profiles].
        by apply precheck_stored.
Qed.

(** ** The [signin] branch *)

Lemma signin_no_credential pf s m p :
  user_credentials s !! m = None →
  MobileAuth.signin pf s m p
  = (json_error 401 "Invalid mobile number or password", s).
Proof. intros Hm. unfold MobileAuth.signin. by rewrite Hm. Qed.

Lemma signin_wrong_password pf s m p c :
  user_credentials s !! m = Some c →
  hashPassword p ≠ Credential.password_hash c →
  MobileAuth.signin pf s m p
  = (json_error 401 "Invalid mobile number or password", s).
Proof.
  intros Hm Hp. unfold MobileAuth.signin. rewrite Hm.
  unfold verifyPassword. by rewrite bool_decide_eq_false_2.
Qed.

Lemma invalidate_lookup s id token :
  user_sessions (invalidate_sessions s id) !! token
  = (λ x, if bool_decide (Session.user_id x = id) then deactivate x else x)
      <$> user_sessions s !! token.
Proof. unfold invalidate_sessions. cbn [with_sessions user_sessions]. apply lookup_fmap. Qed.

Lemma invalidate_lookup_None s id token :
  user_sessions (invalidate_sessions s id) !! token = None
  ↔ user_sessions s !! token = None.
Proof. rewrite invalidate_lookup. apply fmap_None. Qed.

(** With the right password the branch invalidates the sessions of the user
    and then depends on the store taking the new session row. *)
Lemma signin_right_password pf s m p c :
  user_credentials s !! m = Some c →
  hashPassword p = Credential.password_hash c →
  MobileAuth.signin pf s m p
  = match user_sessions s !! generateSessionToken (getRandomValues pf) with
    | Some _ =>
        (json_error 500 "Failed to create session",
         invalidate_sessions s (Credential.id c))
    | None =>
        (mkResponse 200
           (SignedIn (Credential.id c)
              (match profiles s !! Credential.id c with
               | Some q => Profile.mobile_number q
               | None => m
               end)
              (profiles s !! Credential.id c)
              (generateSessionToken (getRandomValues pf))),
         signed_in pf s (Credential.id c))
    end.
Proof.
  intros Hm Hp. unfold MobileAuth.signin. rewrite Hm.
  unfold verifyPassword. rewrite bool_decide_eq_true_2 by done. cbn [negb].
  unfold insert_session.
  destruct (user_sessions s !! generateSessionToken (getRandomValues pf)) eqn:Ht.
  - rewrite invalidate_lookup, Ht. reflexivity.
  - rewrite invalidate_lookup, Ht. reflexivity.
Qed.

Lemma signin_status_200 pf s m p :
  status (MobileAuth.signin pf s m p).1 = 200%Z →
  ∃ c, user_credentials s !! m = Some c
       ∧ hashPassword p = Credential.password_hash c
       ∧ user_sessions s !! generateSessionToken (getRandomValues pf) = None.
Proof.
  destruct (user_credentials s !! m) as [c|] eqn:Hm.
  - destruct (decide (hashPassword p = Credential.password_hash c)) as [Hp|Hp].
    + rewrite (signin_right_password pf s m p c Hm Hp).
      destruct (user_sessions s !! _) eqn:Ht; [done|]. eauto.
    + by rewrite (signin_wrong_password pf s m p c Hm Hp).
  - by rewrite (signin_no_credential pf s m p Hm).
Qed.

Lemma credential_matches_at s m p c :
  user_credentials s !! m = Some c →
  credential_matches s m p ↔ hashPassword p = Credential.password_hash c.
Proof.
  intros Hc. unfold credential_matches. split.
  - intros (c' & Hc' & Hp). congruence.
  - intros Hp. by exists c.
Qed.

Lemma credential_matches_None s m p :
  user_credentials s !! m = None → ¬ credential_matches s m p.
Proof. intros Hc (c & Hc' & _). congruence. Qed.

(** C2, as amended.  When the mobile number or the password is missing or
    empty, the handler answers 400 "Mobile number and password are
    required", whatever the action and the store, and leaves the store as
    it was.  On a signin request with a non-empty mobile number and
    password: a success means that a credential row exists for the mobile
    number and that the digest of the password is the stored digest; with
    such a credential the signin succeeds once the store takes the new
    session row; without one, whether the credential is missing or the
    digest differs, the answer is the same 401 "Invalid mobile number or
    password" and the store is left as it was. *)
Theorem C2_authenticate pf s req :
  MobileAuth.method req ≠ "OPTIONS" → configured pf →
  (truthy (MobileAuth.mobile_number req) = false
   ∨ truthy (MobileAuth.password req) = false →
   MobileAuth.serve pf s req
   = (json_error 400 "Mobile number and password are required", s))
  ∧ (∀ m p, signin_request req m p →
       (status (MobileAuth.serve pf s req).1 = 200%Z → credential_matches s m p)
       ∧ (credential_matches s m p →
          user_sessions s !! generateSessionToken (getRandomValues pf) = None →
          status (MobileAuth.serve pf s req).1 = 200%Z)
       ∧ (¬ credential_matches s m p →
          MobileAuth.serve pf s req
          = (json_error 401 "Invalid mobile number or password", s))).
Proof.
  intros Hmethod Hc. split.
  - intros Hmissing. unfold MobileAuth.serve.
    rewrite bool_decide_eq_false_2 by done.
    rewrite configured_gate by done.
    destruct Hmissing as [-> | ->]; [done|]. by rewrite orb_true_r.
  - intros m p Hreq. rewrite (serve_signin_request pf s req m p Hc Hreq).
    split; [|split].
    + intros (c & Hm & Hp & _)%signin_status_200. by exists c.
    + intros (c & Hm & Hp) Ht.
      by rewrite (signin_right_password pf s m p c Hm Hp), Ht.
    + intros Hno. destruct (user_credentials s !! m) as [c|] eqn:Hm.
      * apply (signin_wrong_password pf s m p c Hm).
        intros Hp. apply Hno. by exists c.
      * by apply signin_no_credential.
Qed.

Lemma signed_in_sessions pf s id :
  user_sessions (signed_in pf s id)
  = <[generateSessionToken (getRandomValues pf) :=
        Session.mk id (now pf + thirty_days) true (now pf)]>
      ((λ x, if bool_decide (Session.user_id x = id) then deactivate x else x)
         <$> user_sessions s).
Proof. reflexivity. Qed.

Lemma signed_in_credentials pf s id :
  user_credentials (signed_in pf s id) = user_credentials s.
Proof. reflexivity. Qed.

(** A session just inserted is valid until its expiry. *)
Lemma validate_fresh (s : Store) (token uid : string) (exp upd t : Z) :
  user_sessions s !! token = Some (Session.mk uid exp true upd) →
  (t < exp)%Z → validate_session s t token = Some uid.
Proof.
  intros Hx Ht. unfold validate_session. rewrite Hx. cbn.
  by rewrite (proj2 (Z.ltb_lt t exp) Ht).
Qed.

(** An inactive session is never valid. *)
Lemma validate_inactive (s : Store) (token : string) (x : Session.t) (t : Z) :
  user_sessions s !! token = Some x → Session.is_active x = false →
  validate_session s t token = None.
Proof. intros Hx Ha. unfold validate_session. by rewrite Hx, Ha. Qed.

(** After a signin the new session is the only active session of the
    user. *)
Lemma signed_in_only_active pf s id token x :
  user_sessions (signed_in pf s id) !! token = Some x →
  Session.user_id x = id → Session.is_active x = true →
  token = generateSessionToken (getRandomValues pf).
Proof.
  rewrite signed_in_sessions.
  destruct (decide (generateSessionToken (getRandomValues pf) = token))
    as [<-|Hne]; [done|].
  rewrite lookup_insert_ne by done. rewrite lookup_fmap.
  destruct (user_sessions s !! token) as [y|]; [|done].
  cbn. intros [= <-]. case_bool_decide as Hy; cbn; congruence.
Qed.


(** C1. When two consecutive signins for the same mobile number both
    succeed, each issues a token and the two tokens differ.  In the store
    left by the second signin the session row of the first token is
    inactive, so the first token is not valid at any time, while the second
    token is valid, for the user of the credential, at every time before its
    expiry 30 days later; the second session is the only active session of
    that user. *)
Theorem C1_second_signin_invalidates_first pf1 pf2 s req1 req2 m p1 p2 :
  configured pf1 → configured pf2 →
  signin_request req1 m p1 → signin_request req2 m p2 →
  status (MobileAuth.serve pf1 s req1).1 = 200%Z →
  status (MobileAuth.serve pf2 (MobileAuth.serve pf1 s req1).2 req2).1 = 200%Z →
  ∃ c t1 t2,
    user_credentials s !! m = Some c
    ∧ issued_token (MobileAuth.serve pf1 s req1).1 = Some t1
    ∧ issued_token (MobileAuth.serve pf2 (MobileAuth.serve pf1 s req1).2 req2).1
      = Some t2
    ∧ t1 ≠ t2
    ∧ (∀ t, (t < now pf1 + thirty_days)%Z →
         validate_session (MobileAuth.serve pf1 s req1).2 t t1
         = Some (Credential.id c))
    ∧ (∀ t, validate_session
              (MobileAuth.serve pf2 (MobileAuth.serve pf1 s req1).2 req2).2 t t1
            = None)
    ∧ (∀ t, (t < now pf2 + thirty_days)%Z →
         validate_session
           (MobileAuth.serve pf2 (MobileAuth.serve pf1 s req1).2 req2).2 t t2
         = Some (Credential.id c))
    ∧ (∃ x, user_sessions
              (MobileAuth.serve pf2 (MobileAuth.serve pf1 s req1).2 req2).2 !! t1
            = Some x
            ∧ Session.is_active x = false)
    ∧ (∀ token x,
         user_sessions
           (MobileAuth.serve pf2 (MobileAuth.serve pf1 s req1).2 req2).2 !! token
         = Some x →
         Session.user_id x = Credential.id c → Session.is_active x = true →
         token = t2).
Proof.
  intros Hc1 Hc2 Hreq1 Hreq2.
  rewrite (serve_signin_request pf1 s req1 m p1 Hc1 Hreq1).
  intros H1. destruct (signin_status_200 _ _ _ _ H1) as (c & Hm & Hp1 & Ht1).
  clear H1. rewrite (signin_right_password pf1 s m p1 c Hm Hp1), Ht1. cbn [fst snd].
  rewrite (serve_signin_request pf2 _ req2 m p2 Hc2 Hreq2).
  intros H2. destruct (signin_status_200 _ _ _ _ H2) as (c' & Hm' & Hp2 & Ht2).
  clear H2. rewrite signed_in_credentials, Hm in Hm'. injection Hm' as <-.
  rewrite (signin_right_password pf2 _ m p2 c
             (eq_trans (f_equal (λ t, t !! m) (signed_in_credentials pf1 s _)) Hm)
             Hp2), Ht2.
  cbn [fst snd issued_token body].
  set (t1 := generateSessionToken (getRandomValues pf1)) in *.
  set (t2 := generateSessionToken (getRandomValues pf2)) in *.
  assert (t1 ≠ t2) as Hne.
  { intros Heq. rewrite <- Heq, signed_in_sessions in Ht2.
    by rewrite lookup_insert_eq in Ht2. }
  assert (user_sessions (signed_in pf2 (signed_in pf1 s (Credential.id c))
                                   (Credential.id c)) !! t1
          = Some (deactivate (Session.mk (Credential.id c)
                                (now pf1 + thirty_days) true (now pf1))))
    as Hold.
  { rewrite !signed_in_sessions. fold t1 t2.
    rewrite lookup_insert_ne by done.
    rewrite lookup_fmap, lookup_insert_eq. cbn.
    by rewrite bool_decide_eq_true_2. }
  exists c, t1, t2.
  split; [done|]. split; [done|]. split; [done|]. split; [done|]. split.
  { intros t Hlt. eapply validate_fresh; [|exact Hlt].
    rewrite signed_in_sessions. apply lookup_insert_eq. }
  split.
  { intros t. by apply (validate_inactive _ _ _ _ Hold). }
  split.
  { intros t Hlt. eapply validate_fresh; [|exact Hlt].
    rewrite signed_in_sessions. apply lookup_insert_eq. }
  split.
  { eexists. split; [exact Hold | done]. }
  intros token x Hx Hu Ha. by apply (signed_in_only_active _ _ _ _ _ Hx Hu Ha).
Qed.

(** ** The uniqueness invariants *)

Lemma unique_rows_insert_credential s m row s1 :
  unique_rows s → insert_credential s m row = Some s1 → unique_rows s1.
Proof.
  intros [Hc Hp] (Hm & Hids & ->)%insert_credential_Some. split; [|exact Hp].
  cbn [with_credentials user_credentials]. intros m1 m2 c1 c2 H1 H2 Heq.
  apply lookup_insert_Some in H1 as [[<- <-]|[Hn1 H1]];
    apply lookup_insert_Some in H2 as [[<- <-]|[Hn2 H2]].
  - done.
  - exfalso. by apply (Hids m2 c2 H2).
  - exfalso. by apply (Hids m1 c1 H1).
  - by apply (Hc m1 m2 c1 c2).
Qed.

Lemma unique_rows_insert_profile s id row s1 :
  unique_rows s → insert_profile s id row = Some s1 → unique_rows s1.
Proof.
  intros [Hc Hp] (Hm & Hnames & ->)%insert_profile_Some. split; [exact Hc|].
  cbn [with_profiles profiles]. intros i j p q H1 H2 Heq.
  apply lookup_insert_Some in H1 as [[<- <-]|[Hn1 H1]];
    apply lookup_insert_Some in H2 as [[<- <-]|[Hn2 H2]].
  - done.
  - exfalso. by apply (Hnames j q H2).
  - exfalso. by apply (Hnames i p H1).
  - by apply (Hp i j p q).
Qed.

Lemma unique_rows_sessions s x :
  unique_rows s → unique_rows (with_sessions s x).
Proof. by intros [Hc Hp]. Qed.

Lemma unique_rows_insert_session s token uid exp t s1 :
  unique_rows s → insert_session s token uid exp t = Some s1 → unique_rows s1.
Proof. intros Hu (_ & ->)%insert_session_Some. by apply unique_rows_sessions. Qed.

Lemma unique_rows_set_online s id : unique_rows s → unique_rows (set_online s id).
Proof.
  intros [Hc Hp]. split; [exact Hc|].
  unfold set_online. cbn [with_profiles profiles]. intros i j p q H1 H2.
  apply lookup_alter_Some in H1 as [(<- & p' & H1 & ->)|[_ H1]];
    apply lookup_alter_Some in H2 as [(<- & q' & H2 & ->)|[_ H2]];
    cbn [Profile.username]; eauto.
Qed.

(** Every answer of the authentication handler leaves the invariants in
    place. *)
Lemma serve_unique_rows pf s req :
  unique_rows s → unique_rows (MobileAuth.serve pf s req).2.
Proof.
  intros Hu. unfold MobileAuth.serve.
  case_bool_decide; [done|].
  destruct (negb _ || negb _); [done|].
  destruct (negb _ || negb _); [done|].
  case_bool_decide; [|case_bool_decide; [|done]].
  - unfold MobileAuth.signup.
    destruct (negb _ || negb _); [done|].
    destruct (negb _); [done|].
    destruct (user_credentials s !! _); [done|].
    destruct (data _); [done|].
    destruct (insert_credential _ _ _) as [s1|] eqn:H1; [|done].
    pose proof (unique_rows_insert_credential _ _ _ _ Hu H1) as Hu1.
    destruct (insert_profile _ _ _) as [s2|] eqn:H2.
    + pose proof (unique_rows_insert_profile _ _ _ _ Hu1 H2) as Hu2.
      destruct (insert_session _ _ _ _ _) as [s3|] eqn:H3; [|done].
      by apply (unique_rows_insert_session _ _ _ _ _ _ Hu2 H3).
    + cbn [snd]. pose proof (delete_after_insert _ _ _ _ H1) as Hback.
      cbn [Credential.id] in Hback. by rewrite Hback.
  - unfold MobileAuth.signin.
    destruct (user_credentials s !! _) as [c|]; [|done].
    destruct (negb _); [done|].
    destruct (insert_session _ _ _ _ _) as [s2|] eqn:H2.
    + cbn [snd]. apply unique_rows_set_online.
      eapply unique_rows_insert_session; [|exact H2].
      by apply unique_rows_sessions.
    + cbn [snd]. by apply unique_rows_sessions.
Qed.

(** ** [refresh_session] *)

(** C3. [refresh_session] returns true exactly when a session row with the
    token exists, is active and expires strictly after now; it then sets the
    expiry of that row to now plus 30 days and leaves every other row as it
    was.  In every other case it returns false and the store is unchanged. *)
Theorem C3_refresh_session (s : Store) (t : Z) (token : string) :
  ((refresh_session s t token).1 = true ↔ live_session s t token)
  ∧ (live_session s t token →
     ∃ x, user_sessions s !! token = Some x
          ∧ user_sessions (refresh_session s t token).2 !! token
            = Some (Session.mk (Session.user_id x) (t + thirty_days) true t)
          ∧ (t + thirty_days = t + 30 * 24 * 60 * 60 * 1000)%Z
          ∧ (∀ token', token' ≠ token →
               user_sessions (refresh_session s t token).2 !! token'
               = user_sessions s !! token')
          ∧ with_sessions (refresh_session s t token).2 (user_sessions s) = s)
  ∧ (¬ live_session s t token → refresh_session s t token = (false, s)).
Proof.
  unfold refresh_session, live_session.
  destruct (user_sessions s !! token) as [x|] eqn:Hx.
  - destruct (Session.is_active x) eqn:Ha; cbn [andb].
    + destruct (Z.ltb_spec t (Session.expires_at x)) as [Hlt|Hge]; cbn [fst snd].
      * split; [split; [eauto | done]|]. split.
        -- intros _. exists x. split; [done|].
           cbn [with_sessions user_sessions]. rewrite lookup_insert_eq.
           repeat split; try done.
           ++ intros token' Hne. by rewrite lookup_insert_ne.
           ++ by destruct s.
        -- intros Hno. exfalso. apply Hno. eauto.
      * split; [split; [done|]|].
        -- intros (y & [= <-] & _ & Hlt). lia.
        -- split; [|done]. intros (y & [= <-] & _ & Hlt). lia.
    + cbn [fst snd]. split; [split; [done|]|].
      * intros (y & [= <-] & Hact & _). congruence.
      * split; [|done]. intros (y & [= <-] & Hact & _). congruence.
  - cbn [fst snd]. split; [split; [done|]|].
    + by intros (y & [=] & _).
    + split; [|done]. by intros (y & [=] & _).
Qed.

(** ** The unimplemented [admin_validate] action *)

(** C4. What the handler does with [admin_validate]: whatever session token
    the body carries, a request with that action is answered 400, with
    "Mobile number and password are required" when either field is missing
    and with "Invalid action" otherwise; it is never answered 200 or 401 and
    the store is not touched. *)
Theorem C4_admin_validate_rejected pf s req :
  MobileAuth.method req ≠ "OPTIONS" → configured pf →
  MobileAuth.action req = Some "admin_validate" →
  status (MobileAuth.serve pf s req).1 = 400%Z
  ∧ (MobileAuth.mobile_number req = None →
     MobileAuth.serve pf s req
     = (json_error 400 "Mobile number and password are required", s))
  ∧ (body (MobileAuth.serve pf s req).1
     = Error "Mobile number and password are required"
     ∨ body (MobileAuth.serve pf s req).1 = Error "Invalid action")
  ∧ (MobileAuth.serve pf s req).2 = s.
Proof.
  intros Hm Hc Ha. unfold MobileAuth.serve.
  rewrite bool_decide_eq_false_2 by done.
  rewrite configured_gate by done. rewrite Ha.
  destruct (negb (truthy (MobileAuth.mobile_number req))
            || negb (truthy (MobileAuth.password req))) eqn:Hreq.
  - repeat split; auto.
  - repeat split; auto. intros Hnone. by rewrite Hnone in Hreq.
Qed.

(** ** The community handler *)

Section CommunityHandler.

Variable communities_accepts : Store → Community.t → bool.
Variable members_accepts : Store → Member.t → bool.
Variable members_on_delete : string → list Member.t → option (list Member.t).
Variable uuid_in : string → option string.

Local Abbreviation serve :=
  (ManageCommunity.serve communities_accepts members_accepts members_on_delete
                         uuid_in).

(** The handler reaches the actions only with a session token that
    [validate_session] maps to a user; otherwise the store is untouched. *)
Lemma serve_gate pf s req :
  (∃ token uid,
     ManageCommunity.method req ≠ "OPTIONS"
     ∧ ManageCommunity.x_session_token req = Some token ∧ token ≠ ""
     ∧ validate_session s (now pf) token = Some uid ∧ uid ≠ "")
  ∨ (serve pf s req).2 = s.
Proof.
  unfold ManageCommunity.serve.
  case_bool_decide as Hm; [by right|].
  destruct (negb (truthy (SUPABASE_URL pf))
            || negb (truthy (SUPABASE_SERVICE_ROLE_KEY pf))); [by right|].
  destruct (ManageCommunity.x_session_token req) as [token|] eqn:Htok;
    [|by right].
  destruct (truthy (Some token)) eqn:Htruthy; [|by right].
  cbn [negb]. change (default "" (Some token)) with token.
  destruct (validate_session s (now pf) token) as [uid|] eqn:Hv; [|by right].
  destruct (truthy (Some uid)) eqn:Huid; [|by right].
  left. exists token, uid. apply truthy_Some in Htruthy, Huid. done.
Qed.

(** C9. A request without the [x-session-token] header (or with an empty
    one), or whose token [validate_session] maps to no user, is answered
    401 and leaves the store as it was, whatever its action; and whenever
    the handler changes the store, the request carried a token for which
    [validate_session] returned a user identifier. *)
Theorem C9_writes_need_a_session pf s req :
  (ManageCommunity.method req ≠ "OPTIONS" → configured pf →
   truthy (ManageCommunity.x_session_token req) = false
   ∨ validate_session s (now pf)
       (default "" (ManageCommunity.x_session_token req)) = None →
   status (serve pf s req).1 = 401%Z ∧ (serve pf s req).2 = s)
  ∧ ((serve pf s req).2 ≠ s →
     ∃ token uid,
       ManageCommunity.x_session_token req = Some token
       ∧ validate_session s (now pf) token = Some uid).
Proof.
  split.
  - intros Hm Hc Hno. unfold ManageCommunity.serve.
    rewrite bool_decide_eq_false_2 by done.
    rewrite configured_gate by done.
    destruct (truthy (ManageCommunity.x_session_token req)) eqn:Htok;
      cbn [negb]; [|done].
    destruct Hno as [|Hv]; [done|]. by rewrite Hv.
  - intros Hchanged. destruct (serve_gate pf s req)
      as [(token & uid & _ & Htok & _ & Hv & _)|Hsame]; [eauto | done].
Qed.

Lemma serve_delete_discussion pf s req token uid :
  ManageCommunity.method req ≠ "OPTIONS" → configured pf →
  ManageCommunity.x_session_token req = Some token → token ≠ "" →
  validate_session s (now pf) token = Some uid → uid ≠ "" →
  ManageCommunity.action req = Some "delete_discussion" →
  serve pf s req = ManageCommunity.delete_discussion uuid_in s uid req.
Proof.
  intros Hm Hc Htok Hne Hv Hune Ha. unfold ManageCommunity.serve.
  rewrite bool_decide_eq_false_2 by done.
  rewrite configured_gate by done.
  apply truthy_Some in Hne, Hune.
  rewrite Htok, Hne. cbn [negb]. change (default "" (Some token)) with token.
  rewrite Hv, Hune, Ha. reflexivity.
Qed.

(** C10. On a [delete_discussion] request with a valid session that names
    a discussion: when no such discussion exists (the text is no uuid, or
    no row has that uuid) the answer is 404 and nothing changes; when it
    exists and the caller owns it or created its community, the row is
    deleted and the answer is 200; when it exists and the caller is
    neither, the answer is 403 and the store, so the row, is unchanged.
    The row is gone after the request exactly when the caller was
    allowed. *)
Theorem C10_delete_discussion pf s req token uid did :
  ManageCommunity.method req ≠ "OPTIONS" → configured pf →
  ManageCommunity.x_session_token req = Some token → token ≠ "" →
  validate_session s (now pf) token = Some uid → uid ≠ "" →
  ManageCommunity.action req = Some "delete_discussion" →
  ManageCommunity.discussion_id req = Some did → did ≠ "" →
  (uuid_in did = None
   ∨ (∃ id, uuid_in did = Some id ∧ community_discussions s !! id = None) →
   serve pf s req = (json_error 404 "Discussion not found", s))
  ∧ (∀ id d, uuid_in did = Some id → community_discussions s !! id = Some d →
       (may_delete s uid d →
        serve pf s req
        = (mkResponse 200 Success,
           with_discussions s (delete id (community_discussions s))))
       ∧ (¬ may_delete s uid d →
          serve pf s req
          = (json_error 403 "Not authorized to delete this discussion", s))
       ∧ (community_discussions (serve pf s req).2 !! id = None
          ↔ may_delete s uid d)).
Proof.
  intros Hm Hc Htok Hne Hv Hune Ha Hd Hdne.
  rewrite (serve_delete_discussion pf s req token uid) by done.
  unfold ManageCommunity.delete_discussion. rewrite Hd.
  apply truthy_Some in Hdne. rewrite Hdne. cbn [negb].
  change (default "" (Some did)) with did. split.
  - intros [->|(id & -> & ->)]; reflexivity.
  - intros id d -> Hdisc. rewrite Hdisc. unfold may_delete.
    case_bool_decide as Hown; cbn [negb andb].
    + unfold ManageCommunity.delete_discussion_row.
      split; [done|]. split; [tauto|].
      cbn [snd with_discussions community_discussions].
      rewrite lookup_delete_eq. tauto.
    + destruct (communities s !! Discussion.community_id d) as [c|] eqn:Hcom.
      * case_bool_decide as Hadm; cbn [negb].
        -- unfold ManageCommunity.delete_discussion_row.
           split; [done|]. split; [intros Hno; exfalso; apply Hno; eauto|].
           cbn [snd with_discussions community_discussions].
           rewrite lookup_delete_eq. split; [eauto | done].
        -- assert (¬ (Discussion.user_id d = uid
                      ∨ ∃ c0, Some c = Some c0 ∧ Community.created_by c0 = uid))
             as Hno.
           { intros [?|(c0 & [= <-] & ?)]; done. }
           split; [done|]. split; [done|]. cbn [snd]. split; [|done].
           intros Hgone. congruence.
      * cbn [negb].
        assert (¬ (Discussion.user_id d = uid
                   ∨ ∃ c0, None = Some c0 ∧ Community.created_by c0 = uid))
          as Hno.
        { intros [?|(c0 & [=] & ?)]; done. }
        split; [done|]. split; [done|]. cbn [snd]. split; [|done].
        intros Hgone. congruence.
Qed.

End CommunityHandler.

(** ** The handlers on sample requests *)

Example signup_then_signin_twice :
  let r1 := MobileAuth.serve Sample.first Sample.empty
              (Sample.signup "9876543210" "s3cret" "Asha" "Asha_01") in
  let r2 := MobileAuth.serve Sample.second r1.2 (Sample.signin "9876543210" "s3cret") in
  let r3 := MobileAuth.serve Sample.third r2.2 (Sample.signin "9876543210" "s3cret") in
  r1.1 = mkResponse 200 (SignedUp Sample.asha "9876543210" "Asha" Sample.first_token)
  ∧ r2.1 = mkResponse 200
             (SignedIn Sample.asha "9876543210"
                (Some (Profile.mk "Asha" "9876543210" "asha_01" None))
                Sample.second_token)
  ∧ issued_token r3.1 = Some Sample.third_token
  ∧ validate_session r3.2 (now Sample.third) Sample.first_token = None
  ∧ validate_session r3.2 (now Sample.third) Sample.second_token = None
  ∧ validate_session r3.2 (now Sample.third) Sample.third_token = Some Sample.asha
  ∧ profiles r3.2 !! Sample.asha
    = Some (Profile.mk "Asha" "9876543210" "asha_01" (Some true)).
Proof. vm_compute. repeat split; reflexivity. Qed.

Example wrong_password_and_unknown_number :
  MobileAuth.serve Sample.second Sample.registered (Sample.signin "9876543210" "guess")
  = (json_error 401 "Invalid mobile number or password", Sample.registered)
  ∧ MobileAuth.serve Sample.second Sample.registered (Sample.signin "9000000009" "s3cret")
    = (json_error 401 "Invalid mobile number or password", Sample.registered).
Proof. vm_compute. split; reflexivity. Qed.

Example refresh_extends_a_live_session :
  let '(ok, s) := refresh_session Sample.registered (now Sample.second) Sample.first_token in
  ok = true
  ∧ Session.expires_at <$> user_sessions s !! Sample.first_token
    = Some (now Sample.second + thirty_days)%Z
  ∧ refresh_session Sample.registered (now Sample.first + thirty_days) Sample.first_token
    = (false, Sample.registered).
Proof. vm_compute. repeat split; reflexivity. Qed.

(** ** The theorems at sample requests *)

(** Evaluation of a closed goal. *)
Ltac evaluated :=
  vm_compute; repeat split; first [reflexivity | discriminate | exact I].

(** A sample request has the shape the statements ask for. *)
Ltac sample_request := unfold signup_request, signin_request; evaluated.

Ltac sample_bytes :=
  vm_compute; repeat (constructor; [done|]); constructor.

Ltac sample_username := apply usernameRegex_test_spec; evaluated.

(** The username "a!" is refused with 400 before any write; "Asha_01" passes
    the pattern. *)
Lemma C7_username_validation_witness :
  (status (MobileAuth.serve Sample.first Sample.empty
             (Sample.signup "9876543210" "s3cret" "Asha" "a!")).1 = 400%Z
   ∧ (MobileAuth.serve Sample.first Sample.empty
        (Sample.signup "9876543210" "s3cret" "Asha" "a!")).2 = Sample.empty)
  ∧ usernameRegex_test "Asha_01" = true.
Proof.
  split.
  - destruct (C7_username_validation Sample.first Sample.empty
                (Sample.signup "9876543210" "s3cret" "Asha" "a!"))
      as [Hbad _]; [evaluated | evaluated | evaluated |].
    destruct Hbad as (Hs & _ & Hst); [|by split].
    intros u [= <-] H%usernameRegex_test_spec. vm_compute in H. discriminate.
  - destruct (C7_username_validation Sample.first Sample.empty
                (Sample.signup "9876543210" "s3cret" "Asha" "Asha_01"))
      as [_ Hok]; [evaluated | evaluated | evaluated |].
    apply (Hok "Asha_01"); [reflexivity | sample_username].
Defined.

(** A profile written elsewhere holds "Bob": the existence check for "bob"
    finds nothing, the credential goes in, the profile is refused, and the
    credential is taken out again. *)
Lemma C5_profile_failure_rolls_back_witness :
  MobileAuth.serve Sample.first Sample.with_mixed_case_profile
    (Sample.signup "9876543210" "s3cret" "Bobby" "bob")
  = (json_error 500 "Failed to create profile", Sample.with_mixed_case_profile).
Proof.
  destruct (C5_profile_failure_rolls_back Sample.first
              Sample.with_mixed_case_profile
              (Sample.signup "9876543210" "s3cret" "Bobby" "bob")
              "9876543210" "s3cret" "Bobby" "bob"
              (with_credentials Sample.with_mixed_case_profile
                 {[ "9876543210"
                    := Credential.mk Sample.asha (hashPassword "s3cret") ]}))
    as (_ & Hserve & Hback & _);
    [evaluated | sample_request | sample_username
     | evaluated | evaluated | evaluated |].
  rewrite Hserve, Hback. reflexivity.
Defined.

Ltac sample_unused :=
  split; [apply map_Forall_empty | reflexivity].

Ltac sample_username_free :=
  apply username_free_forall; apply map_Forall_empty.

(** Asha signs up; her mobile number and her username in capitals are then
    both refused. *)
Lemma C6_register_once_witness :
  status (MobileAuth.serve Sample.first Sample.empty
            (Sample.signup "9876543210" "s3cret" "Asha" "Asha_01")).1 = 200%Z
  ∧ MobileAuth.serve Sample.second Sample.registered
      (Sample.signup "9876543210" "other" "Asha K" "asha_k")
    = (json_error 400 "This mobile number is already registered",
       Sample.registered)
  ∧ MobileAuth.serve Sample.second Sample.registered
      (Sample.signup "9000000002" "other" "Another Asha" "ASHA_01")
    = (json_error 400 "This username is already taken", Sample.registered).
Proof.
  destruct (C6_register_once Sample.first Sample.empty
              (Sample.signup "9876543210" "s3cret" "Asha" "Asha_01")
              "9876543210" "s3cret" "Asha" "Asha_01")
    as (Hok & _ & Hmobile & Huser);
    [evaluated | sample_request | sample_username | evaluated
     | sample_username_free | sample_unused | evaluated |].
  split; [exact Hok|]. split.
  - pose proof (Hmobile Sample.second
                  (Sample.signup "9876543210" "other" "Asha K" "asha_k")
                  "other" "Asha K" "asha_k"
                  ltac:(evaluated) ltac:(sample_request) ltac:(sample_username))
      as H.
    vm_compute in H |- *. exact H.
  - pose proof (Huser Sample.second
                  (Sample.signup "9000000002" "other" "Another Asha" "ASHA_01")
                  "9000000002" "other" "Another Asha" "ASHA_01"
                  ltac:(evaluated) ltac:(sample_request) ltac:(evaluated))
      as H.
    vm_compute in H |- *. exact H.
Defined.

(** The right password, a wrong password, an unknown mobile number and a
    request without password. *)
Lemma C2_authenticate_witness :
  status (MobileAuth.serve Sample.second Sample.registered
            (Sample.signin "9876543210" "s3cret")).1 = 200%Z
  ∧ MobileAuth.serve Sample.second Sample.registered
      (Sample.signin "9876543210" "guess")
    = (json_error 401 "Invalid mobile number or password", Sample.registered)
  ∧ MobileAuth.serve Sample.second Sample.registered
      (Sample.signin "9000000009" "s3cret")
    = (json_error 401 "Invalid mobile number or password", Sample.registered)
  ∧ MobileAuth.serve Sample.second Sample.registered
      (MobileAuth.mkRequest "POST" (Some "signin") (Some "9876543210") None
                            None None None)
    = (json_error 400 "Mobile number and password are required",
       Sample.registered).
Proof.
  split; [|split; [|split]].
  - destruct (C2_authenticate Sample.second Sample.registered
                (Sample.signin "9876543210" "s3cret"))
      as [_ Hsignin]; [evaluated | evaluated |].
    destruct (Hsignin "9876543210" "s3cret") as (_ & Hok & _); [sample_request|].
    apply Hok; [|evaluated].
    exists (Credential.mk Sample.asha (hashPassword "s3cret")). evaluated.
  - destruct (C2_authenticate Sample.second Sample.registered
                (Sample.signin "9876543210" "guess"))
      as [_ Hsignin]; [evaluated | evaluated |].
    destruct (Hsignin "9876543210" "guess") as (_ & _ & Hno); [sample_request|].
    apply Hno. intros H.
    apply (credential_matches_at _ _ _
             (Credential.mk Sample.asha (hashPassword "s3cret"))) in H;
      [|evaluated].
    vm_compute in H. discriminate.
  - destruct (C2_authenticate Sample.second Sample.registered
                (Sample.signin "9000000009" "s3cret"))
      as [_ Hsignin]; [evaluated | evaluated |].
    destruct (Hsignin "9000000009" "s3cret") as (_ & _ & Hno); [sample_request|].
    apply Hno, credential_matches_None. evaluated.
  - destruct (C2_authenticate Sample.second Sample.registered
                (MobileAuth.mkRequest "POST" (Some "signin") (Some "9876543210")
                                      None None None None))
      as [Hmissing _]; [evaluated | evaluated |].
    apply Hmissing. right. reflexivity.
Defined.

(** With an empty password the digest differs from the stored one and the
    answer is 400, not the generic 401. *)
Lemma C2_counterexample :
  credential_matches Sample.registered "9876543210" "s3cret"
  ∧ ¬ credential_matches Sample.registered "9876543210" ""
  ∧ MobileAuth.serve Sample.second Sample.registered (Sample.signin "9876543210" "")
    = (json_error 400 "Mobile number and password are required", Sample.registered)
  ∧ ¬ authenticate_for_every_input Sample.second Sample.registered
        (Sample.signin "9876543210" "") "9876543210" "".
Proof.
  assert (¬ credential_matches Sample.registered "9876543210" "") as Hno.
  { intros H.
    apply (credential_matches_at _ _ _
             (Credential.mk Sample.asha (hashPassword "s3cret"))) in H;
      [|evaluated].
    vm_compute in H. discriminate. }
  split; [|split; [exact Hno | split]].
  - exists (Credential.mk Sample.asha (hashPassword "s3cret")). evaluated.
  - evaluated.
  - intros [_ H]. specialize (H Hno). vm_compute in H. discriminate.
Qed.


(** Asha signs in twice, a minute apart. *)
Lemma C1_second_signin_invalidates_first_witness :
  ∃ c t1 t2,
    user_credentials Sample.registered !! "9876543210" = Some c
    ∧ issued_token (MobileAuth.serve Sample.second Sample.registered
                      (Sample.signin "9876543210" "s3cret")).1 = Some t1
    ∧ issued_token
        (MobileAuth.serve Sample.third
           (MobileAuth.serve Sample.second Sample.registered
              (Sample.signin "9876543210" "s3cret")).2
           (Sample.signin "9876543210" "s3cret")).1 = Some t2
    ∧ t1 ≠ t2
    ∧ (∀ t, (t < now Sample.second + thirty_days)%Z →
         validate_session
           (MobileAuth.serve Sample.second Sample.registered
              (Sample.signin "9876543210" "s3cret")).2 t t1
         = Some (Credential.id c))
    ∧ (∀ t, validate_session
              (MobileAuth.serve Sample.third
                 (MobileAuth.serve Sample.second Sample.registered
                    (Sample.signin "9876543210" "s3cret")).2
                 (Sample.signin "9876543210" "s3cret")).2 t t1
            = None)
    ∧ (∀ t, (t < now Sample.third + thirty_days)%Z →
         validate_session
           (MobileAuth.serve Sample.third
              (MobileAuth.serve Sample.second Sample.registered
                 (Sample.signin "9876543210" "s3cret")).2
              (Sample.signin "9876543210" "s3cret")).2 t t2
         = Some (Credential.id c))
    ∧ (∃ x, user_sessions
              (MobileAuth.serve Sample.third
                 (MobileAuth.serve Sample.second Sample.registered
                    (Sample.signin "9876543210" "s3cret")).2
                 (Sample.signin "9876543210" "s3cret")).2 !! t1
            = Some x
            ∧ Session.is_active x = false)
    ∧ (∀ token x,
         user_sessions
           (MobileAuth.serve Sample.third
              (MobileAuth.serve Sample.second Sample.registered
                 (Sample.signin "9876543210" "s3cret")).2
              (Sample.signin "9876543210" "s3cret")).2 !! token
         = Some x →
         Session.user_id x = Credential.id c → Session.is_active x = true →
         token = t2).
Proof.
  apply (C1_second_signin_invalidates_first Sample.second Sample.third
           Sample.registered (Sample.signin "9876543210" "s3cret")
           (Sample.signin "9876543210" "s3cret") "9876543210" "s3cret" "s3cret");
    [evaluated | evaluated | sample_request | sample_request
     | evaluated | evaluated].
Defined.

(** The token of a live session, sent with [admin_validate]. *)
Lemma C4_admin_validate_rejected_witness :
  validate_session Sample.registered (now Sample.second) Sample.first_token
  = Some Sample.asha
  ∧ MobileAuth.serve Sample.second Sample.registered
      (Sample.admin_validate Sample.first_token)
    = (json_error 400 "Mobile number and password are required",
       Sample.registered).
Proof.
  split; [evaluated|].
  destruct (C4_admin_validate_rejected Sample.second Sample.registered
              (Sample.admin_validate Sample.first_token))
    as (_ & Hmissing & _); [evaluated | evaluated | evaluated |].
  apply Hmissing. reflexivity.
Defined.

(** No token, a token that was never issued, and the token of a live
    session. *)
Lemma C9_writes_need_a_session_witness :
  (Sample.community_serve Sample.second Sample.forum
     (Sample.community_request None "create" None None)).1
  = json_error 401 "No session token provided"
  ∧ (status (Sample.community_serve Sample.second Sample.forum
               (Sample.community_request (Some Sample.third_token) "delete"
                  (Some "c0000000-0000-4000-8000-000000000001") None)).1 = 401%Z
     ∧ (Sample.community_serve Sample.second Sample.forum
          (Sample.community_request (Some Sample.third_token) "delete"
             (Some "c0000000-0000-4000-8000-000000000001") None)).2
       = Sample.forum)
  ∧ ∃ token uid,
      Some Sample.first_token = Some token
      ∧ validate_session Sample.forum (now Sample.second) token = Some uid.
Proof.
  split; [evaluated|]. split.
  - apply (C9_writes_need_a_session Sample.accept_community Sample.accept_member
             Sample.keep_members Sample.uuid_in Sample.second Sample.forum
             (Sample.community_request (Some Sample.third_token) "delete"
                (Some "c0000000-0000-4000-8000-000000000001") None));
      [evaluated | evaluated | right; evaluated].
  - apply (C9_writes_need_a_session Sample.accept_community Sample.accept_member
             Sample.keep_members Sample.uuid_in Sample.second Sample.forum
             (Sample.community_request (Some Sample.first_token) "delete"
                (Some "c0000000-0000-4000-8000-000000000001") None)).
    vm_compute. intros [=].
Defined.

(** Asha, who created the community, deletes the discussion of another user,
    naming it in upper case; a discussion that does not exist and a text
    that is no uuid are answered 404. *)
Lemma C10_delete_discussion_witness :
  Sample.community_serve Sample.second Sample.forum
    (Sample.community_request (Some Sample.first_token) "delete_discussion" None
       (Some "D0000000-0000-4000-8000-000000000001"))
  = (mkResponse 200 Success,
     with_discussions Sample.forum
       (delete "d0000000-0000-4000-8000-000000000001"
               (community_discussions Sample.forum)))
  ∧ Sample.community_serve Sample.second Sample.forum
      (Sample.community_request (Some Sample.first_token) "delete_discussion" None
         (Some "d0000000-0000-4000-8000-000000000009"))
    = (json_error 404 "Discussion not found", Sample.forum)
  ∧ Sample.community_serve Sample.second Sample.forum
      (Sample.community_request (Some Sample.first_token) "delete_discussion" None
         (Some "the first discussion"))
    = (json_error 404 "Discussion not found", Sample.forum).
Proof.
  split; [|split].
  - destruct (C10_delete_discussion Sample.accept_community Sample.accept_member
                Sample.keep_members Sample.uuid_in Sample.second Sample.forum
                (Sample.community_request (Some Sample.first_token)
                   "delete_discussion" None
                   (Some "D0000000-0000-4000-8000-000000000001"))
                Sample.first_token Sample.asha
                "D0000000-0000-4000-8000-000000000001")
      as [_ Hexists];
      [evaluated | evaluated | evaluated | evaluated | evaluated | evaluated
       | evaluated | evaluated | evaluated |].
    destruct (Hexists "d0000000-0000-4000-8000-000000000001"
                (Discussion.mk "5b0c7a00-0000-4000-8000-00000000000a"
                   "c0000000-0000-4000-8000-000000000001" "hello"))
      as (Hallowed & _); [evaluated | evaluated |].
    apply Hallowed. right.
    exists (Community.mk "Makers" None None Sample.asha None). evaluated.
  - destruct (C10_delete_discussion Sample.accept_community Sample.accept_member
                Sample.keep_members Sample.uuid_in Sample.second Sample.forum
                (Sample.community_request (Some Sample.first_token)
                   "delete_discussion" None
                   (Some "d0000000-0000-4000-8000-000000000009"))
                Sample.first_token Sample.asha
                "d0000000-0000-4000-8000-000000000009")
      as [Hmissing _];
      [evaluated | evaluated | evaluated | evaluated | evaluated | evaluated
       | evaluated | evaluated | evaluated |].
    apply Hmissing. right.
    exists "d0000000-0000-4000-8000-000000000009". evaluated.
  - destruct (C10_delete_discussion Sample.accept_community Sample.accept_member
                Sample.keep_members Sample.uuid_in Sample.second Sample.forum
                (Sample.community_request (Some Sample.first_token)
                   "delete_discussion" None (Some "the first discussion"))
                Sample.first_token Sample.asha "the first discussion")
      as [Hmissing _];
      [evaluated | evaluated | evaluated | evaluated | evaluated | evaluated
       | evaluated | evaluated | evaluated |].
    apply Hmissing. left. evaluated.
Defined.

(** [trim] removes the Unicode spaces, the byte order mark and the line
    terminators at both ends and nothing inside; it keeps the next-line
    character U+0085 and the zero-width space U+200B, which are no white
    space of ECMAScript. *)
Example trim_white_space :
  trim (More.no_break_space ++ " a" ++ More.no_break_space ++ "b "
        ++ More.bytes [0xE2; 0x80; 0x83; 0xEF; 0xBB; 0xBF; 0xE3; 0x80; 0x80; 10])
  = "a" ++ More.no_break_space ++ "b"
  ∧ trim (More.bytes [0xE1; 0x9A; 0x80; 0xE2; 0x80; 0xA8; 0xE2; 0x80; 0xA9;
                      0xE2; 0x80; 0xAF; 0xE2; 0x81; 0x9F; 0xE2; 0x80; 0x8A; 13])
    = ""
  ∧ trim (More.bytes [0xC2; 0x85] ++ "x" ++ More.bytes [0xE2; 0x80; 0x8B])
    = More.bytes [0xC2; 0x85] ++ "x" ++ More.bytes [0xE2; 0x80; 0x8B].
Proof. vm_compute. repeat split; reflexivity. Qed.

(** The spellings of one uuid, and texts that are none. *)
Example uuid_spellings :
  Forall (λ text, Sample.uuid_in text = Some More.makers)
    [More.makers; More.makers_in_capitals;
     "{c0000000-0000-4000-8000-000000000001}";
     "c0000000000040008000000000000001";
     "c000-0000-0000-4000-8000-0000-0000-0001"]
  ∧ Forall (λ text, Sample.uuid_in text = None)
      [""; "makers"; " c0000000-0000-4000-8000-000000000001";
       "c0000000-0000-4000-8000-000000000001 ";
       "c-0000000-0000-4000-8000-000000000001";
       "{c0000000-0000-4000-8000-000000000001";
       "c0000000-0000-4000-8000-00000000000"].
Proof. split; repeat (constructor; [vm_compute; reflexivity|]); constructor. Qed.

Example a_stranger_cannot_delete_a_discussion :
  let s := (MobileAuth.serve Sample.second Sample.forum
              (Sample.signup "9000000002" "pa55word" "Ravi" "ravi")).2 in
  validate_session s (now Sample.third) Sample.second_token
  = Some (gen_random_uuid Sample.second)
  ∧ Sample.community_serve Sample.third s
      (Sample.community_request (Some Sample.second_token) "delete_discussion"
         None (Some "d0000000-0000-4000-8000-000000000001"))
    = (json_error 403 "Not authorized to delete this discussion", s)
  ∧ Sample.community_serve Sample.third s
      (Sample.community_request (Some Sample.second_token) "delete_discussion"
         None None)
    = (json_error 400 "Discussion ID is required", s).
Proof. vm_compute. repeat split; reflexivity. Qed.

(** ** The shape of digests and tokens *)

Lemma round_length st kw : length (Digest.round st kw) = length st.
Proof.
  destruct st as [|a [|b [|c [|d [|e [|f [|g [|h [|i st]]]]]]]]]; reflexivity.
Qed.

Lemma rounds_length l st : length (fold_left Digest.round l st) = length st.
Proof.
  revert st. induction l as [|kw l IH]; intros st; [done|].
  cbn [fold_left]. by rewrite IH, round_length.
Qed.

Lemma compress_length st block :
  length (Digest.compress st block) = length st.
Proof.
  unfold Digest.compress, Digest.zip_add.
  rewrite List.length_map, List.length_combine, rounds_length. lia.
Qed.

Lemma sha256_length msg : length (Digest.sha256 msg) = 32.
Proof.
  unfold Digest.sha256.
  assert (∀ bl st, length (fold_left Digest.compress bl st) = length st) as Hfold.
  { induction bl as [|b bl IH]; intros st; [done|].
    cbn [fold_left]. by rewrite IH, compress_length. }
  assert (∀ ws : list Z, length (flat_map Digest.bytes_of_word ws) = 4 * length ws)
    as Hflat.
  { induction ws as [|w ws IH]; [done|]. cbn [flat_map].
    rewrite List.length_app, IH. cbn [length Digest.bytes_of_word List.map]. lia. }
  rewrite Hflat, Hfold. reflexivity.
Qed.

(** X1. Whatever the password, [hashPassword] returns 64 characters, each
    a lower-case hexadecimal digit. *)
Theorem X1_hashPassword_shape password :
  String.length (hashPassword password) = 64
  ∧ Forall hex_char (list_ascii_of_string (hashPassword password)).
Proof.
  unfold hashPassword. split.
  - by rewrite hex_of_bytes_length, sha256_length.
  - apply hex_of_bytes_chars.
Qed.

(** X2. On byte sequences [generateSessionToken] loses nothing: two
    sequences give the same token exactly when they are the same sequence;
    the token has two lower-case hexadecimal digits per byte. *)
Theorem X2_generateSessionToken_injective r1 r2 :
  Forall byte_value r1 → Forall byte_value r2 →
  (generateSessionToken r1 = generateSessionToken r2 ↔ r1 = r2)
  ∧ String.length (generateSessionToken r1) = 2 * length r1
  ∧ Forall hex_char (list_ascii_of_string (generateSessionToken r1)).
Proof.
  intros H1 H2. unfold generateSessionToken. split; [split|split].
  - intros Heq. rewrite <- (bytes_of_hex_of_bytes r1 H1),
      <- (bytes_of_hex_of_bytes r2 H2). by rewrite Heq.
  - by intros ->.
  - apply hex_of_bytes_length.
  - apply hex_of_bytes_chars.
Qed.

(** ** What the authentication handler writes *)

Lemma signup_community_tables pf s m p fn u :
  same_community_tables s (MobileAuth.signup pf s m p fn u).2.
Proof.
  unfold MobileAuth.signup.
  destruct (negb _ || negb _); [done|].
  destruct (negb _); [done|].
  destruct (user_credentials s !! _); [done|].
  destruct (data _); [done|].
  destruct (insert_credential _ _ _) as [s1|] eqn:H1; [|done].
  apply insert_credential_Some in H1 as (_ & _ & ->).
  destruct (insert_profile _ _ _) as [s2|] eqn:H2.
  - apply insert_profile_Some in H2 as (_ & _ & ->).
    destruct (insert_session _ _ _ _ _) as [s3|] eqn:H3; [|done].
    by apply insert_session_Some in H3 as (_ & ->).
  - done.
Qed.

Lemma signin_community_tables pf s m p :
  same_community_tables s (MobileAuth.signin pf s m p).2.
Proof.
  unfold MobileAuth.signin.
  destruct (user_credentials s !! _) as [c|]; [|done].
  destruct (negb _); [done|].
  destruct (insert_session _ _ _ _ _) as [s2|] eqn:H2; [|done].
  by apply insert_session_Some in H2 as (_ & ->).
Qed.

(** X3. The authentication handler never changes the community tables.  It
    changes the store at all only for a request that is not a preflight,
    on a configured server, with a non-empty mobile number and password and
    the action [signup] or [signin]; with both fields present, any other
    action is answered 400 "Invalid action". *)
Theorem X3_auth_handler_writes pf s req :
  same_community_tables s (MobileAuth.serve pf s req).2
  ∧ ((MobileAuth.serve pf s req).2 = s
     ∨ (MobileAuth.method req ≠ "OPTIONS" ∧ configured pf
        ∧ truthy (MobileAuth.mobile_number req) = true
        ∧ truthy (MobileAuth.password req) = true
        ∧ (MobileAuth.action req = Some "signup"
           ∨ MobileAuth.action req = Some "signin")))
  ∧ (MobileAuth.method req ≠ "OPTIONS" → configured pf →
     truthy (MobileAuth.mobile_number req) = true →
     truthy (MobileAuth.password req) = true →
     MobileAuth.action req ≠ Some "signup" →
     MobileAuth.action req ≠ Some "signin" →
     MobileAuth.serve pf s req = (json_error 400 "Invalid action", s)).
Proof.
  unfold MobileAuth.serve, configured. split; [|split].
  - case_bool_decide; [done|].
    destruct (negb _ || negb _); [done|].
    destruct (negb _ || negb _); [done|].
    case_bool_decide; [apply signup_community_tables|].
    case_bool_decide; [apply signin_community_tables | done].
  - case_bool_decide as Hm; [by left|].
    destruct (truthy (SUPABASE_URL pf)); [|by left].
    destruct (truthy (SUPABASE_SERVICE_ROLE_KEY pf)); [|by left].
    destruct (truthy (MobileAuth.mobile_number req)); [|by left].
    destruct (truthy (MobileAuth.password req)); [|by left].
    cbn [negb orb].
    case_bool_decide as Hup; [right; by auto 10|].
    case_bool_decide as Hin; [right; by auto 10 | by left].
  - intros Hm [-> ->] -> -> Hup Hin.
    rewrite bool_decide_eq_false_2 by done. cbn [negb orb].
    by rewrite !bool_decide_eq_false_2.
Qed.

(** ** Sessions that the store refuses *)

Lemma signup_session_refused pf s m p fn u x :
  fn ≠ "" → allowed_username u →
  user_credentials s !! m = None → ¬ username_taken s u →
  unused_id s (gen_random_uuid pf) →
  user_sessions s !! generateSessionToken (getRandomValues pf) = Some x →
  MobileAuth.signup pf s m p (Some fn) (Some u)
  = (json_error 500 "Failed to create session",
     signed_up_without_session pf s m p fn u).
Proof.
  intros Hfn Hu Hm Hfree [Hid Hpid] Htok. unfold MobileAuth.signup.
  pose proof (allowed_username_nonempty u Hu) as Hune.
  apply truthy_Some in Hfn, Hune. rewrite Hfn, Hune. cbn [negb orb].
  change (default "" (Some u)) with u. change (default "" (Some fn)) with fn.
  apply usernameRegex_test_spec in Hu. rewrite Hu. cbn [negb].
  rewrite Hm, (precheck_free s u Hfree). cbn [maybeSingle data].
  unfold insert_credential. rewrite Hm.
  rewrite bool_decide_eq_true_2 by done.
  unfold insert_profile. cbn [with_credentials profiles]. rewrite Hpid.
  rewrite bool_decide_eq_true_2
    by (cbn [Profile.username]; rewrite toLowerCase_idemp;
        by apply username_free_forall).
  unfold insert_session. cbn [with_profiles with_credentials user_sessions].
  rewrite Htok. reflexivity.
Qed.

(** X4. When the store refuses the session row of a signup (its token is
    already there), the handler answers 500 "Failed to create session" and
    takes nothing back: the credential and the profile stay and no session
    is added.  A further signup with that mobile number is then answered
    400 "This mobile number is already registered", while a signin with the
    same password succeeds once its own session row is accepted. *)
Theorem X4_signup_session_refused pf s req m p fn u x :
  configured pf → signup_request req m p fn u → allowed_username u →
  user_credentials s !! m = None → ¬ username_taken s u →
  unused_id s (gen_random_uuid pf) →
  user_sessions s !! generateSessionToken (getRandomValues pf) = Some x →
  MobileAuth.serve pf s req
  = (json_error 500 "Failed to create session",
     signed_up_without_session pf s m p fn u)
  ∧ user_sessions (signed_up_without_session pf s m p fn u) = user_sessions s
  ∧ user_credentials (signed_up_without_session pf s m p fn u) !! m
    = Some (Credential.mk (gen_random_uuid pf) (hashPassword p))
  ∧ profiles (signed_up_without_session pf s m p fn u) !! gen_random_uuid pf
    = Some (Profile.mk fn m (toLowerCase u) None)
  ∧ (∀ pf' req' p' fn' u',
       configured pf' → signup_request req' m p' fn' u' → allowed_username u' →
       MobileAuth.serve pf' (signed_up_without_session pf s m p fn u) req'
       = (json_error 400 "This mobile number is already registered",
          signed_up_without_session pf s m p fn u))
  ∧ (∀ pf' req',
       configured pf' → signin_request req' m p →
       user_sessions s !! generateSessionToken (getRandomValues pf') = None →
       status (MobileAuth.serve pf' (signed_up_without_session pf s m p fn u)
                 req').1 = 200%Z).
Proof.
  intros Hc Hreq Hu Hm Hfree Hid Htok.
  pose proof Hreq as (_ & _ & _ & _ & _ & _ & _ & Hfn & _ & _).
  rewrite (serve_signup_request pf s req m p fn u Hc Hreq).
  rewrite (signup_session_refused pf s m p fn u x Hfn Hu Hm Hfree Hid Htok).
  assert (user_credentials (signed_up_without_session pf s m p fn u) !! m
          = Some (Credential.mk (gen_random_uuid pf) (hashPassword p))) as Hcred.
  { unfold signed_up_without_session. cbn [user_credentials].
    apply lookup_insert_eq. }
  split; [done|]. split; [done|]. split; [exact Hcred|]. split.
  { unfold signed_up_without_session. cbn [profiles]. apply lookup_insert_eq. }
  split.
  - intros pf' req' p' fn' u' Hc' Hreq' Hu'.
    pose proof Hreq' as (_ & _ & _ & _ & _ & _ & _ & Hfn' & _ & _).
    rewrite (serve_signup_request pf' _ req' m p' fn' u' Hc' Hreq').
    apply signup_mobile_conflict; [done | done |]. rewrite Hcred. eauto.
  - intros pf' req' Hc' Hreq' Hfresh.
    rewrite (serve_signin_request pf' _ req' m p Hc' Hreq').
    rewrite (signin_right_password pf' _ m p _ Hcred eq_refl).
    unfold signed_up_without_session at 1. cbn [user_sessions].
    by rewrite Hfresh.
Qed.

Lemma invalidate_other_user s id token y :
  user_sessions s !! token = Some y → Session.user_id y ≠ id →
  user_sessions (invalidate_sessions s id) !! token = Some y.
Proof.
  intros Hy Hne. rewrite invalidate_lookup, Hy. cbn.
  by rewrite bool_decide_eq_false_2.
Qed.

Lemma invalidate_same_user s id token y :
  user_sessions s !! token = Some y → Session.user_id y = id →
  user_sessions (invalidate_sessions s id) !! token = Some (deactivate y).
Proof.
  intros Hy Heq. rewrite invalidate_lookup, Hy. cbn.
  by rewrite bool_decide_eq_true_2.
Qed.

Lemma invalidate_all_inactive s id token y :
  user_sessions (invalidate_sessions s id) !! token = Some y →
  Session.user_id y = id → Session.is_active y = false.
Proof.
  rewrite invalidate_lookup.
  destruct (user_sessions s !! token) as [z|]; [|done].
  cbn. intros [= <-]. case_bool_decide; cbn; [done | congruence].
Qed.

(** X5. When the store refuses the session row of a signin (its token is
    already there), the handler answers 500 "Failed to create session"
    after it has invalidated the sessions of the user, and does not restore
    them: every session of the user is inactive, the sessions of the other
    users, the credentials and the profiles are as they were. *)
Theorem X5_signin_session_refused pf s req m p c x :
  configured pf → signin_request req m p →
  user_credentials s !! m = Some c →
  hashPassword p = Credential.password_hash c →
  user_sessions s !! generateSessionToken (getRandomValues pf) = Some x →
  MobileAuth.serve pf s req
  = (json_error 500 "Failed to create session",
     invalidate_sessions s (Credential.id c))
  ∧ (∀ token y,
       user_sessions (invalidate_sessions s (Credential.id c)) !! token = Some y →
       Session.user_id y = Credential.id c → Session.is_active y = false)
  ∧ (∀ token y,
       user_sessions s !! token = Some y →
       Session.user_id y ≠ Credential.id c →
       user_sessions (invalidate_sessions s (Credential.id c)) !! token = Some y)
  ∧ user_credentials (invalidate_sessions s (Credential.id c))
    = user_credentials s
  ∧ profiles (invalidate_sessions s (Credential.id c)) = profiles s.
Proof.
  intros Hc Hreq Hm Hp Htok.
  rewrite (serve_signin_request pf s req m p Hc Hreq).
  rewrite (signin_right_password pf s m p c Hm Hp), Htok.
  split; [done|]. split; [apply invalidate_all_inactive|].
  split; [apply invalidate_other_user | done].
Qed.

(** ** What a signin changes *)

(** X6. A signin that succeeds leaves the credentials as they were, sets
    [is_online] on the profile of the user and touches no other profile,
    deactivates each session of the user, leaves the sessions of the other
    users as they were, deletes no session, and adds one active session for
    the user that expires 30 days later. *)
Theorem X6_signin_effects pf s req m p c :
  configured pf → signin_request req m p →
  user_credentials s !! m = Some c →
  hashPassword p = Credential.password_hash c →
  user_sessions s !! generateSessionToken (getRandomValues pf) = None →
  (MobileAuth.serve pf s req).2 = signed_in pf s (Credential.id c)
  ∧ status (MobileAuth.serve pf s req).1 = 200%Z
  ∧ user_credentials (signed_in pf s (Credential.id c)) = user_credentials s
  ∧ (∀ i, i ≠ Credential.id c →
       profiles (signed_in pf s (Credential.id c)) !! i = profiles s !! i)
  ∧ (∀ q, profiles s !! Credential.id c = Some q →
       profiles (signed_in pf s (Credential.id c)) !! Credential.id c
       = Some (Profile.mk (Profile.full_name q) (Profile.mobile_number q)
                          (Profile.username q) (Some true)))
  ∧ (∀ token y,
       user_sessions s !! token = Some y →
       user_sessions (signed_in pf s (Credential.id c)) !! token
       = Some (if bool_decide (Session.user_id y = Credential.id c)
               then deactivate y else y))
  ∧ user_sessions (signed_in pf s (Credential.id c))
      !! generateSessionToken (getRandomValues pf)
    = Some (Session.mk (Credential.id c) (now pf + thirty_days) true (now pf)).
Proof.
  intros Hc Hreq Hm Hp Htok.
  rewrite (serve_signin_request pf s req m p Hc Hreq).
  rewrite (signin_right_password pf s m p c Hm Hp), Htok.
  split; [done|]. split; [done|]. split; [done|]. split.
  { intros i Hi. unfold signed_in, set_online.
    cbn [profiles with_profiles with_sessions invalidate_sessions].
    by apply lookup_alter_ne. }
  split.
  { intros q Hq. unfold signed_in, set_online.
    cbn [profiles with_profiles with_sessions invalidate_sessions].
    by rewrite lookup_alter_eq, Hq. }
  split.
  { intros token y Hy. rewrite signed_in_sessions.
    rewrite lookup_insert_ne by congruence.
    by rewrite lookup_fmap, Hy. }
  rewrite signed_in_sessions. apply lookup_insert_eq.
Qed.

(** X7. A signin for a credential without profile still succeeds: the
    payload carries no profile and the mobile number of the request, and
    the profiles are left as they were. *)
Theorem X7_signin_without_profile pf s req m p c :
  configured pf → signin_request req m p →
  user_credentials s !! m = Some c →
  hashPassword p = Credential.password_hash c →
  profiles s !! Credential.id c = None →
  user_sessions s !! generateSessionToken (getRandomValues pf) = None →
  (MobileAuth.serve pf s req).1
  = mkResponse 200
      (SignedIn (Credential.id c) m None
                (generateSessionToken (getRandomValues pf)))
  ∧ profiles (MobileAuth.serve pf s req).2 = profiles s.
Proof.
  intros Hc Hreq Hm Hp Hprof Htok.
  rewrite (serve_signin_request pf s req m p Hc Hreq).
  rewrite (signin_right_password pf s m p c Hm Hp), Htok, Hprof.
  split; [done|]. cbn [snd]. unfold signed_in, set_online.
  cbn [profiles with_profiles with_sessions invalidate_sessions].
  apply map_eq. intros i. destruct (decide (i = Credential.id c)) as [->|Hi].
  - by rewrite lookup_alter_eq, Hprof.
  - by rewrite lookup_alter_ne.
Qed.

(** ** The stores that calls can leave *)

(** The five outcomes of a request, as stores. *)
Lemma serve_outcome pf s req :
  (MobileAuth.serve pf s req).2 = s
  ∨ (∃ m p fn u,
       user_credentials s !! m = None
       ∧ unused_id s (gen_random_uuid pf)
       ∧ ¬ username_taken s u ∧ allowed_username u
       ∧ ((user_sessions s !! generateSessionToken (getRandomValues pf) = None
           ∧ (MobileAuth.serve pf s req).2 = signed_up pf s m p fn u)
          ∨ (MobileAuth.serve pf s req).2
            = signed_up_without_session pf s m p fn u))
  ∨ (∃ m c,
       user_credentials s !! m = Some c
       ∧ ((user_sessions s !! generateSessionToken (getRandomValues pf) = None
           ∧ (MobileAuth.serve pf s req).2 = signed_in pf s (Credential.id c))
          ∨ (MobileAuth.serve pf s req).2
            = invalidate_sessions s (Credential.id c))).
Proof.
  unfold MobileAuth.serve.
  case_bool_decide; [by left|].
  destruct (negb _ || negb _); [by left|].
  destruct (negb _ || negb _); [by left|].
  case_bool_decide; [|case_bool_decide; [|by left]].
  - unfold MobileAuth.signup.
    destruct (negb _ || negb _); [by left|].
    destruct (usernameRegex_test _) eqn:Hu; [|by left]. cbn [negb].
    apply usernameRegex_test_spec in Hu.
    destruct (user_credentials s !! _) eqn:Hm; [by left|].
    destruct (data _); [by left|].
    destruct (insert_credential _ _ _) as [s1|] eqn:H1; [|by left].
    pose proof H1 as (_ & Hids & ->)%insert_credential_Some.
    destruct (insert_profile _ _ _) as [s2|] eqn:H2.
    + apply insert_profile_Some in H2 as (Hpid & Hnames & ->).
      cbn [Profile.username with_credentials profiles] in Hpid, Hnames.
      right. left. eexists _, _, _, _.
      split; [exact Hm|]. split; [by split|]. split.
      { apply username_free_forall. intros i q Hq Heq.
        apply (Hnames i q Hq). by rewrite toLowerCase_idemp. }
      split; [exact Hu|].
      destruct (insert_session _ _ _ _ _) as [s3|] eqn:H3.
      * apply insert_session_Some in H3 as (Htok & ->). left. by split.
      * by right.
    + left. cbn [snd]. pose proof (delete_after_insert _ _ _ _ H1) as Hback.
      cbn [Credential.id] in Hback. by rewrite Hback.
  - unfold MobileAuth.signin.
    destruct (user_credentials s !! _) as [c|] eqn:Hm; [|by left].
    destruct (negb _); [by left|].
    right. right. eexists _, c. split; [exact Hm|].
    destruct (insert_session _ _ _ _ _) as [s2|] eqn:H2.
    + apply insert_session_Some in H2 as (Htok & ->).
      apply invalidate_lookup_None in Htok. left. by split.
    + by right.
Qed.

Lemma refresh_outcome s t token :
  (refresh_session s t token).2 = s
  ∨ ∃ x, user_sessions s !! token = Some x ∧ Session.is_active x = true
         ∧ (refresh_session s t token).2
           = with_sessions s
               (<[token := Session.mk (Session.user_id x) (t + thirty_days)
                                      true t]> (user_sessions s)).
Proof.
  unfold refresh_session.
  destruct (user_sessions s !! token) as [x|] eqn:Hx; [|by left].
  destruct (Session.is_active x) eqn:Ha; [|by left].
  destruct (t <? Session.expires_at x)%Z; [|by left].
  right. exists x. by rewrite Ha.
Qed.

(** ** The invariants, outcome by outcome *)

Lemma consistent_no_rows : consistent no_rows.
Proof.
  unfold consistent, unique_rows, credentials_have_profiles,
    profiles_have_credentials, sessions_have_credentials, one_active_session,
    usernames_normal, digests_stored, no_rows.
  cbn [user_credentials profiles user_sessions].
  repeat split; intros *; rewrite ?lookup_empty; done.
Qed.

(** The invariants that only look at credentials and profiles, when a
    credential and its profile go in together. *)
Lemma consistent_pair_inserted s m id h fn u x :
  consistent s →
  user_credentials s !! m = None → unused_id s id →
  ¬ username_taken s u → allowed_username u →
  consistent
    (mkStore (<[m := Credential.mk id (hashPassword h)]> (user_credentials s))
             (<[id := Profile.mk fn m (toLowerCase u) None]> (profiles s))
             x (communities s) (community_members s)
             (community_discussions s))
  ↔ (∀ token y, x !! token = Some y →
        ∃ m' c, <[m := Credential.mk id (hashPassword h)]> (user_credentials s)
                  !! m' = Some c
                ∧ Credential.id c = Session.user_id y)
    ∧ one_active_session (with_sessions s x).
Proof.
  intros ([Huc Hup] & Hcp & Hpc & Hsc & Hone & Hnorm & Hdig) Hm [Hids Hpid]
    Hfree Hu.
  unfold consistent, unique_rows, credentials_have_profiles,
    profiles_have_credentials, sessions_have_credentials, one_active_session,
    usernames_normal, digests_stored.
  cbn [user_credentials profiles user_sessions with_sessions].
  split; [intros (_ & _ & _ & H4 & H5 & _); by split|].
  intros [H4 H5].
  split; [split|]; [| |split; [|split; [|split; [exact H4|split; [exact H5|split]]]]].
  - intros m1 m2 c1 c2 H1 H2 Heq.
    apply lookup_insert_Some in H1 as [[<- <-]|[Hn1 H1]];
      apply lookup_insert_Some in H2 as [[<- <-]|[Hn2 H2]].
    + done.
    + exfalso. by apply (Hids m2 c2 H2).
    + exfalso. by apply (Hids m1 c1 H1).
    + by apply (Huc m1 m2 c1 c2).
  - intros i j p q H1 H2 Heq.
    apply lookup_insert_Some in H1 as [[<- <-]|[Hn1 H1]];
      apply lookup_insert_Some in H2 as [[<- <-]|[Hn2 H2]].
    + done.
    + exfalso. apply Hfree. exists j, q. split; [done|].
      cbn [Profile.username] in Heq. by rewrite <- Heq, toLowerCase_idemp.
    + exfalso. apply Hfree. exists i, p. split; [done|].
      cbn [Profile.username] in Heq. by rewrite Heq, toLowerCase_idemp.
    + by apply (Hup i j p q).
  - intros m' c Hc.
    apply lookup_insert_Some in Hc as [[<- <-]|[Hn Hc]].
    + cbn [Credential.id]. rewrite lookup_insert_eq. by eexists.
    + destruct (Hcp m' c Hc) as (q & Hq & Hqm). exists q. split; [|done].
      rewrite lookup_insert_ne; [done|]. intros Heq. by apply (Hids m' c Hc).
  - intros i q Hq.
    apply lookup_insert_Some in Hq as [[<- <-]|[Hn Hq]].
    + cbn [Profile.mobile_number]. rewrite lookup_insert_eq. by eexists.
    + destruct (Hpc i q Hq) as (c & Hc & Hci). exists c. split; [|done].
      rewrite lookup_insert_ne; [done|]. congruence.
  - intros i q Hq.
    apply lookup_insert_Some in Hq as [[<- <-]|[Hn Hq]]; [|by apply (Hnorm i q)].
    cbn [Profile.username]. split; [|apply toLowerCase_idemp].
    apply usernameRegex_test_spec. rewrite usernameRegex_lower.
    by apply usernameRegex_test_spec.
  - intros m' c Hc.
    apply lookup_insert_Some in Hc as [[<- <-]|[Hn Hc]]; [by eexists|].
    by apply (Hdig m' c).
Qed.

Lemma consistent_signed_up_without_session pf s m p fn u :
  consistent s →
  user_credentials s !! m = None → unused_id s (gen_random_uuid pf) →
  ¬ username_taken s u → allowed_username u →
  consistent (signed_up_without_session pf s m p fn u).
Proof.
  intros Hs Hm Hid Hfree Hu. unfold signed_up_without_session.
  apply (consistent_pair_inserted s m _ p fn u _ Hs Hm Hid Hfree Hu).
  destruct Hs as (_ & _ & _ & Hsc & Hone & _). split.
  - intros token y Hy. destruct (Hsc token y Hy) as (m' & c & Hc & Hci).
    exists m', c. split; [|done]. rewrite lookup_insert_ne; [done|]. congruence.
  - by destruct s.
Qed.

Lemma consistent_signed_up pf s m p fn u :
  consistent s →
  user_credentials s !! m = None → unused_id s (gen_random_uuid pf) →
  ¬ username_taken s u → allowed_username u →
  user_sessions s !! generateSessionToken (getRandomValues pf) = None →
  consistent (signed_up pf s m p fn u).
Proof.
  intros Hs Hm Hid Hfree Hu Htok. unfold signed_up.
  apply (consistent_pair_inserted s m _ p fn u _ Hs Hm Hid Hfree Hu).
  destruct Hs as (_ & _ & _ & Hsc & Hone & _). destruct Hid as [Hids _].
  assert (∀ token y, user_sessions s !! token = Some y →
                     Session.user_id y ≠ gen_random_uuid pf) as Hnew.
  { intros token y Hy Heq. destruct (Hsc token y Hy) as (m' & c & Hc & Hci).
    apply (Hids m' c Hc). congruence. }
  split.
  - intros token y Hy.
    apply lookup_insert_Some in Hy as [[<- <-]|[Hn Hy]].
    + exists m, (Credential.mk (gen_random_uuid pf) (hashPassword p)).
      by rewrite lookup_insert_eq.
    + destruct (Hsc token y Hy) as (m' & c & Hc & Hci).
      exists m', c. split; [|done]. rewrite lookup_insert_ne; [done|]. congruence.
  - unfold one_active_session. cbn [with_sessions user_sessions].
    intros t1 t2 x1 x2 H1 H2 Heq Ha1 Ha2.
    apply lookup_insert_Some in H1 as [[<- <-]|[Hn1 H1]];
      apply lookup_insert_Some in H2 as [[<- <-]|[Hn2 H2]].
    + done.
    + exfalso. apply (Hnew t2 x2 H2). by rewrite <- Heq.
    + exfalso. by apply (Hnew t1 x1 H1).
    + by apply (Hone t1 t2 x1 x2).
Qed.

(** The invariants when only the sessions change and [is_online] is set. *)
Lemma consistent_sessions_changed s x id :
  consistent s →
  (∀ token y, x !! token = Some y →
     ∃ m c, user_credentials s !! m = Some c
            ∧ Credential.id c = Session.user_id y) →
  one_active_session (with_sessions s x) →
  consistent (with_sessions s x) ∧ consistent (set_online (with_sessions s x) id).
Proof.
  intros ([Huc Hup] & Hcp & Hpc & Hsc & Hone & Hnorm & Hdig) H4 H5.
  split.
  { exact (conj (conj Huc Hup)
             (conj Hcp (conj Hpc (conj H4 (conj H5 (conj Hnorm Hdig)))))). }
  assert (∀ i q', profiles (set_online (with_sessions s x) id) !! i = Some q' →
            ∃ q, profiles s !! i = Some q
                 ∧ Profile.username q' = Profile.username q
                 ∧ Profile.mobile_number q' = Profile.mobile_number q) as Hback.
  { intros i q'. unfold set_online. cbn [profiles with_profiles with_sessions].
    intros [(<- & q & Hq & ->)|[_ Hq]]%lookup_alter_Some; by eexists. }
  assert (∀ i q, profiles s !! i = Some q →
            ∃ q', profiles (set_online (with_sessions s x) id) !! i = Some q'
                  ∧ Profile.mobile_number q' = Profile.mobile_number q) as Hforth.
  { intros i q Hq. unfold set_online. cbn [profiles with_profiles with_sessions].
    destruct (decide (i = id)) as [->|Hi].
    - rewrite lookup_alter_eq, Hq. by eexists.
    - rewrite lookup_alter_ne by done. by eexists. }
  unfold consistent, unique_rows, credentials_have_profiles,
    profiles_have_credentials, sessions_have_credentials, usernames_normal,
    digests_stored.
  split; [split|]; [exact Huc| |split; [|split; [|split; [exact H4|split; [exact H5|split; [|exact Hdig]]]]]].
  - intros i j p q Hp Hq Heq.
    destruct (Hback i p Hp) as (p0 & Hp0 & Hpu & _).
    destruct (Hback j q Hq) as (q0 & Hq0 & Hqu & _).
    apply (Hup i j p0 q0 Hp0 Hq0). congruence.
  - intros m c Hc. destruct (Hcp m c Hc) as (q & Hq & Hqm).
    destruct (Hforth _ q Hq) as (q' & Hq' & Hm'). exists q'. split; [done|].
    congruence.
  - intros i q' Hq'. destruct (Hback i q' Hq') as (q & Hq & _ & Hm).
    destruct (Hpc i q Hq) as (c & Hc & Hci). exists c. split; [|done].
    cbn [user_credentials set_online with_profiles with_sessions].
    congruence.
  - intros i q' Hq'. destruct (Hback i q' Hq') as (q & Hq & Hu & _).
    rewrite Hu. by apply (Hnorm i q).
Qed.

Lemma consistent_invalidated s id :
  consistent s → consistent (invalidate_sessions s id).
Proof.
  intros Hs. unfold invalidate_sessions.
  apply (consistent_sessions_changed s _ id Hs);
    destruct Hs as (_ & _ & _ & Hsc & Hone & _).
  - intros token y. rewrite lookup_fmap.
    destruct (user_sessions s !! token) as [z|] eqn:Hz; [|done].
    cbn. intros [= <-]. destruct (Hsc token z Hz) as (m & c & Hc & Hci).
    exists m, c. split; [done|]. by case_bool_decide.
  - unfold one_active_session. cbn [with_sessions user_sessions].
    intros t1 t2 x1 x2. rewrite !lookup_fmap.
    destruct (user_sessions s !! t1) as [z1|] eqn:Hz1; [|done].
    destruct (user_sessions s !! t2) as [z2|] eqn:Hz2; [|done].
    cbn. intros [= <-] [= <-].
    do 2 case_bool_decide; cbn; try done. by apply (Hone t1 t2 z1 z2).
Qed.

Lemma consistent_signed_in pf s m c :
  consistent s → user_credentials s !! m = Some c →
  user_sessions s !! generateSessionToken (getRandomValues pf) = None →
  consistent (signed_in pf s (Credential.id c)).
Proof.
  intros Hs Hm Htok. unfold signed_in.
  pose proof (consistent_invalidated s (Credential.id c) Hs) as Hinv.
  assert (∀ token y,
            user_sessions (invalidate_sessions s (Credential.id c)) !! token
            = Some y →
            Session.user_id y = Credential.id c → Session.is_active y = false)
    as Hoff by apply invalidate_all_inactive.
  apply (consistent_sessions_changed _ _ (Credential.id c) Hinv);
    destruct Hinv as (_ & _ & _ & Hsc & Hone & _).
  - intros token y Hy.
    apply lookup_insert_Some in Hy as [[<- <-]|[Hn Hy]]; [by exists m, c|].
    by apply (Hsc token y).
  - unfold one_active_session. cbn [with_sessions user_sessions].
    intros t1 t2 x1 x2 H1 H2 Heq Ha1 Ha2.
    apply lookup_insert_Some in H1 as [[<- <-]|[Hn1 H1]];
      apply lookup_insert_Some in H2 as [[<- <-]|[Hn2 H2]].
    + done.
    + exfalso. cbn [Session.user_id] in Heq.
      rewrite (Hoff t2 x2 H2) in Ha2; [done | by symmetry].
    + exfalso. cbn [Session.user_id] in Heq.
      by rewrite (Hoff t1 x1 H1) in Ha1.
    + by apply (Hone t1 t2 x1 x2).
Qed.

Lemma consistent_call s c : consistent s → consistent (call s c).
Proof.
  intros Hs. destruct c as [pf req|t token]; cbn [call].
  - destruct (serve_outcome pf s req)
      as [->|[(m & p & fn & u & Hm & Hid & Hfree & Hu & [[Htok ->]| ->])
             |(m & c & Hm & [[Htok ->]| ->])]].
    + done.
    + by apply consistent_signed_up.
    + by apply consistent_signed_up_without_session.
    + by apply (consistent_signed_in pf s m c).
    + by apply consistent_invalidated.
  - destruct (refresh_outcome s t token) as [->|(x & Hx & Ha & ->)]; [done|].
    apply (consistent_sessions_changed s _ "" Hs);
      destruct Hs as (_ & _ & _ & Hsc & Hone & _).
    + intros tok y Hy.
      apply lookup_insert_Some in Hy as [[<- <-]|[Hn Hy]];
        [by apply (Hsc token x) | by apply (Hsc tok y)].
    + unfold one_active_session. cbn [with_sessions user_sessions].
      intros t1 t2 x1 x2 H1 H2 Heq Ha1 Ha2.
      apply lookup_insert_Some in H1 as [[<- <-]|[Hn1 H1]];
        apply lookup_insert_Some in H2 as [[<- <-]|[Hn2 H2]].
      * done.
      * by apply (Hone token t2 x x2).
      * by apply (Hone t1 token x1 x).
      * by apply (Hone t1 t2 x1 x2).
Qed.

Lemma consistent_after calls : consistent (after calls).
Proof.
  unfold after. generalize consistent_no_rows. generalize no_rows.
  induction calls as [|c calls IH]; intros s Hs; [done|].
  cbn [fold_left]. by apply IH, consistent_call.
Qed.

(** X8. After any sequence of requests to the authentication handler and
    of session refreshes, starting without rows, every credential has a
    profile under its identifier and with its mobile number, and every
    profile has its credential: the two exist together or not at all. *)
Theorem X8_credentials_and_profiles_paired calls :
  credentials_have_profiles (after calls)
  ∧ profiles_have_credentials (after calls).
Proof. by destruct (consistent_after calls) as (_ & ? & ? & _). Qed.

(** X9. After any such sequence, every session belongs to a user with a
    credential and no user has two active sessions. *)
Theorem X9_one_active_session calls :
  sessions_have_credentials (after calls) ∧ one_active_session (after calls).
Proof. by destruct (consistent_after calls) as (_ & _ & _ & ? & ? & _). Qed.

(** X10. After any such sequence, credential identifiers and usernames are
    unique (usernames whatever their letter case), every stored username is
    an allowed username in lower case, and every stored password hash is
    the digest of a password, 64 hexadecimal digits. *)
Theorem X10_stored_rows_wellformed calls :
  unique_rows (after calls) ∧ usernames_normal (after calls)
  ∧ digests_stored (after calls)
  ∧ ∀ m c, user_credentials (after calls) !! m = Some c →
           String.length (Credential.password_hash c) = 64.
Proof.
  destruct (consistent_after calls) as (Hu & _ & _ & _ & _ & Hn & Hd).
  split; [exact Hu|]. split; [exact Hn|]. split; [exact Hd|].
  intros m c Hc. destruct (Hd m c Hc) as (p & ->).
  unfold hashPassword. by rewrite hex_of_bytes_length, sha256_length.
Qed.

(** ** Keeping a session alive, and letting it lapse *)

Lemma refresh_live s t token :
  live_session s t token →
  ∃ x, user_sessions s !! token = Some x
       ∧ refresh_session s t token
         = (true,
            with_sessions s
              (<[token := Session.mk (Session.user_id x) (t + thirty_days)
                                     true t]> (user_sessions s))).
Proof.
  intros (x & Hx & Ha & Hlt). exists x. split; [done|].
  unfold refresh_session. rewrite Hx, Ha.
  by rewrite (proj2 (Z.ltb_lt _ _) Hlt).
Qed.

Lemma refresh_not_live s t token :
  ¬ live_session s t token → refresh_session s t token = (false, s).
Proof.
  intros Hno. unfold refresh_session.
  destruct (user_sessions s !! token) as [x|] eqn:Hx; [|done].
  destruct (Session.is_active x) eqn:Ha; [|done].
  destruct (Z.ltb_spec t (Session.expires_at x)) as [Hlt|Hge]; [|done].
  exfalso. apply Hno. by exists x.
Qed.

Lemma last_cons_default (a d : Z) l : List.last (a :: l) d = List.last l a.
Proof.
  revert a d. induction l as [|b l IH]; intros a d; [done|].
  change (List.last (a :: b :: l) d) with (List.last (b :: l) d).
  by rewrite !IH.
Qed.

(** X11. A session that is live at the first refresh and is refreshed again
    each time less than 30 days after the refresh before stays alive: every
    refresh returns true, and after the last one the session is active and
    expires 30 days after it. *)
Theorem X11_refreshed_session_stays_alive s token t0 times :
  live_session s t0 token → gaps_below thirty_days t0 times →
  Forall (λ ok, ok = true) (refreshes s token (t0 :: times)).1
  ∧ ∃ x, user_sessions (refreshes s token (t0 :: times)).2 !! token = Some x
         ∧ Session.is_active x = true
         ∧ Session.expires_at x = (List.last times t0 + thirty_days)%Z.
Proof.
  revert s t0. induction times as [|t1 times IH]; intros s t0 Hlive Hgaps.
  - destruct (refresh_live s t0 token Hlive) as (x & Hx & Hr).
    cbn [refreshes]. rewrite Hr. cbn [fst snd List.last].
    split; [by repeat constructor|].
    eexists. cbn [with_sessions user_sessions]. by rewrite lookup_insert_eq.
  - destruct Hgaps as [Hlt Hgaps].
    destruct (refresh_live s t0 token Hlive) as (x & Hx & Hr).
    change (refreshes s token (t0 :: t1 :: times))
      with (let '(ok, s1) := refresh_session s t0 token in
            let '(oks, s2) := refreshes s1 token (t1 :: times) in
            (ok :: oks, s2)).
    rewrite Hr.
    set (s1 := with_sessions s _).
    assert (live_session s1 t1 token) as Hlive1.
    { eexists. subst s1. cbn [with_sessions user_sessions].
      rewrite lookup_insert_eq. by repeat split. }
    destruct (IH s1 t1 Hlive1 Hgaps) as (Hall & y & Hy & Hya & Hye).
    destruct (refreshes s1 token (t1 :: times)) as [oks s2].
    cbn [fst snd] in *. split; [by constructor|].
    exists y. split; [done|]. split; [done|].
    by rewrite Hye, last_cons_default.
Qed.

(** X12. A token that [refresh_session] turns down at one time (no such
    session, an inactive one or an expired one) is turned down at every
    later time: each later refresh returns false and the store stays as it
    was. *)
Theorem X12_lapsed_session_stays_lapsed s token t times :
  ¬ live_session s t token → Forall (λ t', (t ≤ t')%Z) times →
  refreshes s token times = (repeat false (length times), s).
Proof.
  intros Hno Hlater. induction Hlater as [|t' times Ht' _ IH]; [done|].
  cbn [refreshes length repeat].
  rewrite (refresh_not_live s t' token), IH; [done|].
  intros (x & Hx & Ha & Hlt). apply Hno. exists x. repeat split; [done..|lia].
Qed.

(** X13. After a signin, [refresh_session] turns down every earlier session
    of the user, at any time, and extends the new one at any time before
    its expiry. *)
Theorem X13_signin_ends_refreshes pf s req m p c :
  configured pf → signin_request req m p →
  user_credentials s !! m = Some c →
  hashPassword p = Credential.password_hash c →
  user_sessions s !! generateSessionToken (getRandomValues pf) = None →
  (∀ token y t,
     user_sessions s !! token = Some y →
     Session.user_id y = Credential.id c →
     refresh_session (MobileAuth.serve pf s req).2 t token
     = (false, (MobileAuth.serve pf s req).2))
  ∧ (∀ t, (t < now pf + thirty_days)%Z →
       (refresh_session (MobileAuth.serve pf s req).2 t
          (generateSessionToken (getRandomValues pf))).1 = true).
Proof.
  intros Hc Hreq Hm Hp Htok.
  rewrite (serve_signin_request pf s req m p Hc Hreq).
  rewrite (signin_right_password pf s m p c Hm Hp), Htok. cbn [snd]. split.
  - intros token y t Hy Hu. apply refresh_not_live.
    intros (z & Hz & Ha & _).
    rewrite signed_in_sessions in Hz.
    rewrite lookup_insert_ne in Hz by congruence.
    rewrite lookup_fmap, Hy in Hz. cbn in Hz.
    rewrite bool_decide_eq_true_2 in Hz by done.
    injection Hz as <-. done.
  - intros t Hlt.
    destruct (refresh_live (signed_in pf s (Credential.id c)) t
                (generateSessionToken (getRandomValues pf)))
      as (x & _ & ->); [|done].
    eexists. rewrite signed_in_sessions, lookup_insert_eq. by repeat split.
Qed.

(** ** The session refresh hook against the store *)

(** X14. The hook trusts its last success for five minutes.  When a
    refresh has just succeeded and a signin elsewhere then replaces the
    session, [refreshSession] still answers true, without asking the
    store, at every time less than five minutes after that success; from
    five minutes on it asks, answers false and keeps [lastRefreshRef],
    so that each later call asks again. *)
Theorem X14_refresh_hook_after_signin_elsewhere
    stored token last t0 pf s req m p c x :
  SessionRefresh.getSessionToken stored = Some token →
  (SessionRefresh.MIN_ACTIVITY_INTERVAL ≤ t0 - last)%Z →
  user_sessions s !! token = Some x → Session.is_active x = true →
  (t0 < Session.expires_at x)%Z → Session.user_id x = Credential.id c →
  configured pf → signin_request req m p →
  user_credentials s !! m = Some c →
  hashPassword p = Credential.password_hash c →
  user_sessions s !! generateSessionToken (getRandomValues pf) = None →
  ∃ s1,
    SessionRefresh.refreshSession stored last t0 t0 s = (true, t0, s1)
    ∧ (∀ t db,
         (t - t0 < SessionRefresh.MIN_ACTIVITY_INTERVAL)%Z →
         SessionRefresh.refreshSession stored t0 t db
           (MobileAuth.serve pf s1 req).2
         = (true, t0, (MobileAuth.serve pf s1 req).2))
    ∧ (∀ t db,
         (SessionRefresh.MIN_ACTIVITY_INTERVAL ≤ t - t0)%Z →
         SessionRefresh.refreshSession stored t0 t db
           (MobileAuth.serve pf s1 req).2
         = (false, t0, (MobileAuth.serve pf s1 req).2)).
Proof.
  intros Htoken Hgap Hx Ha Hlt Hu Hc Hreq Hm Hp Htok.
  destruct (refresh_live s t0 token) as (x' & Hx' & Hr); [by exists x|].
  rewrite Hx in Hx'. injection Hx' as <-.
  eexists. split.
  { unfold SessionRefresh.refreshSession. rewrite Htoken.
    rewrite (proj2 (Z.ltb_ge _ _)) by lia. by rewrite Hr. }
  set (s1 := with_sessions s _).
  assert (user_sessions s1 !! token
          = Some (Session.mk (Session.user_id x) (t0 + thirty_days) true t0))
    as Hx1.
  { subst s1. cbn [with_sessions user_sessions]. apply lookup_insert_eq. }
  assert (token ≠ generateSessionToken (getRandomValues pf)) as Hne
    by congruence.
  assert (user_sessions s1 !! generateSessionToken (getRandomValues pf) = None)
    as Htok1.
  { subst s1. cbn [with_sessions user_sessions].
    by rewrite lookup_insert_ne. }
  assert (user_credentials s1 !! m = Some c) as Hm1 by done.
  rewrite (serve_signin_request pf s1 req m p Hc Hreq).
  rewrite (signin_right_password pf s1 m p c Hm1 Hp), Htok1. cbn [snd]. split.
  - intros t db Hsoon. unfold SessionRefresh.refreshSession. rewrite Htoken.
    by rewrite (proj2 (Z.ltb_lt _ _)) by lia.
  - intros t db Hlate. unfold SessionRefresh.refreshSession. rewrite Htoken.
    rewrite (proj2 (Z.ltb_ge _ _)) by lia.
    rewrite refresh_not_live; [done|].
    intros (z & Hz & Haz & _).
    rewrite signed_in_sessions in Hz.
    rewrite lookup_insert_ne in Hz by done.
    rewrite lookup_fmap, Hx1 in Hz. cbn in Hz.
    rewrite bool_decide_eq_true_2 in Hz by done.
    injection Hz as <-. done.
Qed.

(** ** The admin session hook against the handler *)

Lemma admin_validate_answer pf s token :
  ∃ r, MobileAuth.serve pf s (AdminSession.admin_validate token) = (r, s)
       ∧ (status r = 400%Z ∨ status r = 500%Z).
Proof.
  unfold MobileAuth.serve, AdminSession.admin_validate.
  cbn [MobileAuth.method MobileAuth.mobile_number MobileAuth.password truthy].
  rewrite bool_decide_eq_false_2 by done.
  destruct (negb _ || negb _); eexists; (split; [reflexivity|]); cbn; auto.
Qed.

(** X15. [loadAdminSession] cannot restore an admin session.  With a user
    and a session token in [localStorage], whatever the token, the store
    and the configuration of the server, the hook sends [admin_validate],
    the handler answers with an error, and the hook removes the stored
    session and ends without user and without roles; the store is not
    changed. *)
Theorem X15_admin_session_never_restored pf s st u token storedRoles :
  AdminSession.stored st = AdminSession.Item (Some u) (Some token) storedRoles →
  token ≠ "" →
  AdminSession.loadAdminSession pf s st
  = (AdminSession.mkState None [] false AdminSession.NoItem, s).
Proof.
  intros Hst Hne. unfold AdminSession.loadAdminSession. rewrite Hst.
  apply truthy_Some in Hne. rewrite Hne.
  change (default "" (Some token)) with token.
  destruct (admin_validate_answer pf s token) as (r & -> & Hr).
  unfold AdminSession.invoke.
  destruct Hr as [-> | ->]; reflexivity.
Qed.

(** ** Who reaches an admin page *)

(** X16. [AdminRoute] shows its page exactly when nothing is loading, the
    user has a role, and the page asks for no role, for a role the user
    has, or the user is super admin.  A visitor who is not signed in, or
    whose role query failed, never sees it.  A super admin has the two
    other capabilities, and each capability implies [isAdmin]. *)
Theorem X16_admin_route authLoading loading user query requiredRole :
  let roles := AdminAuth.checkAdminRoles user query in
  let st := AdminAuth.useAdminAuth authLoading loading roles in
  (AdminAuth.AdminRoute st requiredRole = AdminAuth.Children
   ↔ authLoading = false ∧ loading = false ∧ roles ≠ []
     ∧ (requiredRole = None
        ∨ ∃ r, requiredRole = Some r
               ∧ (r ∈ roles ∨ AdminSession.super_admin ∈ roles)))
  ∧ (user = None ∨ error query = true → roles = [])
  ∧ (AdminAuth.isSuperAdmin st = true →
     AdminAuth.isContentModerator st = true
     ∧ AdminAuth.isCategoryManager st = true)
  ∧ (AdminAuth.isSuperAdmin st = true ∨ AdminAuth.isContentModerator st = true
     ∨ AdminAuth.isCategoryManager st = true → AdminAuth.isAdmin st = true).
Proof.
  cbv zeta. set (roles := AdminAuth.checkAdminRoles user query).
  split; [|split; [|split]].
  - unfold AdminAuth.AdminRoute, AdminAuth.useAdminAuth.
    cbn [AdminAuth.loading AdminAuth.isAdmin AdminAuth.roles
         AdminAuth.isSuperAdmin].
    destruct authLoading, loading; cbn [orb]; try (split; [done|by intros (? & ? & _)]).
    destruct roles as [|r0 roles'] eqn:Hr; cbn [length Nat.ltb Nat.leb negb].
    { split; [done|]. by intros (_ & _ & ? & _). }
    destruct requiredRole as [r|].
    + unfold AdminAuth.includes.
      do 2 case_bool_decide; cbn [negb andb]; split; try done;
        try (intros _; repeat split; try done; right; exists r; by auto).
      intros (_ & _ & _ & [?|(r' & [= <-] & [?|?])]); done.
    + split; [|done]. intros _. repeat split; try done. by left.
  - subst roles. unfold AdminAuth.checkAdminRoles.
    intros [-> | Herr]; [done|]. destruct user; [|done]. by rewrite Herr.
  - unfold AdminAuth.useAdminAuth.
    cbn [AdminAuth.isSuperAdmin AdminAuth.isContentModerator
         AdminAuth.isCategoryManager].
    intros ->. by rewrite !orb_true_r.
  - unfold AdminAuth.useAdminAuth, AdminAuth.includes.
    cbn [AdminAuth.isSuperAdmin AdminAuth.isContentModerator
         AdminAuth.isCategoryManager AdminAuth.isAdmin].
    destruct roles as [|r0 roles']; [|done].
    rewrite !bool_decide_eq_false_2 by apply not_elem_of_nil.
    cbn. intros [?|[?|?]]; done.
Qed.

(** ** Verified emails *)

Lemma starts_with_spec p s :
  starts_with p s = true ↔ ∃ post, s = (p ++ post)%string.
Proof.
  revert s. induction p as [|a p IH]; intros s.
  - split; [intros _; by exists s | done].
  - destruct s as [|b s]; cbn [starts_with].
    + split; [done|]. by intros (post & [=]).
    + rewrite andb_true_iff, bool_decide_eq_true, IH. split.
      * intros [-> (post & ->)]. by exists post.
      * intros (post & Heq).
        change (String b s = String a (p ++ post)%string) in Heq.
        injection Heq as -> ->. eauto.
Qed.

Lemma includes_spec s needle :
  includes s needle = true ↔ ∃ pre post, s = (pre ++ needle ++ post)%string.
Proof.
  induction s as [|b s IH].
  - cbn [includes]. rewrite orb_false_r, starts_with_spec. split.
    + intros (post & ->). by exists "", post.
    + intros (pre & post & Heq). destruct pre as [|a pre]; [by exists post|].
      discriminate Heq.
  - cbn [includes]. rewrite orb_true_iff, starts_with_spec, IH. split.
    + intros [(post & ->)|(pre & post & ->)].
      * by exists "", post.
      * by exists (String b pre), post.
    + intros (pre & post & Heq). destruct pre as [|a pre].
      * left. by exists post.
      * right.
        change (String b s = String a (pre ++ needle ++ post)%string) in Heq.
        injection Heq as -> ->. eauto.
Qed.

(** X17. [isUserVerified] holds exactly for an email that is present, not
    empty and in which "@phone.local" occurs nowhere; in particular no
    address of the form [number@phone.local] is verified. *)
Theorem X17_isUserVerified email :
  (isUserVerified email = true
   ↔ ∃ e, email = Some e ∧ e ≠ ""
          ∧ ¬ ∃ pre post, e = (pre ++ "@phone.local" ++ post)%string)
  ∧ ∀ number, isUserVerified (Some (number ++ "@phone.local")%string) = false.
Proof.
  split.
  - unfold isUserVerified. destruct email as [e|]; cbn [truthy default negb].
    + case_bool_decide as He; cbn [negb].
      * rewrite negb_true_iff, <- not_true_iff_false, includes_spec.
        split; [intros Hno; by exists e|].
        by intros (e' & [= <-] & _ & Hno).
      * split; [done|]. by intros (e' & [= <-] & Hne & _).
    + split; [done|]. by intros (e' & [=] & _).
  - intros number. unfold isUserVerified.
    destruct (truthy _); cbn [negb]; [|done].
    rewrite negb_false_iff. apply includes_spec.
    exists number, "". cbn [default from_option id].
    change ("@phone.local" ++ "")%string with "@phone.local". done.
Qed.

(** ** The ranking of trending posts *)

Lemma place_permutation x l : Trending.place x l ≡ₚ x :: l.
Proof.
  induction l as [|y l IH]; [done|]. cbn [Trending.place].
  destruct (_ <? _); [|done]. rewrite IH. apply Permutation_swap.
Qed.

Lemma sort_permutation l : Trending.sort l ≡ₚ l.
Proof.
  induction l as [|x l IH]; [done|].
  cbn [Trending.sort foldr]. fold (Trending.sort l).
  by rewrite place_permutation, IH.
Qed.

Lemma place_sorted x l :
  StronglySorted by_engagement l → StronglySorted by_engagement (Trending.place x l).
Proof.
  induction 1 as [|y l Hsorted IH Hy]; [repeat constructor|].
  cbn [Trending.place].
  destruct (Nat.ltb_spec (Trending.engagement x) (Trending.engagement y)) as [Hlt|Hge].
  - constructor; [exact IH|].
    rewrite Forall_forall. intros z Hz.
    rewrite place_permutation in Hz.
    apply elem_of_cons in Hz as [->|Hz]; [unfold by_engagement; lia|].
    rewrite Forall_forall in Hy. by apply Hy.
  - constructor; [by constructor|].
    constructor; [exact Hge|].
    eapply Forall_impl; [exact Hy|]. unfold by_engagement. intros z Hz. lia.
Qed.

Lemma sort_sorted l : StronglySorted by_engagement (Trending.sort l).
Proof.
  induction l as [|x l IH]; [constructor|].
  cbn [Trending.sort foldr]. fold (Trending.sort l). by apply place_sorted.
Qed.

Lemma place_ties x l :
  Forall (λ y, Trending.engagement y = Trending.engagement x) l →
  Trending.place x l = x :: l.
Proof.
  destruct 1 as [|y l Hy _]; [done|]. cbn [Trending.place].
  by rewrite Hy, Nat.ltb_irrefl.
Qed.

Lemma sort_ties l :
  (∀ p q, p ∈ l → q ∈ l → Trending.engagement p = Trending.engagement q) →
  Trending.sort l = l.
Proof.
  induction l as [|x l IH]; intros Hties; [done|].
  cbn [Trending.sort foldr]. fold (Trending.sort l).
  rewrite IH.
  - apply place_ties. rewrite Forall_forall. intros y Hy.
    apply Hties; [by right | by left].
  - intros p q Hp Hq. apply Hties; by right.
Qed.

(** X18. The trending list holds the five posts with the most engagement
    (likes counted twice, comments three times), fewer when there are fewer
    posts: it is in decreasing order of engagement, its posts are some of
    the posts given, and no post left out has more engagement than a post
    shown.  When all posts have the same engagement, the list is the first
    five in the order given. *)
Theorem X18_trending_posts postsData :
  length (Trending.trending postsData) = min 5 (length (default [] postsData))
  ∧ StronglySorted by_engagement (Trending.trending postsData)
  ∧ (∃ rest,
       default [] postsData ≡ₚ Trending.trending postsData ++ rest
       ∧ ∀ a b, a ∈ Trending.trending postsData → b ∈ rest →
                Trending.engagement b ≤ Trending.engagement a)
  ∧ ((∀ p q, p ∈ default [] postsData → q ∈ default [] postsData →
             Trending.engagement p = Trending.engagement q) →
     Trending.trending postsData = firstn 5 (default [] postsData)).
Proof.
  unfold Trending.trending. set (posts := default [] postsData).
  pose proof (sort_sorted posts) as Hsorted.
  rewrite <- (firstn_skipn 5 (Trending.sort posts)) in Hsorted.
  split; [|split; [|split]].
  - rewrite length_take, (Permutation_length (sort_permutation posts)). lia.
  - by apply StronglySorted_app_1_l in Hsorted.
  - exists (skipn 5 (Trending.sort posts)). split.
    + by rewrite firstn_skipn, sort_permutation.
    + intros a b Ha Hb.
      by apply (StronglySorted_app_1_elem_of _ _ _ a b Hsorted).
  - intros Hties. by rewrite sort_ties.
Qed.

(** ** The follow handler *)

Section FollowHandler.

Variable follows_accepts : list Follow.t → Follow.t → bool.
Variable notifications_accepts : list Notification.t → Notification.t → bool.

Local Abbreviation serve :=
  (ToggleFollow.serve follows_accepts notifications_accepts).

Lemma follow_dispatch pf s t req u f :
  configured pf → follow_request req u f →
  serve pf s t req
  = if negb (bool_decide (ToggleFollow.action req = Some "unfollow")) then
      let existing := maybeSingle (ToggleFollow.follows_of t u f) in
      if error existing then
        (ToggleFollow.mkResponse 500
           (ToggleFollow.ErrorDetails "Failed to check follow status"), t)
      else
      match data existing with
      | Some _ =>
          (ToggleFollow.mkResponse 200
             (ToggleFollow.Done "Already following" true), t)
      | None =>
          if negb (follows_accepts (ToggleFollow.follows t) (Follow.mk u f)) then
            (ToggleFollow.mkResponse 500
               (ToggleFollow.ErrorDetails "Failed to follow user"), t)
          else
          let note :=
            Notification.mk f "follow" "New follower"
              (ToggleFollow.followerName (profiles s !! u)
               ++ " started following you!") u in
          let notes :=
            if notifications_accepts (ToggleFollow.notifications t) note
            then (ToggleFollow.notifications t ++ [note])%list
            else ToggleFollow.notifications t in
          (ToggleFollow.mkResponse 200
             (ToggleFollow.Done "Followed successfully" true),
           ToggleFollow.mkTables
             (ToggleFollow.follows t ++ [Follow.mk u f])%list notes)
      end
    else
      (ToggleFollow.mkResponse 200
         (ToggleFollow.Done "Unfollowed successfully" false),
       ToggleFollow.delete_follow t u f).
Proof.
  intros Hc (Hm & Hu & Hune & Hf & Hfne & Hneq). unfold ToggleFollow.serve.
  rewrite bool_decide_eq_false_2 by done.
  rewrite configured_gate by done.
  apply truthy_Some in Hune, Hfne. rewrite Hu, Hf, Hune, Hfne. cbn [negb].
  change (default "" (Some u)) with u. change (default "" (Some f)) with f.
  by rewrite (bool_decide_eq_false_2 (u = f)).
Qed.

(** X19. Whatever the action, the follow handler answers 400 and writes
    nothing when [user_id] or [following_id] is missing or empty, and when
    the two are the same: nobody follows or unfollows themselves. *)
Theorem X19_follow_guards pf s t req :
  ToggleFollow.method req ≠ "OPTIONS" → configured pf →
  (truthy (ToggleFollow.user_id req) = false →
   serve pf s t req
   = (ToggleFollow.mkResponse 400 (ToggleFollow.Error "user_id is required"), t))
  ∧ (truthy (ToggleFollow.user_id req) = true →
     truthy (ToggleFollow.following_id req) = false →
     serve pf s t req
     = (ToggleFollow.mkResponse 400
          (ToggleFollow.Error "following_id is required"), t))
  ∧ (truthy (ToggleFollow.user_id req) = true →
     ToggleFollow.user_id req = ToggleFollow.following_id req →
     serve pf s t req
     = (ToggleFollow.mkResponse 400
          (ToggleFollow.Error "Cannot follow yourself"), t)).
Proof.
  intros Hm Hc. unfold ToggleFollow.serve.
  rewrite bool_decide_eq_false_2 by done.
  rewrite configured_gate by done.
  split; [|split].
  - by intros ->.
  - by intros -> ->.
  - intros Hu Heq. rewrite <- Heq, Hu. cbn [negb].
    by rewrite bool_decide_eq_true_2.
Qed.

(** X20. Following is idempotent.  When [u] does not follow [f] and the
    store accepts the row, a follow request (any action but "unfollow")
    adds one row for the pair and is answered "Followed successfully"; the
    same request again is answered "Already following" and writes nothing:
    no second row and no second notification. *)
Theorem X20_follow_twice pf s t req u f :
  configured pf → follow_request req u f →
  ToggleFollow.action req ≠ Some "unfollow" →
  ToggleFollow.follows_of t u f = [] →
  follows_accepts (ToggleFollow.follows t) (Follow.mk u f) = true →
  (serve pf s t req).1
  = ToggleFollow.mkResponse 200 (ToggleFollow.Done "Followed successfully" true)
  ∧ ToggleFollow.follows (serve pf s t req).2
    = (ToggleFollow.follows t ++ [Follow.mk u f])%list
  ∧ ∀ pf' s',
      configured pf' →
      serve pf' s' (serve pf s t req).2 req
      = (ToggleFollow.mkResponse 200 (ToggleFollow.Done "Already following" true),
         (serve pf s t req).2).
Proof.
  intros Hc Hreq Ha Hnone Hacc.
  rewrite (follow_dispatch pf s t req u f Hc Hreq).
  rewrite (bool_decide_eq_false_2 _ Ha). cbn [negb].
  rewrite Hnone. cbn [maybeSingle error data]. rewrite Hacc. cbn [negb fst snd].
  split; [done|]. split; [done|]. intros pf' s' Hc'.
  rewrite (follow_dispatch pf' s' _ req u f Hc' Hreq).
  rewrite (bool_decide_eq_false_2 _ Ha). cbn [negb].
  unfold ToggleFollow.follows_of in *. cbn [ToggleFollow.follows].
  rewrite filter_app, Hnone. cbn.
  rewrite decide_True by done. reflexivity.
Qed.

(** X21. Unfollowing undoes following and is idempotent.  An unfollow
    request is always answered "Unfollowed successfully"; it removes the
    rows of the pair and no other row, and leaves the notifications as they
    are.  After a follow that added a row, it gives back the rows that were
    there before; when [u] does not follow [f] it changes nothing. *)
Theorem X21_unfollow pf s t req u f :
  configured pf → follow_request req u f →
  ToggleFollow.action req = Some "unfollow" →
  (serve pf s t req).1
  = ToggleFollow.mkResponse 200
      (ToggleFollow.Done "Unfollowed successfully" false)
  ∧ ToggleFollow.follows_of (serve pf s t req).2 u f = []
  ∧ (∀ row, ¬ (Follow.follower_id row = u ∧ Follow.following_id row = f) →
            (row ∈ ToggleFollow.follows (serve pf s t req).2
             ↔ row ∈ ToggleFollow.follows t))
  ∧ ToggleFollow.notifications (serve pf s t req).2 = ToggleFollow.notifications t
  ∧ (ToggleFollow.follows_of t u f = [] → (serve pf s t req).2 = t)
  ∧ (∀ notes,
       ToggleFollow.follows_of t u f = [] →
       ToggleFollow.follows
         (serve pf s
            (ToggleFollow.mkTables
               (ToggleFollow.follows t ++ [Follow.mk u f])%list notes) req).2
       = ToggleFollow.follows t).
Proof.
  intros Hc Hreq Ha.
  assert (∀ l : list Follow.t,
            filter (λ r, Follow.follower_id r = u ∧ Follow.following_id r = f) l
            = [] →
            filter (λ r, ¬ (Follow.follower_id r = u ∧ Follow.following_id r = f)) l
            = l) as Hkeep.
  { induction l as [|r l IH]; [done|]. rewrite !filter_cons.
    case_decide as Hr.
    - by rewrite decide_False by tauto.
    - rewrite decide_True by done. intros Hl. by rewrite IH. }
  rewrite (follow_dispatch pf s t req u f Hc Hreq).
  rewrite (bool_decide_eq_true_2 _ Ha). cbn [negb fst snd].
  split; [done|]. split.
  { unfold ToggleFollow.follows_of, ToggleFollow.delete_follow.
    cbn [ToggleFollow.follows].
    induction (ToggleFollow.follows t) as [|r l IH]; [done|].
    rewrite (filter_cons (λ r, ¬ _)). case_decide as Hr; [|done].
    rewrite filter_cons. by rewrite decide_False. }
  split.
  { intros row Hrow. unfold ToggleFollow.delete_follow.
    cbn [ToggleFollow.follows]. rewrite list_elem_of_filter. tauto. }
  split; [done|]. split.
  { intros Hnone. unfold ToggleFollow.delete_follow.
    unfold ToggleFollow.follows_of in Hnone. rewrite (Hkeep _ Hnone).
    by destruct t. }
  intros notes Hnone.
  rewrite (follow_dispatch pf s _ req u f Hc Hreq).
  rewrite (bool_decide_eq_true_2 _ Ha). cbn [negb snd].
  unfold ToggleFollow.delete_follow. cbn [ToggleFollow.follows].
  rewrite filter_app. unfold ToggleFollow.follows_of in Hnone.
  rewrite (Hkeep _ Hnone). cbn.
  rewrite decide_False by tauto. apply app_nil_r.
Qed.

End FollowHandler.

(** ** The other actions of the community handler *)

Section CommunityActions.

Variable communities_accepts : Store → Community.t → bool.
Variable members_accepts : Store → Member.t → bool.
Variable members_on_delete : string → list Member.t → option (list Member.t).
Variable uuid_in : string → option string.

Local Abbreviation serve :=
  (ManageCommunity.serve communities_accepts members_accepts members_on_delete
                         uuid_in).

Lemma serve_caller pf s req uid :
  community_caller pf s req uid →
  serve pf s req
  = if bool_decide (ManageCommunity.action req = Some "create")
    then ManageCommunity.create communities_accepts members_accepts pf s uid req
    else if bool_decide (ManageCommunity.action req = Some "update")
    then ManageCommunity.update communities_accepts uuid_in pf s uid req
    else if bool_decide (ManageCommunity.action req = Some "delete")
    then ManageCommunity.delete_ members_on_delete uuid_in s uid req
    else if bool_decide (ManageCommunity.action req = Some "join")
    then ManageCommunity.join members_accepts s uid req
    else if bool_decide (ManageCommunity.action req = Some "leave")
    then ManageCommunity.leave s uid req
    else if bool_decide (ManageCommunity.action req = Some "delete_discussion")
    then ManageCommunity.delete_discussion uuid_in s uid req
    else (json_error 400 "Invalid action", s).
Proof.
  intros (Hm & Hc & token & Htok & Hne & Hv & Hune).
  unfold ManageCommunity.serve.
  rewrite bool_decide_eq_false_2 by done.
  rewrite configured_gate by done.
  apply truthy_Some in Hne, Hune.
  rewrite Htok, Hne. cbn [negb]. change (default "" (Some token)) with token.
  by rewrite Hv, Hune.
Qed.

Lemma serve_create pf s req uid :
  community_caller pf s req uid →
  ManageCommunity.action req = Some "create" →
  serve pf s req
  = ManageCommunity.create communities_accepts members_accepts pf s uid req.
Proof. intros Hc Ha. rewrite (serve_caller pf s req uid Hc), Ha. reflexivity. Qed.

Lemma serve_update pf s req uid :
  community_caller pf s req uid →
  ManageCommunity.action req = Some "update" →
  serve pf s req
  = ManageCommunity.update communities_accepts uuid_in pf s uid req.
Proof. intros Hc Ha. rewrite (serve_caller pf s req uid Hc), Ha. reflexivity. Qed.

Lemma serve_delete pf s req uid :
  community_caller pf s req uid →
  ManageCommunity.action req = Some "delete" →
  serve pf s req = ManageCommunity.delete_ members_on_delete uuid_in s uid req.
Proof. intros Hc Ha. rewrite (serve_caller pf s req uid Hc), Ha. reflexivity. Qed.

Lemma serve_join pf s req uid :
  community_caller pf s req uid →
  ManageCommunity.action req = Some "join" →
  serve pf s req = ManageCommunity.join members_accepts s uid req.
Proof. intros Hc Ha. rewrite (serve_caller pf s req uid Hc), Ha. reflexivity. Qed.

Lemma serve_leave pf s req uid :
  community_caller pf s req uid →
  ManageCommunity.action req = Some "leave" →
  serve pf s req = ManageCommunity.leave s uid req.
Proof. intros Hc Ha. rewrite (serve_caller pf s req uid Hc), Ha. reflexivity. Qed.

(** X22. The community handler never changes the credentials, the
    profiles or the sessions, whatever the request. *)
Theorem X22_community_handler_frame pf s req :
  same_user_tables s (serve pf s req).2.
Proof.
  unfold ManageCommunity.serve.
  case_bool_decide; [done|].
  destruct (negb _ || negb _); [done|].
  destruct (negb _); [done|].
  destruct (negb _); [done|].
  repeat (case_bool_decide; [|]); try done.
  - unfold ManageCommunity.create.
    destruct (negb _); [done|].
    unfold ManageCommunity.insert_community, ManageCommunity.insert_member.
    destruct (communities s !! _); [done|].
    destruct (communities_accepts _ _); [|done].
    by destruct (members_accepts _ _).
  - unfold ManageCommunity.update, ManageCommunity.update_community.
    destruct (negb _); [done|].
    destruct (uuid_in _); [|done].
    destruct (communities s !! _); [|done].
    destruct (negb _); [done|].
    by destruct (communities_accepts _ _).
  - unfold ManageCommunity.delete_, ManageCommunity.delete_community.
    destruct (negb _); [done|].
    destruct (uuid_in _); [|done].
    destruct (communities s !! _); [|done].
    destruct (negb _); [done|].
    by destruct (members_on_delete _ _).
  - unfold ManageCommunity.join, ManageCommunity.insert_member.
    destruct (negb _); [done|].
    by destruct (members_accepts _ _).
  - unfold ManageCommunity.leave. by destruct (negb _).
  - unfold ManageCommunity.delete_discussion.
    destruct (negb _); [done|].
    destruct (uuid_in _); [|done].
    destruct (community_discussions s !! _); [|done].
    by destruct (negb _ && negb _).
Qed.

(** X23. [create] refuses a name that is absent or blank with 400
    "Community name is required" and writes nothing.  With a name, an
    unused identifier and a row that the store accepts, it stores the
    community under the trimmed name with the caller as its creator,
    answers 200 with that row, and adds the caller as "admin" member when
    the store accepts the member row; when it does not, the answer is 200
    all the same and the community stays without member. *)
Theorem X23_create pf s req uid :
  community_caller pf s req uid →
  ManageCommunity.action req = Some "create" →
  (truthy (opt_trim (ManageCommunity.name req)) = false →
   serve pf s req = (json_error 400 "Community name is required", s))
  ∧ (truthy (opt_trim (ManageCommunity.name req)) = true →
     communities s !! gen_random_uuid pf = None →
     communities_accepts s (created_row uid req) = true →
     (serve pf s req).1
     = mkResponse 200 (Created (gen_random_uuid pf) (created_row uid req))
     ∧ communities (serve pf s req).2
       = <[gen_random_uuid pf := created_row uid req]> (communities s)
     ∧ Community.created_by (created_row uid req) = uid
     ∧ community_discussions (serve pf s req).2 = community_discussions s
     ∧ community_members (serve pf s req).2
       = if members_accepts
              (with_communities s
                 (<[gen_random_uuid pf := created_row uid req]> (communities s)))
              (Member.mk (gen_random_uuid pf) uid "admin")
         then (community_members s
               ++ [Member.mk (gen_random_uuid pf) uid "admin"])%list
         else community_members s).
Proof.
  intros Hcaller Ha. rewrite (serve_create pf s req uid Hcaller Ha).
  unfold ManageCommunity.create. split.
  - by intros ->.
  - intros -> Hfree Hacc. cbn [negb].
    unfold ManageCommunity.insert_community. rewrite Hfree.
    fold (created_row uid req). rewrite Hacc.
    unfold ManageCommunity.insert_member.
    by destruct (members_accepts _ _).
Qed.

(** X24. Only its creator changes a community.  For [update] and
    [delete], a community identifier that is no uuid, a community that
    does not exist, or a caller who did not create the community, gets 403
    and nothing is written.  Whatever the caller, no request creates a
    community under the identifier it names, changes the creator of the
    community, or touches another community. *)
Theorem X24_only_the_creator pf s req uid cid :
  community_caller pf s req uid →
  ManageCommunity.action req = Some "update"
  ∨ ManageCommunity.action req = Some "delete" →
  ManageCommunity.community_id req = Some cid → cid ≠ "" →
  (uuid_in cid = None →
   status (serve pf s req).1 = 403%Z ∧ (serve pf s req).2 = s)
  ∧ (∀ id, uuid_in cid = Some id →
       ((∀ c, communities s !! id = Some c → Community.created_by c ≠ uid) →
        status (serve pf s req).1 = 403%Z ∧ (serve pf s req).2 = s)
       ∧ (∀ c', communities (serve pf s req).2 !! id = Some c' →
            ∃ c, communities s !! id = Some c
                 ∧ Community.created_by c' = Community.created_by c)
       ∧ (∀ other, other ≠ id →
            communities (serve pf s req).2 !! other = communities s !! other)).
Proof.
  intros Hcaller Ha Hcid Hne. apply truthy_Some in Hne.
  destruct Ha as [Ha|Ha];
    [rewrite (serve_update pf s req uid Hcaller Ha)
    |rewrite (serve_delete pf s req uid Hcaller Ha)].
  - unfold ManageCommunity.update, ManageCommunity.update_community.
    rewrite Hcid, Hne. cbn [negb]. change (default "" (Some cid)) with cid.
    split; [by intros ->|]. intros id ->.
    destruct (communities s !! id) as [c|] eqn:Hc;
      [|cbn [fst snd]; split; [done|]; split; [|done]; intros c' Hc'; congruence].
    case_bool_decide as Hown; cbn [negb].
    + destruct (communities_accepts _ _); cbn [snd fst].
      * split; [intros Hno; by destruct (Hno c eq_refl)|]. split.
        -- cbn [with_communities communities]. rewrite lookup_insert_eq.
           intros c' [= <-]. by exists c.
        -- intros other Hother. cbn [with_communities communities].
           by rewrite lookup_insert_ne.
      * split; [intros Hno; by destruct (Hno c eq_refl)|].
        split; [|done]. intros c' Hc'. exists c. split; [done|]. congruence.
    + split; [done|]. split; [|done].
      cbn [snd]. intros c' Hc'. exists c. split; [done|]. congruence.
  - unfold ManageCommunity.delete_, ManageCommunity.delete_community.
    rewrite Hcid, Hne. cbn [negb]. change (default "" (Some cid)) with cid.
    split; [by intros ->|]. intros id ->.
    destruct (communities s !! id) as [c|] eqn:Hc;
      [|cbn [fst snd]; split; [done|]; split; [|done]; intros c' Hc'; congruence].
    case_bool_decide as Hown; cbn [negb].
    + destruct (members_on_delete _ _); cbn [snd fst].
      * split; [intros Hno; by destruct (Hno c eq_refl)|]. split.
        -- cbn [communities]. by rewrite lookup_delete_eq.
        -- intros other Hother. cbn [communities]. by rewrite lookup_delete_ne.
      * split; [intros Hno; by destruct (Hno c eq_refl)|].
        split; [|done]. intros c' Hc'. exists c. split; [done|]. congruence.
    + split; [done|]. split; [|done].
      cbn [snd]. intros c' Hc'. exists c. split; [done|]. congruence.
Qed.

(** X25. An [update] by the creator writes the name trimmed when one is
    given and keeps the old name otherwise, and it overwrites the
    description and the cover image: a request without description or
    cover clears them.  Unlike [create], it takes a blank name. *)
Theorem X25_update_fields pf s req uid cid id c :
  community_caller pf s req uid →
  ManageCommunity.action req = Some "update" →
  ManageCommunity.community_id req = Some cid → cid ≠ "" →
  uuid_in cid = Some id →
  communities s !! id = Some c → Community.created_by c = uid →
  communities_accepts s (updated_row pf c req) = true →
  serve pf s req
  = (mkResponse 200 Success,
     with_communities s (<[id := updated_row pf c req]> (communities s)))
  ∧ (ManageCommunity.name req = None →
     Community.name (updated_row pf c req) = Community.name c)
  ∧ (∀ n, ManageCommunity.name req = Some n →
          Community.name (updated_row pf c req) = trim n)
  ∧ (ManageCommunity.description req = None →
     Community.description (updated_row pf c req) = None)
  ∧ (ManageCommunity.cover_image_url req = None →
     Community.cover_image_url (updated_row pf c req) = None)
  ∧ Community.created_by (updated_row pf c req) = uid.
Proof.
  intros Hcaller Ha Hcid Hne Hid Hc Hown Hacc.
  rewrite (serve_update pf s req uid Hcaller Ha).
  unfold ManageCommunity.update, ManageCommunity.update_community.
  apply truthy_Some in Hne. rewrite Hcid, Hne. cbn [negb].
  change (default "" (Some cid)) with cid. rewrite Hid, Hc.
  rewrite (bool_decide_eq_true_2 _ Hown). cbn [negb].
  fold (updated_row pf c req). rewrite Hacc.
  split; [done|]. unfold updated_row. cbn.
  split; [by intros ->|]. split; [by intros n ->|].
  split; [by intros ->|]. split; [by intros ->|done].
Qed.

(** X26. A [delete] by the creator that the store accepts removes the
    community, under whatever spelling of its identifier the request names
    it, and, with it, every discussion of the community; the discussions of
    the other communities stay as they are.  When the store refuses the
    deletion the answer is 400 and nothing is removed. *)
Theorem X26_delete_cascades pf s req uid cid id c :
  community_caller pf s req uid →
  ManageCommunity.action req = Some "delete" →
  ManageCommunity.community_id req = Some cid → cid ≠ "" →
  uuid_in cid = Some id →
  communities s !! id = Some c → Community.created_by c = uid →
  (members_on_delete id (community_members s) = None →
   serve pf s req = (mkResponse 400 StoreError, s))
  ∧ (∀ ms, members_on_delete id (community_members s) = Some ms →
       (serve pf s req).1 = mkResponse 200 Success
       ∧ communities (serve pf s req).2 = delete id (communities s)
       ∧ community_members (serve pf s req).2 = ms
       ∧ (∀ d x, community_discussions (serve pf s req).2 !! d = Some x
                 ↔ community_discussions s !! d = Some x
                   ∧ Discussion.community_id x ≠ id)).
Proof.
  intros Hcaller Ha Hcid Hne Hid Hc Hown.
  rewrite (serve_delete pf s req uid Hcaller Ha).
  unfold ManageCommunity.delete_, ManageCommunity.delete_community.
  apply truthy_Some in Hne. rewrite Hcid, Hne. cbn [negb].
  change (default "" (Some cid)) with cid. rewrite Hid, Hc.
  rewrite (bool_decide_eq_true_2 _ Hown). cbn [negb]. split.
  - by intros ->.
  - intros ms ->. cbn [fst snd communities community_members community_discussions].
    split; [done|]. split; [done|]. split; [done|].
    intros d x. by rewrite map_lookup_filter_Some.
Qed.

(** X27. [leave] always answers 200, member or not: it removes the member
    rows of the caller in the community and no other row.  [join] adds a
    "member" row for the caller when the store accepts it and answers 400
    when it does not; a [leave] after a [join] gives back the store that
    was there before, when the caller was not a member. *)
Theorem X27_join_and_leave pf s req uid cid :
  community_caller pf s req uid →
  ManageCommunity.community_id req = Some cid → cid ≠ "" →
  (ManageCommunity.action req = Some "leave" →
   serve pf s req
   = (mkResponse 200 Success,
      with_members s (filter (λ m, ¬ membership cid uid m) (community_members s)))
   ∧ (Forall (λ m, ¬ membership cid uid m) (community_members s) →
      (serve pf s req).2 = s))
  ∧ (ManageCommunity.action req = Some "join" →
     serve pf s req
     = if members_accepts s (Member.mk cid uid "member")
       then (mkResponse 200 Success,
             with_members s
               (community_members s ++ [Member.mk cid uid "member"])%list)
       else (mkResponse 400 StoreError, s))
  ∧ (∀ pf' req',
       ManageCommunity.action req = Some "join" →
       members_accepts s (Member.mk cid uid "member") = true →
       Forall (λ m, ¬ membership cid uid m) (community_members s) →
       community_caller pf' s req' uid →
       ManageCommunity.action req' = Some "leave" →
       ManageCommunity.community_id req' = Some cid →
       (serve pf' (serve pf s req).2 req').2 = s).
Proof.
  intros Hcaller Hcid Hne. apply truthy_Some in Hne.
  assert (Forall (λ m, ¬ membership cid uid m) (community_members s) →
          filter (λ m, ¬ membership cid uid m) (community_members s)
          = community_members s) as Hkeep.
  { induction 1 as [|m l Hm _ IH]; [done|].
    rewrite filter_cons, decide_True by done. by rewrite IH. }
  split; [|split].
  - intros Ha. rewrite (serve_leave pf s req uid Hcaller Ha).
    unfold ManageCommunity.leave, ManageCommunity.delete_member.
    rewrite Hcid, Hne. cbn [negb]. change (default "" (Some cid)) with cid.
    split; [done|]. intros Hnot. cbn [snd].
    unfold membership in *. rewrite (Hkeep Hnot). by destruct s.
  - intros Ha. rewrite (serve_join pf s req uid Hcaller Ha).
    unfold ManageCommunity.join, ManageCommunity.insert_member.
    rewrite Hcid, Hne. cbn [negb]. change (default "" (Some cid)) with cid.
    by destruct (members_accepts _ _).
  - intros pf' req' Ha Hacc Hnot Hcaller' Ha' Hcid'.
    rewrite (serve_join pf s req uid Hcaller Ha).
    unfold ManageCommunity.join, ManageCommunity.insert_member.
    rewrite Hcid, Hne. change (default "" (Some cid)) with cid.
    rewrite Hacc. cbn [negb snd].
    rewrite (serve_leave pf' _ req' uid); [|exact Hcaller'|exact Ha'].
    unfold ManageCommunity.leave, ManageCommunity.delete_member.
    rewrite Hcid', Hne. cbn [negb snd with_members community_members].
    change (default "" (Some cid)) with cid.
    unfold membership in *. rewrite filter_app, (Hkeep Hnot). cbn.
    rewrite decide_False by tauto. rewrite app_nil_r. by destruct s.
Qed.

End CommunityActions.

(** ** The further properties at sample inputs *)

Lemma live_session_at s t token x :
  user_sessions s !! token = Some x →
  live_session s t token
  ↔ Session.is_active x = true ∧ (t < Session.expires_at x)%Z.
Proof.
  intros Hx. unfold live_session. split.
  - intros (y & Hy & Ha & Hlt). rewrite Hx in Hy. injection Hy as <-. done.
  - intros [Ha Hlt]. by exists x.
Qed.

Ltac sample_caller :=
  split; [evaluated|]; split; [evaluated|];
  exists Sample.first_token; evaluated.

(** Two draws of 32 bytes. *)
Lemma X2_generateSessionToken_injective_witness :
  (generateSessionToken (getRandomValues Sample.first)
   = generateSessionToken (getRandomValues Sample.second)
   ↔ getRandomValues Sample.first = getRandomValues Sample.second)
  ∧ String.length (generateSessionToken (getRandomValues Sample.first)) = 64.
Proof.
  destruct (X2_generateSessionToken_injective (getRandomValues Sample.first)
              (getRandomValues Sample.second))
    as (Hiff & Hlen & _); [sample_bytes | sample_bytes |].
  split; [exact Hiff | exact Hlen].
Defined.

(** Ravi signs up while the random bytes repeat those of Asha's signup. *)
Lemma X4_signup_session_refused_witness :
  MobileAuth.serve More.repeated_bytes Sample.registered
    (Sample.signup "9000000002" "pa55word" "Ravi" "ravi")
  = (json_error 500 "Failed to create session",
     signed_up_without_session More.repeated_bytes Sample.registered
       "9000000002" "pa55word" "Ravi" "ravi").
Proof.
  apply (X4_signup_session_refused More.repeated_bytes Sample.registered
           (Sample.signup "9000000002" "pa55word" "Ravi" "ravi")
           "9000000002" "pa55word" "Ravi" "ravi" More.session);
    [evaluated | sample_request | sample_username | evaluated
     | apply username_free_forall; compute_done
     | split; [compute_done | evaluated] | evaluated].
Defined.

(** Asha signs in while the random bytes repeat those of her signup. *)
Lemma X5_signin_session_refused_witness :
  MobileAuth.serve More.repeated_bytes Sample.registered
    (Sample.signin "9876543210" "s3cret")
  = (json_error 500 "Failed to create session",
     invalidate_sessions Sample.registered Sample.asha).
Proof.
  apply (X5_signin_session_refused More.repeated_bytes Sample.registered
           (Sample.signin "9876543210" "s3cret") "9876543210" "s3cret"
           More.credential More.session);
    [evaluated | sample_request | evaluated | evaluated | evaluated].
Defined.

(** Asha signs in a minute after her signup. *)
Lemma X6_signin_effects_witness :
  (MobileAuth.serve Sample.second Sample.registered
     (Sample.signin "9876543210" "s3cret")).2
  = signed_in Sample.second Sample.registered Sample.asha
  ∧ user_credentials (signed_in Sample.second Sample.registered Sample.asha)
    = user_credentials Sample.registered.
Proof.
  destruct (X6_signin_effects Sample.second Sample.registered
              (Sample.signin "9876543210" "s3cret") "9876543210" "s3cret"
              More.credential)
    as (Hstore & _ & Hcred & _);
    [evaluated | sample_request | evaluated | evaluated | evaluated |].
  split; [exact Hstore | exact Hcred].
Defined.

(** Asha signs in after her profile has gone. *)
Lemma X7_signin_without_profile_witness :
  (MobileAuth.serve Sample.second More.without_profile
     (Sample.signin "9876543210" "s3cret")).1
  = mkResponse 200
      (SignedIn Sample.asha "9876543210" None Sample.second_token).
Proof.
  apply (X7_signin_without_profile Sample.second More.without_profile
           (Sample.signin "9876543210" "s3cret") "9876543210" "s3cret"
           More.credential);
    [evaluated | sample_request | evaluated | evaluated | evaluated | evaluated].
Defined.

(** Asha's session refreshed a minute after her signup and then twice, an
    hour apart. *)
Lemma X11_refreshed_session_stays_alive_witness :
  Forall (λ ok, ok = true)
    (refreshes Sample.registered Sample.first_token
       [now Sample.second; now Sample.second + More.hour;
        now Sample.second + 2 * More.hour]%Z).1.
Proof.
  apply (X11_refreshed_session_stays_alive Sample.registered Sample.first_token
           (now Sample.second)
           [now Sample.second + More.hour; now Sample.second + 2 * More.hour]%Z).
  - apply (live_session_at _ _ _ More.session); evaluated.
  - evaluated.
Defined.

(** Asha's session, left alone for 30 days. *)
Lemma X12_lapsed_session_stays_lapsed_witness :
  refreshes Sample.registered Sample.first_token
    [now Sample.first + thirty_days; now Sample.first + thirty_days + More.hour]%Z
  = ([false; false], Sample.registered).
Proof.
  apply (X12_lapsed_session_stays_lapsed Sample.registered Sample.first_token
           (now Sample.first + thirty_days)).
  - intros H. apply (live_session_at _ _ _ More.session) in H; [|evaluated].
    destruct H as [_ H]. vm_compute in H. discriminate.
  - repeat (constructor; [vm_compute; discriminate|]). constructor.
Defined.

(** Asha signs in again; the session of her signup is over. *)
Lemma X13_signin_ends_refreshes_witness :
  refresh_session
    (MobileAuth.serve Sample.second Sample.registered
       (Sample.signin "9876543210" "s3cret")).2
    (now Sample.third) Sample.first_token
  = (false,
     (MobileAuth.serve Sample.second Sample.registered
        (Sample.signin "9876543210" "s3cret")).2).
Proof.
  destruct (X13_signin_ends_refreshes Sample.second Sample.registered
              (Sample.signin "9876543210" "s3cret") "9876543210" "s3cret"
              More.credential)
    as [Hold _];
    [evaluated | sample_request | evaluated | evaluated | evaluated |].
  apply (Hold Sample.first_token More.session); evaluated.
Defined.

(** Asha's browser refreshes; a minute later she signs in on her phone. *)
Lemma X14_refresh_hook_after_signin_elsewhere_witness :
  ∃ s1,
    SessionRefresh.refreshSession (SessionRefresh.Item (Some Sample.first_token))
      0 (now Sample.second) (now Sample.second) Sample.registered
    = (true, now Sample.second, s1)
    ∧ SessionRefresh.refreshSession
        (SessionRefresh.Item (Some Sample.first_token))
        (now Sample.second) (now Sample.third + 60000) (now Sample.third + 60000)
        (MobileAuth.serve Sample.third s1 (Sample.signin "9876543210" "s3cret")).2
      = (true, now Sample.second,
         (MobileAuth.serve Sample.third s1
            (Sample.signin "9876543210" "s3cret")).2).
Proof.
  destruct (X14_refresh_hook_after_signin_elsewhere
              (SessionRefresh.Item (Some Sample.first_token)) Sample.first_token
              0 (now Sample.second) Sample.third Sample.registered
              (Sample.signin "9876543210" "s3cret") "9876543210" "s3cret"
              More.credential More.session)
    as (s1 & Hfirst & Hsoon & _);
    [evaluated | vm_compute; discriminate | evaluated | evaluated | evaluated
     | evaluated | evaluated | sample_request | evaluated | evaluated
     | evaluated |].
  exists s1. split; [exact Hfirst |]. apply Hsoon. evaluated.
Defined.

(** An admin reloads the page with a live session in the browser. *)
Lemma X15_admin_session_never_restored_witness :
  AdminSession.loadAdminSession Sample.second Sample.registered More.admin_state
  = (AdminSession.mkState None [] false AdminSession.NoItem, Sample.registered).
Proof.
  apply (X15_admin_session_never_restored Sample.second Sample.registered
           More.admin_state
           (AdminSession.mkUser Sample.asha "9876543210" (Some "Asha"))
           Sample.first_token [AdminSession.super_admin]);
    [reflexivity | evaluated].
Defined.

(** Asha tries to follow herself. *)
Lemma X19_follow_guards_witness :
  More.follow_serve Sample.second Sample.registered More.no_follows
    More.follow_self
  = (ToggleFollow.mkResponse 400 (ToggleFollow.Error "Cannot follow yourself"),
     More.no_follows).
Proof.
  destruct (X19_follow_guards (λ _ _, true) (λ _ _, true) Sample.second
              Sample.registered More.no_follows More.follow_self)
    as (_ & _ & Hself); [evaluated | evaluated |].
  apply Hself; evaluated.
Defined.

(** Asha follows Ravi twice. *)
Lemma X20_follow_twice_witness :
  (More.follow_serve Sample.second Sample.registered More.no_follows
     (More.follow None)).1
  = ToggleFollow.mkResponse 200 (ToggleFollow.Done "Followed successfully" true)
  ∧ (More.follow_serve Sample.third Sample.registered
       (More.follow_serve Sample.second Sample.registered More.no_follows
          (More.follow None)).2 (More.follow None)).1
    = ToggleFollow.mkResponse 200 (ToggleFollow.Done "Already following" true).
Proof.
  destruct (X20_follow_twice (λ _ _, true) (λ _ _, true) Sample.second
              Sample.registered More.no_follows (More.follow None)
              Sample.asha More.ravi)
    as (Hfirst & _ & Hagain);
    [evaluated | unfold follow_request; evaluated | evaluated | evaluated
     | evaluated |].
  split; [exact Hfirst |].
  unfold More.follow_serve.
  rewrite (Hagain Sample.third Sample.registered); [reflexivity | evaluated].
Defined.

(** Asha unfollows Ravi, whom she does not follow. *)
Lemma X21_unfollow_witness :
  More.follow_serve Sample.second Sample.registered More.no_follows
    (More.follow (Some "unfollow"))
  = (ToggleFollow.mkResponse 200
       (ToggleFollow.Done "Unfollowed successfully" false), More.no_follows).
Proof.
  destruct (X21_unfollow (λ _ _, true) (λ _ _, true) Sample.second
              Sample.registered More.no_follows (More.follow (Some "unfollow"))
              Sample.asha More.ravi)
    as (Hanswer & _ & _ & _ & Hsame & _);
    [evaluated | unfold follow_request; evaluated | evaluated |].
  unfold More.follow_serve.
  rewrite (surjective_pairing (ToggleFollow.serve _ _ _ _ _ _)).
  rewrite Hanswer, Hsame; [reflexivity | evaluated].
Defined.

(** Asha creates a community under a name of a no-break space and a
    space. *)
Lemma X23_create_witness :
  Sample.community_serve Sample.second Sample.forum
    (More.community "create" None (Some (More.no_break_space ++ " ")) None)
  = (json_error 400 "Community name is required", Sample.forum).
Proof.
  destruct (X23_create Sample.accept_community Sample.accept_member
              Sample.keep_members Sample.uuid_in Sample.second Sample.forum
              (More.community "create" None (Some (More.no_break_space ++ " "))
                 None) Sample.asha)
    as [Hblank _]; [sample_caller | evaluated |].
  apply Hblank. evaluated.
Defined.

(** Asha deletes a community that does not exist, and one named by a text
    that is no uuid. *)
Lemma X24_only_the_creator_witness :
  status (Sample.community_serve Sample.second Sample.forum
            (More.community "delete"
               (Some "c0000000-0000-4000-8000-000000000009") None None)).1
  = 403%Z
  ∧ status (Sample.community_serve Sample.second Sample.forum
              (More.community "delete" (Some "makers") None None)).1
    = 403%Z.
Proof.
  split.
  - destruct (X24_only_the_creator Sample.accept_community Sample.accept_member
                Sample.keep_members Sample.uuid_in Sample.second Sample.forum
                (More.community "delete"
                   (Some "c0000000-0000-4000-8000-000000000009") None None)
                Sample.asha "c0000000-0000-4000-8000-000000000009")
      as [_ Hread];
      [sample_caller | right; evaluated | evaluated | evaluated |].
    destruct (Hread "c0000000-0000-4000-8000-000000000009") as [Hrefused _];
      [evaluated|].
    apply Hrefused. intros c Hc. vm_compute in Hc. discriminate.
  - destruct (X24_only_the_creator Sample.accept_community Sample.accept_member
                Sample.keep_members Sample.uuid_in Sample.second Sample.forum
                (More.community "delete" (Some "makers") None None)
                Sample.asha "makers")
      as [Hrefused _];
      [sample_caller | right; evaluated | evaluated | evaluated |].
    apply Hrefused. evaluated.
Defined.

(** Asha renames her community, naming it in capitals, with no-break spaces
    around the new name and without description. *)
Lemma X25_update_fields_witness :
  communities
    (Sample.community_serve Sample.second More.described
       (More.community "update" (Some More.makers_in_capitals)
          (Some (More.no_break_space ++ "Builders" ++ More.no_break_space))
          None)).2
    !! More.makers
  = Some (Community.mk "Builders" None None Sample.asha
                       (Some (now Sample.second))).
Proof.
  destruct (X25_update_fields Sample.accept_community Sample.accept_member
              Sample.keep_members Sample.uuid_in Sample.second More.described
              (More.community "update" (Some More.makers_in_capitals)
                 (Some (More.no_break_space ++ "Builders"
                        ++ More.no_break_space))
                 None)
              Sample.asha More.makers_in_capitals More.makers
              (Community.mk "Makers" (Some "People who make things") None
                            Sample.asha None))
    as [Hserve _];
    [sample_caller | evaluated | evaluated | evaluated | evaluated | evaluated
     | evaluated | evaluated |].
  unfold Sample.community_serve. rewrite Hserve. evaluated.
Defined.

(** Asha deletes her community, naming it in capitals; its discussion goes
    with it. *)
Lemma X26_delete_cascades_witness :
  community_discussions
    (Sample.community_serve Sample.second Sample.forum
       (More.community "delete" (Some More.makers_in_capitals) None None)).2
  = ∅.
Proof.
  destruct (X26_delete_cascades Sample.accept_community Sample.accept_member
              Sample.keep_members Sample.uuid_in Sample.second Sample.forum
              (More.community "delete" (Some More.makers_in_capitals) None None)
              Sample.asha More.makers_in_capitals More.makers
              (Community.mk "Makers" None None Sample.asha None))
    as [_ Hdeleted];
    [sample_caller | evaluated | evaluated | evaluated | evaluated | evaluated
     | evaluated |].
  destruct (Hdeleted []) as (_ & _ & _ & Hrows); [evaluated |].
  apply map_empty. intros d.
  destruct (community_discussions _ !! d) as [x|] eqn:Hx; [|done].
  apply Hrows in Hx as [Hx Hne]. exfalso.
  destruct (decide (d = "d0000000-0000-4000-8000-000000000001")) as [->|Hd].
  - apply Hne. vm_compute in Hx. by injection Hx as <-.
  - unfold Sample.forum in Hx. cbn [with_discussions community_discussions] in Hx.
    by rewrite lookup_singleton_ne in Hx.
Defined.

(** Asha joins a community and leaves it again. *)
Lemma X27_join_and_leave_witness :
  (Sample.community_serve Sample.third
     (Sample.community_serve Sample.second Sample.forum
        (More.community "join" (Some More.makers) None None)).2
     (More.community "leave" (Some More.makers) None None)).2
  = Sample.forum.
Proof.
  destruct (X27_join_and_leave Sample.accept_community Sample.accept_member
              Sample.keep_members Sample.uuid_in Sample.second Sample.forum
              (More.community "join" (Some More.makers) None None)
              Sample.asha More.makers)
    as (_ & _ & Hround); [sample_caller | evaluated | evaluated |].
  apply Hround; [evaluated | evaluated | constructor | sample_caller
                 | evaluated | evaluated].
Defined.
